(** * msgraph/client.go: the base Microsoft Graph client

    A shallow embedding of [src/msgraph/client.go]: the URI builder
    ([buildUri]), the request executor ([performRequest]) with its
    rate-limiting and eventual-consistency retries, and the GET pagination
    walker ([Get]).

    Go's [int64] and [time.Duration] are [Z] with the wrap-around written
    out; [float64] is [spec_float] at binary64 precision; the effects of the
    code (sleeping, sending a request) are threaded through an explicit
    environment that also keeps the log of what was slept and sent.  A
    stream is the value of what is left to read in it: where the code or
    the transport reads a body to its end, the variable that holds the body
    is left with the drained stream. *)

From Stdlib Require Import ZArith List String Ascii Bool Lia DecimalString.
From Stdlib Require Import Floats.SpecFloat.
From Equations Require Import Equations.
From Ceres Require Ceres.
Import ListNotations.

Local Open Scope string_scope.
Local Open Scope list_scope.
Local Open Scope Z_scope.

(** ** Machine integers and durations *)

Module Int64.

Definition modulus : Z := 18446744073709551616.      (* 2^64 *)
Definition half_modulus : Z := 9223372036854775808.  (* 2^63 *)
Definition min_signed : Z := - half_modulus.
Definition max_signed : Z := half_modulus - 1.

(** Two's complement wrap-around of Go's [int64] arithmetic. *)
Definition wrap (z : Z) : Z := (z + half_modulus) mod modulus - half_modulus.

Definition add (a b : Z) : Z := wrap (a + b).
Definition mul (a b : Z) : Z := wrap (a * b).

Definition in_range (z : Z) : Prop := min_signed <= z <= max_signed.

End Int64.

Module time.

(** [time.Duration] counts nanoseconds in an [int64]. *)
Definition Duration := Z.
Definition Nanosecond : Duration := 1.
Definition Second : Duration := 1000000000.

End time.

(** ** float64, as far as the executor uses it *)

Module Float64.

Definition prec : Z := 53.
Definition emax : Z := 1024.

Definition float64 := spec_float.

(** [float64(n)] for an integer [n], rounded to nearest even. *)
Definition of_int (n : Z) : float64 := binary_normalize prec emax n 0 false.

Definition mul (x y : float64) : float64 := SFmul prec emax x y.

(** [x > 0]: false on NaN, as every ordered comparison is. *)
Definition gt_zero (x : float64) : bool := SFltb (S754_zero false) x.

(** [int64(x)]: the fraction is discarded (truncation towards zero).  Go
    leaves the result open when the value does not fit; the model takes
    amd64's answer there, the "integer indefinite" value [-2^63], which is
    also what NaN and the infinities give. *)
Definition to_int64 (x : float64) : Z :=
  match x with
  | S754_zero _ => 0
  | S754_infinity _ | S754_nan => Int64.min_signed
  | S754_finite s m e =>
      let mag := match e with
                 | Z0 => Zpos m
                 | Zpos p => Z.shiftl (Zpos m) (Zpos p)
                 | Zneg p => Z.shiftr (Zpos m) (Zpos p)
                 end in
      let v := if s then - mag else mag in
      if (Int64.min_signed <=? v) && (v <=? Int64.max_signed)
      then v else Int64.min_signed
  end.

End Float64.

(** ** Constants of the package (client.go, lines 20-32) *)

Definition ApiVersion := string.
Definition Version10 : ApiVersion := "v1.0".
Definition VersionBeta : ApiVersion := "beta".

Definition retryBackoffInitialDelay : time.Duration := 1 * time.Second.
Definition retryBackoffDelayCap : time.Duration := 64 * time.Second.
Definition requestAttemptsForRateLimiting : Z := 10.
Definition requestAttemptsForConsistency : Z := 6.

(** ** [backoffPower], the closure of [performRequest] (lines 136-142)

    [if exp <= 1 { return base }; return base * backoffPower(base, exp-1)] *)

#[local] Opaque Int64.mul.

Equations? backoffPower (base exp : Z) : Z by wf (Z.to_nat exp) lt :=
  backoffPower base exp with Z_le_gt_dec exp 1 => {
    | left _ := base;
    | right _ := Int64.mul base (backoffPower base (exp - 1)) }.
Proof. lia. Qed.

#[local] Transparent Int64.mul.

(** What lines 160-164 are written to compute on the pass that raises the
    multiplier to [m]: the initial delay doubled [m] times, capped. *)
Definition defaultBackoff (m : Z) : Z :=
  Z.min (retryBackoffInitialDelay * 2 ^ m) retryBackoffDelayCap.

(** ** The Go library, as far as the client touches it *)

(** An [error] value, by its message. *)
Definition error := string.

(** [[]byte]. *)
Definition bytes := list Byte.byte.

(** [%d] of [fmt.Sprintf]. *)
Definition fmt_d (z : Z) : string :=
  DecimalString.NilZero.string_of_int (Z.to_int z).

(** [%s] of [fmt.Sprintf] on a byte slice. *)
Definition fmt_bytes (b : bytes) : string := string_of_list_byte b.

(** An [io.ReadCloser]: what [io.ReadAll] returns on it, the data read and the
    error that ended the read ([None] for a clean end of stream). *)
Record ReadCloser := mkReadCloser {
  content : bytes;
  readErr : option error
}.

Definition io_ReadAll (r : ReadCloser) : bytes * option error :=
  (content r, readErr r).

(** [io.NopCloser(bytes.NewBuffer(b))]: a fresh stream over [b]. *)
Definition NopCloser_NewBuffer (b : bytes) : ReadCloser :=
  {| content := b; readErr := None |}.

(** [http.NoBody]. *)
Definition http_NoBody : ReadCloser := NopCloser_NewBuffer [].

(** A stream that has been read to its end: a further read gives no bytes
    and no error.  The streams this code reads are in-memory buffers (the
    request bodies of line 166, and the bodies of JSON responses, which
    [odata.FromResponse] has replaced by a buffer over the bytes it read);
    closing such a buffer does nothing to it. *)
Definition drained : ReadCloser := {| content := []; readErr := None |}.

(** [http.Header], keys in canonical form, in the order they were added. *)
Definition Header := list (string * string).

Definition Header_Add (h : Header) (key value : string) : Header :=
  h ++ [(key, value)].

(** [Header.Set]: the values of the key are replaced by the one value. *)
Definition Header_Set (h : Header) (key value : string) : Header :=
  filter (fun kv => negb (String.eqb (fst kv) key)) h ++ [(key, value)].

Fixpoint Header_Get (h : Header) (key : string) : string :=
  match h with
  | [] => ""
  | (k, v) :: h' => if String.eqb k key then v else Header_Get h' key
  end.

(** [strings.HasPrefix]. *)
Fixpoint strings_HasPrefix (s prefix : string) : bool :=
  match prefix, s with
  | EmptyString, _ => true
  | String _ _, EmptyString => false
  | String p prefix', String c s' =>
      Ascii.eqb c p && strings_HasPrefix s' prefix'
  end.

(** [strings.TrimLeft(s, cutset)]: drops every leading character of [s] that
    occurs in [cutset] (cutsets of single-byte characters). *)
Fixpoint inCutset (c : ascii) (cutset : string) : bool :=
  match cutset with
  | EmptyString => false
  | String d cutset' => Ascii.eqb c d || inCutset c cutset'
  end.

Fixpoint strings_TrimLeft (s cutset : string) : string :=
  match s with
  | EmptyString => EmptyString
  | String c s' =>
      if inCutset c cutset then strings_TrimLeft s' cutset else s
  end.

(** [url.URL], the fields [url.Parse] fills and [String] renders. *)
Record URL := mkURL {
  Scheme : string;
  Opaque : string;
  User : option string;
  Host : string;
  Path : string;
  RawPath : string;
  ForceQuery : bool;
  RawQuery : string;
  Fragment : string;
  RawFragment : string
}.

Definition URL_setPath (u : URL) (p : string) : URL :=
  {| Scheme := Scheme u; Opaque := Opaque u; User := User u; Host := Host u;
     Path := p; RawPath := RawPath u; ForceQuery := ForceQuery u;
     RawQuery := RawQuery u; Fragment := Fragment u;
     RawFragment := RawFragment u |}.

Definition URL_setRawQuery (u : URL) (q : string) : URL :=
  {| Scheme := Scheme u; Opaque := Opaque u; User := User u; Host := Host u;
     Path := Path u; RawPath := RawPath u; ForceQuery := ForceQuery u;
     RawQuery := q; Fragment := Fragment u;
     RawFragment := RawFragment u |}.

(** [url.Values]: the keys with their values. *)
Definition Values := list (string * list string).

(** [http.Request] and [http.Response]. *)
Record Request := mkRequest {
  Method : string;
  ReqURL : URL;
  ReqHeader : Header;
  ReqBody : option ReadCloser
}.

Definition Request_setHeader (r : Request) (h : Header) : Request :=
  {| Method := Method r; ReqURL := ReqURL r; ReqHeader := h;
     ReqBody := ReqBody r |}.

Definition Request_setBody (r : Request) (b : option ReadCloser) : Request :=
  {| Method := Method r; ReqURL := ReqURL r; ReqHeader := ReqHeader r;
     ReqBody := b |}.

Record Response := mkResponse {
  StatusCode : Z;
  RespHeader : Header;
  Body : ReadCloser
}.

Definition Response_setBody (r : Response) (b : ReadCloser) : Response :=
  {| StatusCode := StatusCode r; RespHeader := RespHeader r; Body := b |}.

Definition http_StatusNotFound : Z := 404.
Definition http_StatusFailedDependency : Z := 424.
Definition http_StatusTooManyRequests : Z := 429.
Definition http_StatusInternalServerError : Z := 500.
Definition http_StatusBadGateway : Z := 502.
Definition http_StatusServiceUnavailable : Z := 503.

(** Modelled from the spec: the [odata] package of the repository is not
    under src/.  The envelope has an optional next-page link, an optional
    ordered sequence of result items and an optional structured error; the
    remaining annotations of the document are the non-result metadata.  The
    structured error is kept by the text its [String] method renders. *)
Record OData := mkOData {
  Annotations : list (string * string);
  NextLink : option string;
  Value : option (list bytes);
  Error : option string
}.

Definition OData_setValue (d : OData) (v : option (list bytes)) : OData :=
  {| Annotations := Annotations d; NextLink := NextLink d; Value := v;
     Error := Error d |}.

(** What the client calls and this file does not define: the transport, the
    envelope decoder of the [odata] package, and functions of Go's standard
    library.  [World] is whatever state the transport and the authorizer
    keep between calls (the server, the network). *)
Class Runtime := {
  World : Type;
  (** [c.HttpClient.Do(req)] *)
  HttpClient_Do : Request -> World -> (Response + error) * World;
  (** [odata.FromResponse(resp)]: the envelope and the error; it leaves the
      response body readable. *)
  odata_FromResponse : Response -> option OData * option error;
  (** [strconv.ParseFloat(s, 64)], [None] when [err != nil] *)
  strconv_ParseFloat : string -> option Float64.float64;
  (** [strings.ToLower] *)
  strings_ToLower : string -> string;
  (** [json.Unmarshal] into an [odata.OData], and [json.Marshal] of one *)
  json_Unmarshal : bytes -> OData + error;
  json_Marshal : OData -> bytes + error;
  (** [url.Parse], [URL.String] and [Values.Encode] *)
  url_Parse : string -> URL + error;
  URL_String : URL -> string;
  Values_Encode : Values -> string
}.

(** ** The client's own types (client.go, lines 34-82) *)

(** [ConsistencyFailureFunc] and [ValidStatusFunc]: predicates on the
    response and its envelope; a [nil] function is [None]. *)
Definition ConsistencyFailureFunc := Response -> option OData -> bool.
Definition ValidStatusFunc := Response -> option OData -> bool.

(** [RetryOn404ConsistencyFailureFunc] (lines 37-40). *)
Definition RetryOn404ConsistencyFailureFunc : ConsistencyFailureFunc :=
  fun resp _ => StatusCode resp =? http_StatusNotFound.

(** The interface [HttpRequestInput] (lines 45-50). *)
Class HttpRequestInput (I : Type) := {
  GetConsistencyFailureFunc : I -> option ConsistencyFailureFunc;
  GetValidStatusCodes : I -> list Z;
  GetValidStatusFunc : I -> option ValidStatusFunc
}.

Record Uri := mkUri {
  Entity : string;
  Params : option Values;
  HasTenantId : bool
}.

Record DeleteHttpRequestInput := mkDeleteInput {
  delete_ConsistencyFailureFunc : option ConsistencyFailureFunc;
  delete_ValidStatusCodes : list Z;
  delete_ValidStatusFunc : option ValidStatusFunc;
  delete_Uri : Uri
}.

#[export] Instance DeleteHttpRequestInput_input :
  HttpRequestInput DeleteHttpRequestInput :=
  {| GetConsistencyFailureFunc := delete_ConsistencyFailureFunc;
     GetValidStatusCodes := delete_ValidStatusCodes;
     GetValidStatusFunc := delete_ValidStatusFunc |}.

Record GetHttpRequestInput := mkGetInput {
  get_ConsistencyFailureFunc : option ConsistencyFailureFunc;
  get_DisablePaging : bool;
  get_ValidStatusCodes : list Z;
  get_ValidStatusFunc : option ValidStatusFunc;
  get_Uri : Uri;
  get_rawUri : string
}.

#[export] Instance GetHttpRequestInput_input :
  HttpRequestInput GetHttpRequestInput :=
  {| GetConsistencyFailureFunc := get_ConsistencyFailureFunc;
     GetValidStatusCodes := get_ValidStatusCodes;
     GetValidStatusFunc := get_ValidStatusFunc |}.

Definition GetHttpRequestInput_setRawUri
    (i : GetHttpRequestInput) (u : string) : GetHttpRequestInput :=
  {| get_ConsistencyFailureFunc := get_ConsistencyFailureFunc i;
     get_DisablePaging := get_DisablePaging i;
     get_ValidStatusCodes := get_ValidStatusCodes i;
     get_ValidStatusFunc := get_ValidStatusFunc i;
     get_Uri := get_Uri i;
     get_rawUri := u |}.

Record PatchHttpRequestInput := mkPatchInput {
  patch_ConsistencyFailureFunc : option ConsistencyFailureFunc;
  patch_Body : bytes;
  patch_ValidStatusCodes : list Z;
  patch_ValidStatusFunc : option ValidStatusFunc;
  patch_Uri : Uri
}.

#[export] Instance PatchHttpRequestInput_input :
  HttpRequestInput PatchHttpRequestInput :=
  {| GetConsistencyFailureFunc := patch_ConsistencyFailureFunc;
     GetValidStatusCodes := patch_ValidStatusCodes;
     GetValidStatusFunc := patch_ValidStatusFunc |}.

Record PostHttpRequestInput := mkPostInput {
  post_Body : bytes;
  post_ConsistencyFailureFunc : option ConsistencyFailureFunc;
  post_ValidStatusCodes : list Z;
  post_ValidStatusFunc : option ValidStatusFunc;
  post_Uri : Uri
}.

#[export] Instance PostHttpRequestInput_input :
  HttpRequestInput PostHttpRequestInput :=
  {| GetConsistencyFailureFunc := post_ConsistencyFailureFunc;
     GetValidStatusCodes := post_ValidStatusCodes;
     GetValidStatusFunc := post_ValidStatusFunc |}.

Record PutHttpRequestInput := mkPutInput {
  put_ConsistencyFailureFunc : option ConsistencyFailureFunc;
  put_Body : bytes;
  put_ValidStatusCodes : list Z;
  put_ValidStatusFunc : option ValidStatusFunc;
  put_Uri : Uri
}.

#[export] Instance PutHttpRequestInput_input :
  HttpRequestInput PutHttpRequestInput :=
  {| GetConsistencyFailureFunc := put_ConsistencyFailureFunc;
     GetValidStatusCodes := put_ValidStatusCodes;
     GetValidStatusFunc := put_ValidStatusFunc |}.

(** What a run does to the outside, in the order it does it. *)
Inductive Event :=
| Slept (d : time.Duration)
| Sent (req : Request).

(** The durations slept and the requests sent, in order. *)
Fixpoint sleeps (evs : list Event) : list time.Duration :=
  match evs with
  | [] => []
  | Slept d :: evs' => d :: sleeps evs'
  | Sent _ :: evs' => sleeps evs'
  end.

Fixpoint sentRequests (evs : list Event) : list Request :=
  match evs with
  | [] => []
  | Slept _ :: evs' => sentRequests evs'
  | Sent r :: evs' => r :: sentRequests evs'
  end.

(** The four values every operation returns: the response, the status, the
    envelope and the error. *)
Definition Result := (option Response * Z * option OData * option error)%type.

Definition result_resp (r : Result) : option Response := fst (fst (fst r)).
Definition result_status (r : Result) : Z := snd (fst (fst r)).
Definition result_odata (r : Result) : option OData := snd (fst r).
Definition result_err (r : Result) : option error := snd r.

(** [containsStatusCode] (lines 234-243). *)
Fixpoint containsStatusCode (expected : list Z) (actual : Z) : bool :=
  match expected with
  | [] => false
  | v :: expected' =>
      if actual =? v then true else containsStatusCode expected' actual
  end.

(** The statuses of the rate-limiting branch (lines 194-200). *)
Definition rateLimitingStatuses : list Z :=
  [ http_StatusFailedDependency;
    http_StatusTooManyRequests;
    http_StatusInternalServerError;
    http_StatusBadGateway;
    http_StatusServiceUnavailable ].

(** ** The operations of the client *)

Section ClientOperations.

Context {rt : Runtime}.

(** The state a call threads: the outside world and the log of events. *)
Record Env := mkEnv {
  world : World;
  log : list Event
}.

(** [time.Sleep(d)]. *)
Definition time_Sleep (d : time.Duration) (env : Env) : Env :=
  {| world := world env; log := log env ++ [Slept d] |}.

(** [c.HttpClient.Do(req)], logged. *)
Definition Do (req : Request) (env : Env) : (Response + error) * Env :=
  let (r, w) := HttpClient_Do req (world env) in
  (r, {| world := w; log := log env ++ [Sent req] |}).

(** Modelled from the spec: the [auth] package of the repository is not
    under src/.  An authorizer yields a credential or a failure; it is kept
    by its [Token] call, which gives the value that [SetAuthHeader] puts in
    the Authorization header, or the error. *)
Definition auth_Authorizer := World -> (string + error) * World.

(** [Client] (lines 59-82); the transport [HttpClient] is
    [HttpClient_Do] of the runtime. *)
Record Client := mkClient {
  Endpoint : string;
  Client_ApiVersion : ApiVersion;
  TenantId : string;
  UserAgent : string;
  Authorizer : option auth_Authorizer;
  DisableRetries : bool
}.

(** *** [buildUri] (lines 95-110) *)

Definition buildUri (c : Client) (uri : Uri) : string * option error :=
  match url_Parse (Endpoint c) with
  | inr err => ("", Some err)
  | inl newUrl =>
      let newUrl := URL_setPath newUrl ("/" ++ Client_ApiVersion c)%string in
      let newUrl :=
        if HasTenantId uri
        then URL_setPath newUrl (Path newUrl ++ "/" ++ TenantId c)%string
        else newUrl in
      let newUrl :=
        URL_setPath newUrl
          (Path newUrl ++ "/" ++ strings_TrimLeft (Entity uri) "/")%string in
      let newUrl :=
        match Params uri with
        | Some params => URL_setRawQuery newUrl (Values_Encode params)
        | None => newUrl
        end in
      (URL_String newUrl, None)
  end.

(** *** [performRequest] (lines 112-232) *)

(** The variables declared before the loop and assigned in it. *)
Record LoopVars := mkLoopVars {
  resp : option Response;
  o : option OData;
  status : Z;
  backoff : Z;
  multiplier : Z
}.

Definition setResponse (v : LoopVars) (r : Response) (od : option OData)
  : LoopVars :=
  {| resp := Some r; o := od; status := status v; backoff := backoff v;
     multiplier := multiplier v |}.

Definition setStatus (v : LoopVars) (s : Z) : LoopVars :=
  {| resp := resp v; o := o v; status := s; backoff := backoff v;
     multiplier := multiplier v |}.

Definition setBackoff (v : LoopVars) (b m : Z) : LoopVars :=
  {| resp := resp v; o := o v; status := status v; backoff := b;
     multiplier := m |}.

(** Lines 154-164: sleep after the previous failed attempt, then the
    default exponential backoff for the next one. *)
Definition sleepAndBackoff (attempts : Z) (v : LoopVars) (env : Env)
  : LoopVars * Env :=
  let env := if 0 <? attempts then time_Sleep (backoff v) env else env in
  let multiplier := Int64.add (multiplier v) 1 in
  let backoff :=
    Int64.mul retryBackoffInitialDelay (backoffPower 2 multiplier) in
  let backoff :=
    if retryBackoffDelayCap <? backoff then retryBackoffDelayCap
    else backoff in
  (setBackoff v backoff multiplier, env).

(** Lines 177-185: whether the attempt is given up as an eventual
    consistency failure and tried again. *)
Definition consistencyRetry {I} `{HttpRequestInput I}
    (c : Client) (input : I) (attempts : Z)
    (r : Response) (od : option OData) : bool :=
  if negb (DisableRetries c) then
    match GetConsistencyFailureFunc input with
    | Some f =>
        if f r od then attempts <? requestAttemptsForConsistency else false
    | None => false
    end
  else false.

(** Lines 203-206: the delay a Retry-After header asks for, when the
    header is there, parses as a float and is greater than zero. *)
Definition retryAfterDelay (r : Response) : option Z :=
  let retryAfter := Header_Get (RespHeader r) "Retry-After" in
  if String.eqb retryAfter "" then None
  else
    match strconv_ParseFloat retryAfter with
    | Some f =>
        if Float64.gt_zero f
        then Some (Float64.to_int64
                     (Float64.mul f (Float64.of_int time.Second)))
        else None
    | None => None
    end.

(** Lines 203-209: a Retry-After header that is honoured replaces the
    backoff and sets the multiplier back to zero. *)
Definition retryAfterBackoff (r : Response) (v : LoopVars) : LoopVars :=
  match retryAfterDelay r with
  | Some d => setBackoff v d 0
  | None => v
  end.

(** Lines 213-225: the error of an unexpected status. *)
Definition unexpectedStatus (r : Response) (od : option OData)
    (st : Z) : Result :=
  let odataError :=
    match od with
    | Some d =>
        match Error d with
        | Some e => if String.eqb e "" then None else Some e
        | None => None
        end
    | None => None
    end in
  match odataError with
  | Some e =>
      (None, st, od,
       Some ("unexpected status " ++ fmt_d (StatusCode r) ++ " with "
             ++ "OData error: " ++ e)%string)
  | None =>
      match io_ReadAll (Body r) with
      | (_, Some _) =>
          (None, st, od,
           Some ("unexpected status " ++ fmt_d (StatusCode r)
                 ++ ", could not read response body")%string)
      | (respBody, None) =>
          (None, st, od,
           Some ("unexpected status " ++ fmt_d (StatusCode r) ++ " with "
                 ++ "response: " ++ fmt_bytes respBody)%string)
      end
  end.

(** How one pass through the loop body ends. *)
Inductive Flow :=
| Continue (v : LoopVars)
| Break (v : LoopVars)
| Return (r : Result).

(** Lines 187-228: the response is judged by its status. *)
Definition evaluateStatus {I} `{HttpRequestInput I}
    (input : I) (v : LoopVars) (r : Response) (od : option OData) : Flow :=
  let st := StatusCode r in
  let v := setStatus v st in
  if containsStatusCode (GetValidStatusCodes input) st then Break v
  else
    if match GetValidStatusFunc input with
       | Some f => f r od
       | None => false
       end
    then Return (Some r, st, od, None)
    else
      if containsStatusCode rateLimitingStatuses st
      then Continue (retryAfterBackoff r v)
      else Return (unexpectedStatus r od st).

(** Lines 177-228: what is done with a decoded response. *)
Definition evaluate {I} `{HttpRequestInput I}
    (c : Client) (input : I) (attempts : Z) (v : LoopVars)
    (r : Response) (od : option OData) : Flow :=
  if consistencyRetry c input attempts r od then Continue v
  else evaluateStatus input v r od.

(** The request once the stream of its body has been read to the end, by
    [io.ReadAll] at line 146 or by the transport that sent it: the request
    variable still holds that stream, and nothing is left in it. *)
Definition usedUp (req : Request) : Request :=
  match ReqBody req with
  | Some _ => Request_setBody req (Some drained)
  | None => req
  end.

(** Lines 153-231: the loop
    [for attempts = 0; attempts < requestAttemptsForRateLimiting; attempts++]
    and the return after it.  [remaining] bounds the passes still allowed;
    [performRequest] starts it with as many as the loop condition allows. *)
Fixpoint attemptLoop {I} `{HttpRequestInput I}
    (c : Client) (req : Request) (reqBody : bytes) (input : I)
    (remaining : nat) (attempts : Z) (v : LoopVars) (env : Env)
  : Result * Env :=
  if attempts <? requestAttemptsForRateLimiting then
    match remaining with
    | O => ((resp v, status v, o v, None), env)
    | S remaining' =>
        let '(v, env) := sleepAndBackoff attempts v env in
        let req := Request_setBody req (Some (NopCloser_NewBuffer reqBody)) in
        let '(sent, env) := Do req env in
        (* the transport has read the body of the request it sent *)
        let req := usedUp req in
        match sent with
        | inr err => ((None, status v, None, Some err), env)
        | inl r =>
            match odata_FromResponse r with
            | (od, Some err) => ((None, status v, od, Some err), env)
            | (od, None) =>
                let v := setResponse v r od in
                match evaluate c input attempts v r od with
                | Continue v' =>
                    attemptLoop c req reqBody input remaining'
                      (Int64.add attempts 1) v' env
                | Break v' => ((resp v', status v', o v', None), env)
                | Return res => (res, env)
                end
            end
        end
    end
  else ((resp v, status v, o v, None), env).

(** Lines 116-130: the token and the standard headers. *)
Definition authorize (c : Client) (req : Request) (env : Env)
  : (Request + error) * Env :=
  match Authorizer c with
  | Some tokenOf =>
      match tokenOf (world env) with
      | (inr err, w) => (inr err, {| world := w; log := log env |})
      | (inl token, w) =>
          (inl (Request_setHeader req
                  (Header_Set (ReqHeader req) "Authorization" token)),
           {| world := w; log := log env |})
      end
  | None => (inl req, env)
  end.

Definition addHeaders (c : Client) (req : Request) : Request :=
  let h := Header_Add (ReqHeader req) "Accept" "application/json" in
  let h := Header_Add h "Content-Type" "application/json; charset=utf-8" in
  let h := if String.eqb (UserAgent c) "" then h
           else Header_Add h "User-Agent" (UserAgent c) in
  Request_setHeader req h.

(** Lines 144-150: the request body is read once, before the loop. *)
Definition readRequestBody (req : Request) : bytes * option error :=
  match ReqBody req with
  | Some body => io_ReadAll body
  | None => ([], None)
  end.

Definition initialVars : LoopVars :=
  {| resp := None; o := None; status := 0; backoff := 0; multiplier := 0 |}.

Definition performRequest {I} `{HttpRequestInput I}
    (c : Client) (req : Request) (input : I) (env : Env) : Result * Env :=
  match authorize c req env with
  | (inr err, env) => ((None, 0, None, Some err), env)
  | (inl req, env) =>
      let req := addHeaders c req in
      match readRequestBody req with
      | (_, Some err) =>
          ((None, 0, None,
            Some ("reading request body: " ++ err)%string), env)
      | (reqBody, None) =>
          (* the stream that was read is used up; the loop sets a new one *)
          let req := usedUp req in
          attemptLoop c req reqBody input
            (Z.to_nat requestAttemptsForRateLimiting) 0 initialVars env
      end
  end.

(** *** Vocabulary for statements about [performRequest] *)

(** The request the loop sends on every pass (line 166). *)
Definition requestSent (req : Request) (reqBody : bytes) : Request :=
  Request_setBody req (Some (NopCloser_NewBuffer reqBody)).

(** The world after the transport has served [req] [n] times, and its
    answer to the next one. *)
Fixpoint worldAfter (req : Request) (n : nat) (w : World) : World :=
  match n with
  | O => w
  | S n' => worldAfter req n' (snd (HttpClient_Do req w))
  end.

Definition answer (req : Request) (n : nat) (w : World) : Response + error :=
  fst (HttpClient_Do req (worldAfter req n w)).

(** The environment after the request of a pass has been sent. *)
Definition afterSend (req : Request) (reqBody : bytes) (attempts : Z)
    (v : LoopVars) (env : Env) : Env :=
  {| world := snd (HttpClient_Do (requestSent req reqBody) (world env));
     log := log (snd (sleepAndBackoff attempts v env))
            ++ [Sent (requestSent req reqBody)] |}.

(** The delays of the passes [from], [from + 1], ... ([n] of them), when
    each is the default backoff of its pass. *)
Fixpoint backoffSchedule (from : Z) (n : nat) : list time.Duration :=
  match n with
  | O => []
  | S n' => defaultBackoff from :: backoffSchedule (from + 1) n'
  end.

(** The transport never hands back a response whose Retry-After would be
    honoured. *)
Definition noRetryAfter : Prop :=
  forall (rq : Request) (w : World) (r : Response),
    fst (HttpClient_Do rq w) = inl r -> retryAfterDelay r = None.

(** The pass ends in the rate-limiting branch (lines 201-211): no
    consistency retry, a status that is not valid and that the valid-status
    function does not accept, and one of the rate-limiting statuses. *)
Definition reachesRateLimiting {I} `{HttpRequestInput I}
    (c : Client) (input : I) (attempts : Z)
    (r : Response) (od : option OData) : bool :=
  negb (consistencyRetry c input attempts r od)
  && negb (containsStatusCode (GetValidStatusCodes input) (StatusCode r))
  && negb (match GetValidStatusFunc input with
           | Some f => f r od
           | None => false
           end)
  && containsStatusCode rateLimitingStatuses (StatusCode r).

(** The pass is retried, for either of the two reasons the loop has. *)
Definition retried {I} `{HttpRequestInput I}
    (c : Client) (input : I) (attempts : Z)
    (r : Response) (od : option OData) : bool :=
  consistencyRetry c input attempts r od
  || reachesRateLimiting c input attempts r od.

(** The first [i] requests [sent] to the transport in the world [w] were
    answered, the answers decoded, and the attempts retried. *)
Definition retriedUpTo {I} `{HttpRequestInput I}
    (c : Client) (input : I) (sent : Request) (w : World) (i : nat) : Prop :=
  forall j, (j < i)%nat ->
    exists rj odj,
      answer sent j w = inl rj
      /\ odata_FromResponse rj = (odj, None)
      /\ retried c input (Z.of_nat j) rj odj = true.

(** What the call returns for a response that is judged by its status and
    whose status is not one of the rate-limiting class (lines 187-231). *)
Definition judgedByStatus {I} `{HttpRequestInput I}
    (input : I) (r : Response) (od : option OData) : Result :=
  if containsStatusCode (GetValidStatusCodes input) (StatusCode r)
     || match GetValidStatusFunc input with
        | Some f => f r od
        | None => false
        end
  then (Some r, StatusCode r, od, None)
  else unexpectedStatus r od (StatusCode r).

(** *** The verbs (lines 245-523) *)

(** [http.NewRequestWithContext(ctx, method, url, body)] with a context and
    a method that are in order: it fails when the URL does not parse. *)
Definition http_NewRequestWithContext (method url : string)
    (body : ReadCloser) : Request + error :=
  match url_Parse url with
  | inr err => inr err
  | inl u =>
      inl {| Method := method; ReqURL := u; ReqHeader := [];
             ReqBody := Some body |}
  end.

(** Delete, Patch, Post and Put share their body: build the URI, build the
    request, perform it, and drop the response on an error. *)
Definition simpleVerb {I} `{HttpRequestInput I}
    (method : string) (c : Client) (uri : Uri) (body : ReadCloser)
    (input : I) (env : Env) : Result * Env :=
  match buildUri c uri with
  | (_, Some err) =>
      ((None, 0, None, Some ("unable to make request: " ++ err)%string), env)
  | (url, None) =>
      match http_NewRequestWithContext method url body with
      | inr err => ((None, 0, None, Some err), env)
      | inl req =>
          match performRequest c req input env with
          | ((_, st, od, Some err), env) => ((None, st, od, Some err), env)
          | ((r, st, od, None), env) => ((r, st, od, None), env)
          end
      end
  end.

Definition Delete (c : Client) (input : DeleteHttpRequestInput) (env : Env)
  : Result * Env :=
  simpleVerb "DELETE" c (delete_Uri input) http_NoBody input env.

Definition Patch (c : Client) (input : PatchHttpRequestInput) (env : Env)
  : Result * Env :=
  simpleVerb "PATCH" c (patch_Uri input)
    (NopCloser_NewBuffer (patch_Body input)) input env.

Definition Post (c : Client) (input : PostHttpRequestInput) (env : Env)
  : Result * Env :=
  simpleVerb "POST" c (post_Uri input)
    (NopCloser_NewBuffer (post_Body input)) input env.

Definition Put (c : Client) (input : PutHttpRequestInput) (env : Env)
  : Result * Env :=
  simpleVerb "PUT" c (put_Uri input)
    (NopCloser_NewBuffer (put_Body input)) input env.

(** How a call of [Get] ends: it returns, it dereferences a nil response,
    or the pages it was pointed at outlast the depth allowed to the
    model. *)
Inductive Outcome :=
| Returns (r : Result) (env : Env)
| Panics
| OutOfFuel.

(** Lines 337-339: the content type test. *)
Definition isJson (r : Response) : bool :=
  strings_HasPrefix
    (strings_ToLower (Header_Get (RespHeader r) "Content-Type"))
    "application/json".

(** Lines 315-323: check for a raw uri, else build one from the Uri field. *)
Definition requestUrl (c : Client) (input : GetHttpRequestInput)
  : string * option error :=
  if String.eqb (get_rawUri input) ""
  then buildUri c (get_Uri input)
  else (get_rawUri input, None).

(** [Get] (lines 311-397).  It calls itself once for every further page;
    [fuel] bounds the depth of these calls. *)
Fixpoint Get (fuel : nat) (c : Client) (input : GetHttpRequestInput)
    (env : Env) : Outcome :=
  match fuel with
  | O => OutOfFuel
  | S fuel' =>
      match requestUrl c input with
      | (_, Some err) =>
          Returns
            (None, 0, None, Some ("unable to make request: " ++ err)%string)
            env
      | (url, None) =>
      match http_NewRequestWithContext "GET" url http_NoBody with
      | inr err => Returns (None, 0, None, Some err) env
      | inl req =>
      match performRequest c req input env with
      | ((_, st, od, Some err), env) => Returns (None, st, od, Some err) env
      | ((None, _, _, None), _) => Panics
      | ((Some r, st, od, None), env) =>
      if isJson r then
        (* Read the response body and close it *)
        match io_ReadAll (Body r) with
        | (_, Some _) =>
            Returns (None, st, od, Some "could not parse response body") env
        | (respBody, None) =>
        match json_Unmarshal respBody with
        | inr err => Returns (None, st, od, Some err) env
        | inl firstOdata =>
        match get_DisablePaging input, NextLink firstOdata,
              Value firstOdata with
        | false, Some nextLink, Some firstValue =>
            (* Get the next page, recursively *)
            let nextInput := GetHttpRequestInput_setRawUri input nextLink in
            match Get fuel' c nextInput env with
            | OutOfFuel => OutOfFuel
            | Panics => Panics
            | Returns (_, st', od', Some err) env =>
                Returns
                  (Some (Response_setBody r drained), st', od', Some err)
                  env
            | Returns (None, _, _, None) _ => Panics
            | Returns (Some nextResp, st', od', None) env =>
            match io_ReadAll (Body nextResp) with
            | (_, Some _) =>
                Returns
                  (None, st', od', Some "could not parse response body") env
            | (nextRespBody, None) =>
            match json_Unmarshal nextRespBody with
            | inr err =>
                Returns
                  (Some (Response_setBody r drained), st', od', Some err)
                  env
            | inl nextOdata =>
                let nextOdata :=
                  match Value nextOdata with
                  | Some nextValue =>
                      (* Next page has results, append to current page *)
                      OData_setValue nextOdata
                        (Some (firstValue ++ nextValue))
                  | None => nextOdata
                  end in
                match json_Marshal nextOdata with
                | inr err =>
                    Returns
                      (Some (Response_setBody r drained), st', od',
                       Some err)
                      env
                | inl newJson =>
                    Returns
                      (Some (Response_setBody r
                               (NopCloser_NewBuffer newJson)),
                       st, od, None)
                      env
                end
            end
            end
            end
        | _, _, _ =>
            (* No more pages, reassign response body and return *)
            Returns
              (Some (Response_setBody r (NopCloser_NewBuffer respBody)),
               st, od, None)
              env
        end
        end
        end
      else Returns (Some r, st, od, None) env
      end
      end
      end
  end.

(** An entity path with [n] slashes put before it. *)
Fixpoint withSlashes (n : nat) (entity : string) : string :=
  match n with
  | O => entity
  | S n' => String "/" (withSlashes n' entity)
  end.

(** *** Vocabulary for statements about the verbs *)

(** The request carries the method and the body of a verb and the standard
    headers of the client (lines 124-130). *)
Definition carries (c : Client) (method : string) (body : bytes)
    (rq : Request) : Prop :=
  Method rq = method
  /\ ReqBody rq = Some (NopCloser_NewBuffer body)
  /\ Header_Get (ReqHeader rq) "Accept" = "application/json"
  /\ Header_Get (ReqHeader rq) "Content-Type"
     = "application/json; charset=utf-8"
  /\ Header_Get (ReqHeader rq) "User-Agent" = UserAgent c.

(** One page of a collection as [Get] fetches it: the request for the URL of
    the input is performed without error and answered with a JSON document
    [p] that is read whole. *)
Definition fetchesPage (c : Client) (input : GetHttpRequestInput) (env : Env)
    (r : Response) (st : Z) (od : option OData) (p : OData) (env1 : Env)
  : Prop :=
  exists url req b,
    requestUrl c input = (url, None)
    /\ http_NewRequestWithContext "GET" url http_NoBody = inl req
    /\ performRequest c req input env = ((Some r, st, od, None), env1)
    /\ isJson r = true
    /\ io_ReadAll (Body r) = (b, None)
    /\ json_Unmarshal b = inl p.

(** A collection served in linked pages whose result arrays are [pages], in
    the order of the links, to an input with paging enabled.  [r], [st] and
    [od] are what [performRequest] gave for the first page, [env'] is the
    environment after the last page was fetched, and [body] are the bytes
    that the call of [Get] for these pages hands up: for the last page the
    bytes that were read, for every other page the rendering of the merged
    envelope.  Two things are asked of [json.Marshal] and [json.Unmarshal]
    where the code calls them: the bytes handed up by the call for the rest
    of the pages decode (line 376) to a document with the result array that
    was handed up, and the merged envelope is one that [json.Marshal]
    renders (line 388).  Nothing is asked of the bytes handed up by the
    outermost call, which the code does not decode. *)
Inductive Paged (c : Client)
  : GetHttpRequestInput -> Env -> list (list bytes) -> Response -> Z ->
    option OData -> bytes -> Env -> Prop :=
| Paged_last (input : GetHttpRequestInput) (env env1 : Env) (r : Response)
    (st : Z) (od : option OData) (p : OData) (v : list bytes) (b : bytes) :
    fetchesPage c input env r st od p env1 ->
    io_ReadAll (Body r) = (b, None) ->
    NextLink p = None ->
    Value p = Some v ->
    Paged c input env [v] r st od b env1
| Paged_next (input : GetHttpRequestInput) (env env1 env2 : Env)
    (r r' : Response) (st st' : Z) (od od' : option OData) (p d : OData)
    (link : string) (v : list bytes) (rest : list (list bytes))
    (handed merged : bytes) :
    get_DisablePaging input = false ->
    fetchesPage c input env r st od p env1 ->
    NextLink p = Some link ->
    Value p = Some v ->
    Paged c (GetHttpRequestInput_setRawUri input link) env1 rest r' st' od'
      handed env2 ->
    json_Unmarshal handed = inl d ->
    Value d = Some (List.concat rest) ->
    json_Marshal (OData_setValue d (Some (v ++ List.concat rest)))
      = inl merged ->
    Paged c input env (v :: rest) r st od merged env2.

End ClientOperations.

(** ** A runtime to run the client on

    A deterministic stand-in for what [Runtime] leaves open, used to run the
    client on concrete requests: the server answers the n-th request it
    receives by a function of [n] and of the request; documents travel as
    the S-expression rendering of the envelope, printed and parsed by Ceres;
    numbers are read in their plain decimal form only. *)

Module Scripted.

Definition isUpper (c : ascii) : bool :=
  let n := nat_of_ascii c in (65 <=? n)%nat && (n <=? 90)%nat.

Definition lowerAscii (c : ascii) : ascii :=
  if isUpper c then ascii_of_nat (nat_of_ascii c + 32) else c.

(** [strings.ToLower] on ASCII text. *)
Fixpoint toLower (s : string) : string :=
  match s with
  | EmptyString => EmptyString
  | String c s' => String (lowerAscii c) (toLower s')
  end.

Definition digitOf (c : ascii) : option Z :=
  let n := Z.of_nat (nat_of_ascii c) in
  if (48 <=? n) && (n <=? 57) then Some (n - 48) else None.

(** Reads the leading decimal digits of [s]: their value after [acc], how
    many there were after [count], and the rest of [s]. *)
Fixpoint readDigits (s : string) (acc count : Z) : Z * Z * string :=
  match s with
  | EmptyString => (acc, count, EmptyString)
  | String c s' =>
      match digitOf c with
      | Some d => readDigits s' (10 * acc + d) (count + 1)
      | None => (acc, count, s)
      end
  end.

(** [strconv.ParseFloat(s, 64)] on plain decimals: an optional sign, digits
    and an optional fraction, rounded to the nearest float64.  Exponents,
    hexadecimal floats, infinities and NaN are refused. *)
Definition parseFloat (s : string) : option Float64.float64 :=
  let '(neg, body) :=
    match s with
    | String "-" s' => (true, s')
    | String "+" s' => (false, s')
    | _ => (false, s)
    end in
  let '(ip, ic, rest) := readDigits body 0 0 in
  let '(fp, fc, rest') :=
    match rest with
    | String "." f => readDigits f 0 0
    | _ => (0, 0, rest)
    end in
  if negb (String.eqb rest' "") || (ic + fc =? 0) then None
  else
    match ip * 10 ^ fc + fp with
    | Zpos m =>
        match SFdiv Float64.prec Float64.emax
                (S754_finite neg m 0)
                (S754_finite false (Z.to_pos (10 ^ fc)) 0) with
        | S754_infinity _ | S754_nan => None
        | f => Some f
        end
    | _ => Some (S754_zero neg)
    end.

(** Splits [s] at the first character for which [stop] holds. *)
Fixpoint splitWhere (stop : ascii -> bool) (s : string) : string * string :=
  match s with
  | EmptyString => (EmptyString, EmptyString)
  | String c s' =>
      if stop c then (EmptyString, s)
      else let (a, b) := splitWhere stop s' in (String c a, b)
  end.

(** *** URLs, as the package [net/url] parses and renders them

    [url.Parse] and [URL.String] are followed step by step, with two things
    left out: user information in the authority and IP literals in
    brackets.  An authority with an at sign or an opening bracket is refused
    here, which [url.Parse] does only when it is malformed. *)

Definition hexDigit (n : nat) : ascii :=
  if (n <? 10)%nat then ascii_of_nat (48 + n) else ascii_of_nat (55 + n).

Definition isLetter (c : ascii) : bool :=
  let n := nat_of_ascii c in
  ((65 <=? n) && (n <=? 90) || (97 <=? n) && (n <=? 122))%nat.

Definition isDigit (c : ascii) : bool :=
  let n := nat_of_ascii c in ((48 <=? n) && (n <=? 57))%nat.

Definition ishex (c : ascii) : bool :=
  let n := nat_of_ascii c in
  isDigit c || ((65 <=? n) && (n <=? 70) || (97 <=? n) && (n <=? 102))%nat.

Definition unhex (c : ascii) : nat :=
  let n := nat_of_ascii c in
  if isDigit c then n - 48
  else if (97 <=? n)%nat then n - 97 + 10
  else n - 65 + 10.

Definition doubleQuote : ascii := ascii_of_nat 34.
Definition backslash : ascii := ascii_of_nat 92.

(** [strconv.Quote] on ASCII text: the quotes, the backslash and the
    control characters are escaped. *)
Fixpoint quoteBody (s : string) : string :=
  match s with
  | EmptyString => EmptyString
  | String c s' =>
      let n := nat_of_ascii c in
      let rest := quoteBody s' in
      if Ascii.eqb c doubleQuote || Ascii.eqb c backslash
      then String backslash (String c rest)
      else if (n =? 7)%nat then String backslash (String "a" rest)
      else if (n =? 8)%nat then String backslash (String "b" rest)
      else if (n =? 9)%nat then String backslash (String "t" rest)
      else if (n =? 10)%nat then String backslash (String "n" rest)
      else if (n =? 11)%nat then String backslash (String "v" rest)
      else if (n =? 12)%nat then String backslash (String "f" rest)
      else if (n =? 13)%nat then String backslash (String "r" rest)
      else if (n <? 32)%nat || (n =? 127)%nat
      then String backslash
             (String "x"
                (String (lowerAscii (hexDigit (n / 16)))
                   (String (lowerAscii (hexDigit (n mod 16))) rest)))
      else String c rest
  end.

Definition strconv_Quote (s : string) : string :=
  String doubleQuote (quoteBody s ++ String doubleQuote EmptyString).

(** The modes of escaping that a URL without user information needs. *)
Inductive encoding := encodePath | encodeHost | encodeFragment.

Definition isHost (mode : encoding) : bool :=
  match mode with encodeHost => true | _ => false end.

Definition singleQuote : ascii := ascii_of_nat 39.

(** [shouldEscape(c, mode)]. *)
Definition shouldEscape (c : ascii) (mode : encoding) : bool :=
  if isLetter c || isDigit c then false
  else if isHost mode
          && (inCutset c "!$&()*+,;=:[]<>" || Ascii.eqb c singleQuote
              || Ascii.eqb c doubleQuote)
  then false
  else if inCutset c "-_.~" then false
  else if inCutset c "$&+,/:;=?@" then
    match mode with
    | encodePath => Ascii.eqb c "?"
    | encodeFragment => false
    | encodeHost => true
    end
  else
    match mode with
    | encodeFragment => negb (inCutset c "!()*")
    | _ => true
    end.

(** [escape(s, mode)]: every byte that should be escaped becomes a percent
    sign and two upper-case hexadecimal digits. *)
Fixpoint escape (s : string) (mode : encoding) : string :=
  match s with
  | EmptyString => EmptyString
  | String c s' =>
      if shouldEscape c mode then
        let n := nat_of_ascii c in
        String "%" (String (hexDigit (n / 16))
                      (String (hexDigit (n mod 16)) (escape s' mode)))
      else String c (escape s' mode)
  end.

Definition firstThree (s : string) : string := String.substring 0 3 s.

(** [unescape(s, mode)]: the percent escapes are decoded; a malformed escape
    is an error, and so is, in a host, a character or an escape that a host
    may not hold. *)
Fixpoint unescape (s : string) (mode : encoding) : string + error :=
  match s with
  | EmptyString => inl EmptyString
  | String c rest =>
      if Ascii.eqb c "%" then
        match rest with
        | String h1 (String h2 rest') =>
            if ishex h1 && ishex h2 then
              if isHost mode && (unhex h1 <? 8)%nat
                 && negb (Ascii.eqb h1 "2" && Ascii.eqb h2 "5")
              then inr ("invalid URL escape "
                        ++ strconv_Quote (firstThree s))%string
              else
                match unescape rest' mode with
                | inl t =>
                    inl (String (ascii_of_nat (16 * unhex h1 + unhex h2)) t)
                | inr err => inr err
                end
            else inr ("invalid URL escape "
                      ++ strconv_Quote (firstThree s))%string
        | _ => inr ("invalid URL escape "
                    ++ strconv_Quote (firstThree s))%string
        end
      else if isHost mode && (nat_of_ascii c <? 128)%nat
              && shouldEscape c encodeHost
      then inr ("invalid character "
                ++ strconv_Quote (String c EmptyString)
                ++ " in host name")%string
      else
        match unescape rest mode with
        | inl t => inl (String c t)
        | inr err => inr err
        end
  end.

(** [validEncoded(s, mode)]. *)
Fixpoint validEncoded (s : string) (mode : encoding) : bool :=
  match s with
  | EmptyString => true
  | String c s' =>
      (inCutset c "!$&()*+,;=:@[]%" || Ascii.eqb c singleQuote
       || negb (shouldEscape c mode))
      && validEncoded s' mode
  end.

Fixpoint contains (c : ascii) (s : string) : bool :=
  match s with
  | EmptyString => false
  | String d s' => Ascii.eqb c d || contains c s'
  end.

Fixpoint count (c : ascii) (s : string) : nat :=
  match s with
  | EmptyString => 0%nat
  | String d s' => ((if Ascii.eqb c d then 1 else 0) + count c s')%nat
  end.

Fixpoint endsWith (c : ascii) (s : string) : bool :=
  match s with
  | EmptyString => false
  | String d EmptyString => Ascii.eqb c d
  | String _ s' => endsWith c s'
  end.

Definition dropLast (s : string) : string :=
  String.substring 0 (String.length s - 1) s.

(** [strings.Cut(s, sep)] for a separator of one byte: what comes before its
    first occurrence and what comes after it. *)
Definition cut (sep : ascii) (s : string) : string * string :=
  let (before, rest) := splitWhere (Ascii.eqb sep) s in
  (before, match rest with String _ after => after | EmptyString => rest end).

(** After the last occurrence of [sep], and whether there is one. *)
Fixpoint afterLast (sep : ascii) (s : string) : option string :=
  match s with
  | EmptyString => None
  | String c s' =>
      match afterLast sep s' with
      | Some t => Some t
      | None => if Ascii.eqb c sep then Some s' else None
      end
  end.

Fixpoint allDigits (s : string) : bool :=
  match s with
  | EmptyString => true
  | String c s' => isDigit c && allDigits s'
  end.

Definition hasCTLByte (s : string) : bool :=
  existsb (fun c => let n := nat_of_ascii c in
                    (n <? 32)%nat || (n =? 127)%nat)
          (list_ascii_of_string s).

(** [getScheme]: the scheme and what follows its colon, when the text has a
    scheme; a colon at the very start is an error. *)
Fixpoint schemeOf (first : bool) (s : string)
  : option (string * string) + error :=
  match s with
  | EmptyString => inl None
  | String c s' =>
      let more :=
        match schemeOf false s' with
        | inl (Some (scheme, rest)) => inl (Some (String c scheme, rest))
        | other => other
        end in
      if isLetter c then more
      else if isDigit c || inCutset c "+-." then
        (if first then inl None else more)
      else if Ascii.eqb c ":" then
        (if first then inr "missing protocol scheme"
         else inl (Some (EmptyString, s')))
      else inl None
  end.

(** [parseHost], for a host that is not an IP literal: the port, if there is
    one, is a colon and digits. *)
Definition parseHost (host : string) : string + error :=
  match afterLast ":" host with
  | Some port =>
      if allDigits port then unescape host encodeHost
      else inr ("invalid port " ++ strconv_Quote (String ":" port)
                ++ " after host")%string
  | None => unescape host encodeHost
  end.

Definition parseAuthority (authority : string) : string + error :=
  if contains "@" authority
  then inr "user information is not modelled"
  else if strings_HasPrefix authority "["
  then inr "IP literals are not modelled"
  else parseHost authority.

Definition emptyURL : URL :=
  {| Scheme := ""; Opaque := ""; User := None; Host := ""; Path := "";
     RawPath := ""; ForceQuery := false; RawQuery := ""; Fragment := "";
     RawFragment := "" |}.

(** [parse(rawURL, false)]: the URL without its fragment. *)
Definition parse (rawURL : string) : URL + error :=
  if hasCTLByte rawURL
  then inr "net/url: invalid control character in URL"
  else if String.eqb rawURL "*"
  then inl (URL_setPath emptyURL "*")
  else
    match schemeOf true rawURL with
    | inr err => inr err
    | inl found =>
        let (scheme, rest) :=
          match found with
          | Some (scheme, rest) => (toLower scheme, rest)
          | None => (EmptyString, rawURL)
          end in
        let '(rest, force, query) :=
          if endsWith "?" rest && (count "?" rest =? 1)%nat
          then (dropLast rest, true, EmptyString)
          else let (before, after) := cut "?" rest in (before, false, after) in
        let rootless := negb (strings_HasPrefix rest "/") in
        if rootless && negb (String.eqb scheme "")
        then
          (* We consider rootless paths per RFC 3986 as opaque. *)
          inl {| Scheme := scheme; Opaque := rest; User := None; Host := "";
                 Path := ""; RawPath := ""; ForceQuery := force;
                 RawQuery := query; Fragment := ""; RawFragment := "" |}
        else if rootless && contains ":" (fst (cut "/" rest))
        then inr "first path segment in URL cannot contain colon"
        else
          let authority :=
            if (negb (String.eqb scheme "")
                || negb (strings_HasPrefix rest "///"))
               && strings_HasPrefix rest "//"
            then
              let (authority, rest) :=
                splitWhere (Ascii.eqb "/")
                  (String.substring 2 (String.length rest - 2) rest) in
              match parseAuthority authority with
              | inl host => inl (host, rest)
              | inr err => inr err
              end
            else inl (EmptyString, rest) in
          match authority with
          | inr err => inr err
          | inl (host, rest) =>
              (* setPath *)
              match unescape rest encodePath with
              | inr err => inr err
              | inl path =>
                  inl {| Scheme := scheme; Opaque := ""; User := None;
                         Host := host; Path := path;
                         RawPath := if String.eqb (escape path encodePath) rest
                                    then "" else rest;
                         ForceQuery := force; RawQuery := query;
                         Fragment := ""; RawFragment := "" |}
              end
          end
    end.

(** The text of a [url.Error]. *)
Definition parseError (url : string) (err : error) : error :=
  ("parse " ++ strconv_Quote url ++ ": " ++ err)%string.

(** [url.Parse]: the fragment is cut off, the rest is parsed, and the
    fragment is set. *)
Definition parseUrl (rawURL : string) : URL + error :=
  let (u, frag) := cut "#" rawURL in
  match parse u with
  | inr err => inr (parseError u err)
  | inl url =>
      if String.eqb frag "" then inl url
      else
        match unescape frag encodeFragment with
        | inr err => inr (parseError rawURL err)
        | inl f =>
            inl {| Scheme := Scheme url; Opaque := Opaque url;
                   User := User url; Host := Host url; Path := Path url;
                   RawPath := RawPath url; ForceQuery := ForceQuery url;
                   RawQuery := RawQuery url; Fragment := f;
                   RawFragment := if String.eqb (escape f encodeFragment) frag
                                  then "" else frag |}
        end
  end.

(** [EscapedPath] and [EscapedFragment]. *)
Definition escapedPath (u : URL) : string :=
  if negb (String.eqb (RawPath u) "") && validEncoded (RawPath u) encodePath
     && match unescape (RawPath u) encodePath with
        | inl p => String.eqb p (Path u)
        | inr _ => false
        end
  then RawPath u
  else if String.eqb (Path u) "*" then "*"
  else escape (Path u) encodePath.

Definition escapedFragment (u : URL) : string :=
  if negb (String.eqb (RawFragment u) "")
     && validEncoded (RawFragment u) encodeFragment
     && match unescape (RawFragment u) encodeFragment with
        | inl f => String.eqb f (Fragment u)
        | inr _ => false
        end
  then RawFragment u
  else escape (Fragment u) encodeFragment.

(** [URL.String]. *)
Definition renderUrl (u : URL) : string :=
  let buf := if String.eqb (Scheme u) "" then EmptyString
             else (Scheme u ++ ":")%string in
  let buf :=
    if negb (String.eqb (Opaque u) "") then (buf ++ Opaque u)%string
    else
      let hasUser := match User u with Some _ => true | None => false end in
      let buf :=
        if negb (String.eqb (Scheme u) "") || negb (String.eqb (Host u) "")
           || hasUser
        then
          let buf :=
            if negb (String.eqb (Host u) "") || negb (String.eqb (Path u) "")
               || hasUser
            then (buf ++ "//")%string else buf in
          let buf :=
            match User u with
            | Some ui => (buf ++ ui ++ "@")%string
            | None => buf
            end in
          (buf ++ escape (Host u) encodeHost)%string
        else buf in
      let path := escapedPath u in
      let buf :=
        if negb (String.eqb path "") && negb (strings_HasPrefix path "/")
           && negb (String.eqb (Host u) "")
        then (buf ++ "/")%string else buf in
      let buf :=
        if String.eqb buf "" && contains ":" (fst (cut "/" path))
        then "./"%string else buf in
      (buf ++ path)%string in
  let buf :=
    if ForceQuery u || negb (String.eqb (RawQuery u) "")
    then (buf ++ "?" ++ RawQuery u)%string else buf in
  if String.eqb (Fragment u) "" then buf
  else (buf ++ "#" ++ escapedFragment u)%string.

Definition isUnreserved (c : ascii) : bool :=
  let n := nat_of_ascii c in
  ((48 <=? n) && (n <=? 57) || (65 <=? n) && (n <=? 90)
   || (97 <=? n) && (n <=? 122))%nat
  || inCutset c "-_.~".

(** [url.QueryEscape]. *)
Fixpoint queryEscape (s : string) : string :=
  match s with
  | EmptyString => EmptyString
  | String c s' =>
      if isUnreserved c then String c (queryEscape s')
      else if Ascii.eqb c " " then String "+" (queryEscape s')
      else
        let n := nat_of_ascii c in
        String "%" (String (hexDigit (n / 16))
                      (String (hexDigit (n mod 16)) (queryEscape s')))
  end.

Fixpoint insertByKey (kv : string * list string) (l : Values) : Values :=
  match l with
  | [] => [kv]
  | kv' :: l' =>
      if String.leb (fst kv) (fst kv') then kv :: l
      else kv' :: insertByKey kv l'
  end.

Definition sortByKey (l : Values) : Values := fold_right insertByKey [] l.

(** [Values.Encode]: key=value pairs, sorted by key, joined by ampersands. *)
Definition encodeValues (v : Values) : string :=
  let pairs :=
    flat_map
      (fun kv =>
         map (fun x => (queryEscape (fst kv) ++ "=" ++ queryEscape x)%string)
             (snd kv))
      (sortByKey v) in
  String.concat "&" pairs.

Module Wire.

Import Ceres.

#[local] Instance Serialize_OData : Serialize OData :=
  fun d =>
    [ Atom "odata";
      to_sexp (Annotations d);
      to_sexp (NextLink d);
      to_sexp (option_map (map string_of_list_byte) (Value d));
      to_sexp (Error d) ]%sexp.

#[local] Instance Deserialize_OData : Deserialize OData :=
  Deser.match_con "odata" []
    [ ("odata",
       Deser.con4_
         (fun a n v e =>
            mkOData a n (option_map (map list_byte_of_string) v) e)) ].

(** What a server writes: the envelope with all it holds. *)
Definition document (d : OData) : bytes := list_byte_of_string (to_string d).

(** [json.Marshal] of the envelope.  The structured error is read from a
    document and never written to one, so a merged page does not carry the
    error of the page it was merged from. *)
Definition marshal (d : OData) : bytes :=
  document {| Annotations := Annotations d; NextLink := NextLink d;
              Value := Value d; Error := None |}.

Definition unmarshal (b : bytes) : OData + string :=
  match from_string (string_of_list_byte b) with
  | inr d => inl d
  | inl _ => inr "invalid document"
  end.

End Wire.

(** Modelled from the spec: the decoder of the [odata] package is not under
    src/.  It gives the envelope of a response or a failure; this one decodes
    the body of a JSON response and gives no envelope for any other content
    type. *)
Definition fromResponse (r : Response) : option OData * option error :=
  if strings_HasPrefix
       (toLower (Header_Get (RespHeader r) "Content-Type"))
       "application/json"
  then
    match io_ReadAll (Body r) with
    | (_, Some err) => (None, Some err)
    | (b, None) =>
        match Wire.unmarshal b with
        | inl d => (Some d, None)
        | inr err => (None, Some err)
        end
    end
  else (None, None).

(** The server: its answer to the [n]-th request it receives. *)
Definition Server := nat -> Request -> Response + error.

Definition runtime (serve : Server) : Runtime :=
  {| World := nat;
     HttpClient_Do := fun req n => (serve n req, S n);
     odata_FromResponse := fromResponse;
     strconv_ParseFloat := parseFloat;
     strings_ToLower := toLower;
     json_Unmarshal := Wire.unmarshal;
     json_Marshal := fun d => inl (Wire.marshal d);
     url_Parse := parseUrl;
     URL_String := renderUrl;
     Values_Encode := encodeValues |}.

(** A response with the given status, headers and body. *)
Definition respond (st : Z) (h : Header) (b : bytes) : Response :=
  {| StatusCode := st; RespHeader := h; Body := NopCloser_NewBuffer b |}.

Definition jsonHeader : Header :=
  [("Content-Type", "application/json; odata.metadata=minimal")].

End Scripted.

(** ** Concrete runs *)

Module Scenario.

Import Scripted.

Definition graphClient (serve : Server) : @Client (runtime serve) :=
  {| Endpoint := "https://graph.microsoft.com";
     Client_ApiVersion := Version10;
     TenantId := "contoso";
     UserAgent := "Hamilton (Go-http-client/1.1)";
     Authorizer := None;
     DisableRetries := false |}.

Definition start (serve : Server) : @Env (runtime serve) :=
  @mkEnv (runtime serve) 0%nat [].

Definition usersUri : Uri :=
  {| Entity := "/users"; Params := None; HasTenantId := true |}.

Definition getUsers : GetHttpRequestInput :=
  {| get_ConsistencyFailureFunc := Some RetryOn404ConsistencyFailureFunc;
     get_DisablePaging := false;
     get_ValidStatusCodes := [200];
     get_ValidStatusFunc := None;
     get_Uri := usersUri;
     get_rawUri := "" |}.

Definition getUsersFirstPage : GetHttpRequestInput :=
  {| get_ConsistencyFailureFunc := Some RetryOn404ConsistencyFailureFunc;
     get_DisablePaging := true;
     get_ValidStatusCodes := [200];
     get_ValidStatusFunc := None;
     get_Uri := usersUri;
     get_rawUri := "" |}.

Definition usersUrl : URL :=
  {| Scheme := "https"; Opaque := ""; User := None;
     Host := "graph.microsoft.com"; Path := "/v1.0/contoso/users";
     RawPath := ""; ForceQuery := false; RawQuery := ""; Fragment := "";
     RawFragment := "" |}.

Definition usersRequest : Request :=
  {| Method := "GET"; ReqURL := usersUrl; ReqHeader := [];
     ReqBody := Some http_NoBody |}.

(** The request as it leaves the client: headers added, body buffered. *)
Definition usersRequestSent : Request :=
  {| Method := "GET"; ReqURL := usersUrl;
     ReqHeader := [ ("Accept", "application/json");
                    ("Content-Type", "application/json; charset=utf-8");
                    ("User-Agent", "Hamilton (Go-http-client/1.1)") ];
     ReqBody := Some (NopCloser_NewBuffer []) |}.

Definition throttled : Response := respond 429 [] [].
Definition retryAfterTwo : Response := respond 429 [("Retry-After", "2")] [].
Definition retryAfterZero : Response := respond 429 [("Retry-After", "0")] [].
Definition notFound : Response := respond 404 [] [].
Definition okEmpty : Response := respond 200 [] [].

(** A server that throttles every request and never says for how long. *)
Definition alwaysThrottled : Server := fun _ _ => inl throttled.

(** A server that throttles six requests, then does not find the entity
    once, and has it from then on. *)
Definition throttledThenNotFound : Server :=
  fun n _ =>
    if (n <? 6)%nat then inl throttled
    else if (n =? 6)%nat then inl notFound
    else inl okEmpty.

(** A server that throttles every request and asks to wait zero seconds. *)
Definition alwaysRetryAfterZero : Server := fun _ _ => inl retryAfterZero.

(** The loop variables at the head of the third pass of a call whose first
    two attempts were throttled. *)
Definition beforeThirdAttempt : LoopVars :=
  {| resp := Some throttled; o := None; status := 429;
     backoff := 4 * time.Second; multiplier := 2 |}.

(** The environment of a server that has answered two requests. *)
Definition afterTwoRequests (serve : Server) : @Env (runtime serve) :=
  @mkEnv (runtime serve) 2%nat [].

(** A server that does not find the entity for a while. *)
Definition alwaysNotFound : Server := fun _ _ => inl notFound.

(** A server that throttles four requests and names the delay on the third
    one. *)
Definition retryAfterOnThird : Server :=
  fun n _ =>
    match n with
    | 2%nat => inl retryAfterTwo
    | 4%nat => inl okEmpty
    | _ => inl throttled
    end.

(** A collection served in three pages. *)
Definition item (s : string) : bytes := list_byte_of_string s.

Definition page (next : option string) (items : list string) : OData :=
  {| Annotations := [("@odata.context", "$metadata#users")];
     NextLink := next;
     Value := Some (map item items);
     Error := None |}.

Definition secondLink : string :=
  "https://graph.microsoft.com/v1.0/contoso/users?$skiptoken=2".
Definition thirdLink : string :=
  "https://graph.microsoft.com/v1.0/contoso/users?$skiptoken=3".

Definition page1 : OData := page (Some secondLink) ["a"; "b"].
Definition page2 : OData := page (Some thirdLink) ["c"].
Definition page3 : OData := page None ["d"; "e"].

Definition threePages : Server :=
  fun _ req =>
    let q := RawQuery (ReqURL req) in
    if String.eqb q "" then inl (respond 200 jsonHeader (Wire.marshal page1))
    else if String.eqb q "$skiptoken=2"
    then inl (respond 200 jsonHeader (Wire.marshal page2))
    else if String.eqb q "$skiptoken=3"
    then inl (respond 200 jsonHeader (Wire.marshal page3))
    else inl notFound.

(** A server that answers with a document that is not JSON. *)
Definition plainText : Response :=
  respond 200 [("Content-Type", "text/plain")] (list_byte_of_string "hello").

Definition alwaysPlainText : Server := fun _ _ => inl plainText.

Definition seconds (n : Z) : time.Duration := n * time.Second.

(** The GET request for the users with the query [q]. *)
Definition pageRequest (q : string) : Request :=
  {| Method := "GET"; ReqURL := URL_setRawQuery usersUrl q; ReqHeader := [];
     ReqBody := Some http_NoBody |}.

Definition createUser : PostHttpRequestInput :=
  {| post_Body := list_byte_of_string "{displayName: Ada}";
     post_ConsistencyFailureFunc := None;
     post_ValidStatusCodes := [201];
     post_ValidStatusFunc := None;
     post_Uri := usersUri |}.

(** The request that [Post] makes for [createUser]. *)
Definition createUserRequest : Request :=
  {| Method := "POST"; ReqURL := usersUrl; ReqHeader := [];
     ReqBody := Some (NopCloser_NewBuffer (post_Body createUser)) |}.


Definition groupsUri : Uri :=
  {| Entity := "///groups";
     Params := Some [("$top", ["5"]); ("$filter", ["displayName eq 'a b'"])];
     HasTenantId := false |}.

(** Further servers and inputs. *)

Definition denied : OData :=
  {| Annotations := []; NextLink := None; Value := None;
     Error := Some "Authorization_RequestDenied: Insufficient privileges" |}.

Definition forbidden : Response :=
  respond 403 jsonHeader (Wire.document denied).

Definition alwaysForbidden : Server := fun _ _ => inl forbidden.

Definition unreachable : Server :=
  fun _ _ => inr "dial tcp: connection refused".

Definition garbled : Response :=
  respond 200 jsonHeader (list_byte_of_string "not a document").

Definition alwaysGarbled : Server := fun _ _ => inl garbled.

(** The entity is not found three times and is there from then on. *)
Definition notFoundThreeTimes : Server :=
  fun n _ => if (n <? 3)%nat then inl notFound else inl okEmpty.

Definition retryAfterOneAndAHalf : Response :=
  respond 429 [("Retry-After", "1.5")] [].

Definition alwaysRetryAfterOneAndAHalf : Server :=
  fun _ _ => inl retryAfterOneAndAHalf.

Definition getUsersNoRetryFunction : GetHttpRequestInput :=
  {| get_ConsistencyFailureFunc := None;
     get_DisablePaging := false;
     get_ValidStatusCodes := [200];
     get_ValidStatusFunc := None;
     get_Uri := usersUri;
     get_rawUri := "" |}.

Definition clientWithoutRetries (serve : Server) : @Client (runtime serve) :=
  {| Endpoint := "https://graph.microsoft.com";
     Client_ApiVersion := Version10;
     TenantId := "contoso";
     UserAgent := "Hamilton (Go-http-client/1.1)";
     Authorizer := None;
     DisableRetries := true |}.

(** A client for the endpoint [e]. *)
Definition clientFor (e : string) (serve : Server) : @Client (runtime serve) :=
  {| Endpoint := e;
     Client_ApiVersion := Version10;
     TenantId := "contoso";
     UserAgent := "Hamilton (Go-http-client/1.1)";
     Authorizer := None;
     DisableRetries := false |}.

(** An endpoint that [url.Parse] refuses: a colon with no scheme before
    it. *)
Definition clientWithBadEndpoint (serve : Server) : @Client (runtime serve) :=
  clientFor ":" serve.



(** One page, without a next link. *)
Definition singlePage : Server :=
  fun _ _ => inl (respond 200 jsonHeader (Wire.marshal page3)).

(** A first page that links to a document without a result array. *)
Definition summary : OData :=
  {| Annotations := [("@odata.count", "2")]; NextLink := None; Value := None;
     Error := None |}.

Definition pageThenSummary : Server :=
  fun _ req =>
    if String.eqb (RawQuery (ReqURL req)) ""
    then inl (respond 200 jsonHeader (Wire.marshal page1))
    else inl (respond 200 jsonHeader (Wire.marshal summary)).

(** A first page that links to a page the caller may not read. *)
Definition pageThenForbidden : Server :=
  fun _ req =>
    if String.eqb (RawQuery (ReqURL req)) ""
    then inl (respond 200 jsonHeader (Wire.marshal page1))
    else inl forbidden.

End Scenario.

(** * Properties *)

(** ** Arithmetic of the backoff *)

Example backoffPower_2_1 : backoffPower 2 1 = 2.
Proof. reflexivity. Qed.

Example backoffPower_2_0 : backoffPower 2 0 = 2.
Proof. reflexivity. Qed.

Example backoffPower_2_6 : backoffPower 2 6 = 64.
Proof. reflexivity. Qed.

Example to_int64_two_seconds :
  Float64.to_int64 (Float64.mul (Float64.of_int 2) (Float64.of_int time.Second))
  = 2000000000.
Proof. vm_compute. reflexivity. Qed.

Lemma wrap_small (z : Z) : Int64.in_range z -> Int64.wrap z = z.
Proof.
  unfold Int64.in_range, Int64.wrap, Int64.min_signed, Int64.max_signed,
    Int64.half_modulus, Int64.modulus.
  intros Hz. rewrite Z.mod_small by lia. lia.
Qed.

(** The equation the closure is written by. *)
Lemma backoffPower_step (base exp : Z) :
  backoffPower base exp =
  if exp <=? 1 then base else Int64.mul base (backoffPower base (exp - 1)).
Proof.
  rewrite backoffPower_equation_1.
  destruct (Z_le_gt_dec exp 1) as [Hle | Hgt]; simpl.
  - destruct (Z.leb_spec exp 1); [reflexivity | lia].
  - destruct (Z.leb_spec exp 1); [lia | reflexivity].
Qed.

(** Below the overflow of [int64], [backoffPower 2] is the power of two,
    except that exponents below one give the base itself. *)
Lemma backoffPower_two (n : nat) :
  (n < 62)%nat -> backoffPower 2 (Z.of_nat (S n)) = 2 ^ Z.of_nat (S n).
Proof.
  induction n as [| n IH]; intros Hn.
  - reflexivity.
  - rewrite backoffPower_step.
    destruct (Z.leb_spec (Z.of_nat (S (S n))) 1) as [Hle | _]; [lia |].
    replace (Z.of_nat (S (S n)) - 1) with (Z.of_nat (S n)) by lia.
    rewrite IH by lia.
    unfold Int64.mul. rewrite wrap_small.
    + replace (Z.of_nat (S (S n))) with (Z.of_nat (S n) + 1) by lia.
      rewrite Z.pow_add_r by lia. lia.
    + unfold Int64.in_range, Int64.min_signed, Int64.max_signed,
        Int64.half_modulus.
      assert (H63 : 2 ^ Z.of_nat (S n) <= 2 ^ 61)
        by (apply Z.pow_le_mono_r; lia).
      assert (0 < 2 ^ Z.of_nat (S n)) by (apply Z.pow_pos_nonneg; lia).
      change (2 ^ 61) with 2305843009213693952 in H63. lia.
Qed.

Section Properties.

Context {rt : Runtime}.

Lemma sleepAndBackoff_vars (attempts : Z) (v : LoopVars) (env : Env) :
  0 <= multiplier v < 10 ->
  fst (sleepAndBackoff attempts v env) =
  setBackoff v (defaultBackoff (multiplier v + 1)) (multiplier v + 1).
Proof.
  intros Hm. unfold sleepAndBackoff. cbn [fst].
  assert (Hw : Int64.add (multiplier v) 1 = multiplier v + 1).
  { unfold Int64.add. apply wrap_small.
    unfold Int64.in_range, Int64.min_signed, Int64.max_signed,
      Int64.half_modulus. lia. }
  rewrite Hw. f_equal.
  assert (Hcases : multiplier v = 0 \/ multiplier v = 1 \/ multiplier v = 2
           \/ multiplier v = 3 \/ multiplier v = 4 \/ multiplier v = 5
           \/ multiplier v = 6 \/ multiplier v = 7 \/ multiplier v = 8
           \/ multiplier v = 9) by lia.
  unfold defaultBackoff.
  repeat (destruct Hcases as [-> | Hcases]); try rewrite Hcases;
    vm_compute; reflexivity.
Qed.

Lemma sleepAndBackoff_env (attempts : Z) (v : LoopVars) (env : Env) :
  snd (sleepAndBackoff attempts v env) =
  if 0 <? attempts then time_Sleep (backoff v) env else env.
Proof. reflexivity. Qed.

(** *** One pass of the loop *)

Lemma Do_eq (req : Request) (env : Env) :
  Do req env =
  (fst (HttpClient_Do req (world env)),
   {| world := snd (HttpClient_Do req (world env));
      log := log env ++ [Sent req] |}).
Proof. unfold Do. destruct (HttpClient_Do req (world env)); reflexivity. Qed.

Lemma sleepAndBackoff_world (attempts : Z) (v : LoopVars) (env : Env) :
  world (snd (sleepAndBackoff attempts v env)) = world env.
Proof.
  rewrite sleepAndBackoff_env. destruct (0 <? attempts); reflexivity.
Qed.

Lemma sleepAndBackoff_keeps (attempts : Z) (v : LoopVars) (env : Env) :
  resp (fst (sleepAndBackoff attempts v env)) = resp v
  /\ o (fst (sleepAndBackoff attempts v env)) = o v
  /\ status (fst (sleepAndBackoff attempts v env)) = status v.
Proof. repeat split. Qed.

Lemma retryAfterBackoff_keeps (r : Response) (v : LoopVars) :
  resp (retryAfterBackoff r v) = resp v
  /\ o (retryAfterBackoff r v) = o v
  /\ status (retryAfterBackoff r v) = status v.
Proof.
  unfold retryAfterBackoff. destruct (retryAfterDelay r); repeat split.
Qed.

Lemma add_one_small (attempts : Z) :
  0 <= attempts < 10 -> Int64.add attempts 1 = attempts + 1.
Proof.
  intros Ha. unfold Int64.add. apply wrap_small.
  unfold Int64.in_range, Int64.min_signed, Int64.max_signed,
    Int64.half_modulus. lia.
Qed.

Section Loop.

Context {I : Type} `{HttpRequestInput I}.
Variables (c : Client) (reqBody : bytes) (input : I).

Lemma requestSent_idem (req : Request) :
  requestSent (requestSent req reqBody) reqBody = requestSent req reqBody.
Proof. reflexivity. Qed.

(** The loop puts a new stream into the request on every pass, so it never
    sees what was left of the previous one. *)
Lemma requestSent_usedUp (req : Request) :
  requestSent (usedUp req) reqBody = requestSent req reqBody.
Proof. unfold usedUp. destruct (ReqBody req); reflexivity. Qed.

Lemma attemptLoop_usedUp (remaining : nat) (req : Request)
    (attempts : Z) (v : LoopVars) (env : Env) :
  attemptLoop c (usedUp req) reqBody input remaining attempts v env
  = attemptLoop c req reqBody input remaining attempts v env.
Proof.
  unfold usedUp. destruct (ReqBody req); [| reflexivity].
  destruct remaining; reflexivity.
Qed.

Lemma attemptLoop_exit (req : Request) (remaining : nat) (attempts : Z)
    (v : LoopVars) (env : Env) :
  requestAttemptsForRateLimiting <= attempts ->
  attemptLoop c req reqBody input remaining attempts v env =
  ((resp v, status v, o v, None), env).
Proof.
  intros Ha. destruct remaining; cbn [attemptLoop];
    destruct (Z.ltb_spec attempts requestAttemptsForRateLimiting);
    try lia; reflexivity.
Qed.

Lemma attemptLoop_pass (req : Request) (remaining : nat) (attempts : Z)
    (v : LoopVars) (env : Env) (r : Response) (od : option OData) :
  attempts < requestAttemptsForRateLimiting ->
  answer (requestSent req reqBody) 0 (world env) = inl r ->
  odata_FromResponse r = (od, None) ->
  attemptLoop c req reqBody input (S remaining) attempts v env =
  match evaluate c input attempts
          (setResponse (fst (sleepAndBackoff attempts v env)) r od) r od with
  | Continue v' =>
      attemptLoop c (requestSent req reqBody) reqBody input remaining
        (Int64.add attempts 1) v' (afterSend req reqBody attempts v env)
  | Break v' =>
      ((resp v', status v', o v', None), afterSend req reqBody attempts v env)
  | Return res => (res, afterSend req reqBody attempts v env)
  end.
Proof.
  intros Ha Hr Hod. cbn [attemptLoop].
  destruct (Z.ltb_spec attempts requestAttemptsForRateLimiting); [| lia].
  destruct (sleepAndBackoff attempts v env) as [v1 env1] eqn:Hsb.
  fold (requestSent req reqBody).
  rewrite Do_eq.
  assert (Hw : world env1 = world env).
  { replace env1 with (snd (sleepAndBackoff attempts v env))
      by (rewrite Hsb; reflexivity).
    apply sleepAndBackoff_world. }
  unfold answer in Hr. cbn [worldAfter] in Hr.
  rewrite Hw, Hr, Hod. unfold afterSend. rewrite Hsb. cbn [fst snd].
  destruct (evaluate c input attempts (setResponse v1 r od) r od);
    try reflexivity.
  apply attemptLoop_usedUp.
Qed.

Lemma evaluate_rateLimiting (attempts : Z) (v : LoopVars) (r : Response)
    (od : option OData) :
  reachesRateLimiting c input attempts r od = true ->
  evaluate c input attempts v r od =
  Continue (retryAfterBackoff r (setStatus v (StatusCode r))).
Proof.
  unfold reachesRateLimiting, evaluate, evaluateStatus. intros Hr.
  apply andb_prop in Hr as [Hr Hrate].
  apply andb_prop in Hr as [Hr Hfun].
  apply andb_prop in Hr as [Hcons Hvalid].
  apply negb_true_iff in Hcons, Hvalid, Hfun.
  rewrite Hcons, Hvalid, Hfun, Hrate. reflexivity.
Qed.

Lemma answer_S (req : Request) (n : nat) (w : World) :
  answer req (S n) w = answer req n (snd (HttpClient_Do req w)).
Proof. reflexivity. Qed.

(** Passes that all end in the rate-limiting branch use up the loop, and the
    values of the last pass are what is returned. *)
Lemma attemptLoop_exhausted (remaining : nat) :
  forall (req : Request) (attempts : Z) (v : LoopVars) (env : Env),
    0 <= attempts ->
    attempts + Z.of_nat (S remaining) = requestAttemptsForRateLimiting ->
    (forall i, (i <= remaining)%nat ->
       exists r od,
         answer (requestSent req reqBody) i (world env) = inl r
         /\ odata_FromResponse r = (od, None)
         /\ reachesRateLimiting c input (attempts + Z.of_nat i) r od = true) ->
    exists r od,
      answer (requestSent req reqBody) remaining (world env) = inl r
      /\ odata_FromResponse r = (od, None)
      /\ fst (attemptLoop c req reqBody input (S remaining) attempts v env)
         = (Some r, StatusCode r, od, None).
Proof.
  unfold requestAttemptsForRateLimiting.
  induction remaining as [| n IH]; intros req attempts v env Hpos Hsum Hall.
  - destruct (Hall 0%nat (Nat.le_refl _)) as (r & od & Hr & Hod & Hrl).
    exists r, od. repeat split; try assumption.
    rewrite (attemptLoop_pass req 0 attempts v env r od)
      by (unfold requestAttemptsForRateLimiting; assumption || lia).
    replace (attempts + Z.of_nat 0) with attempts in Hrl by lia.
    rewrite (evaluate_rateLimiting _ _ _ _ Hrl).
    rewrite attemptLoop_exit
      by (rewrite add_one_small;
          unfold requestAttemptsForRateLimiting; lia).
    cbn [fst].
    destruct (retryAfterBackoff_keeps r
                (setStatus
                   (setResponse (fst (sleepAndBackoff attempts v env)) r od)
                   (StatusCode r))) as (-> & -> & ->).
    reflexivity.
  - destruct (Hall 0%nat (Nat.le_0_l _)) as (r & od & Hr & Hod & Hrl).
    rewrite (attemptLoop_pass req (S n) attempts v env r od)
      by (unfold requestAttemptsForRateLimiting; assumption || lia).
    replace (attempts + Z.of_nat 0) with attempts in Hrl by lia.
    rewrite (evaluate_rateLimiting _ _ _ _ Hrl).
    rewrite add_one_small by lia.
    destruct (IH (requestSent req reqBody) (attempts + 1)
                (retryAfterBackoff r
                   (setStatus
                      (setResponse (fst (sleepAndBackoff attempts v env)) r od)
                      (StatusCode r)))
                (afterSend req reqBody attempts v env))
      as (r' & od' & Hr' & Hod' & Hres); try lia.
    + intros i Hi. rewrite requestSent_idem.
      destruct (Hall (S i)) as (ri & odi & Hri & Hodi & Hrli); [lia |].
      exists ri, odi. repeat split; try assumption.
      replace (attempts + 1 + Z.of_nat i) with (attempts + Z.of_nat (S i))
        by lia.
      assumption.
    + rewrite requestSent_idem in Hr'.
      exists r', od'. repeat split; assumption.
Qed.

(** *** The bound on the passes, and the response of a call without error *)

(** The loop condition ends the loop by itself: any bound that leaves room
    for the passes up to [requestAttemptsForRateLimiting] gives the same
    result. *)
Lemma attemptLoop_enough_passes (n : nat) :
  forall (m : nat) (req : Request) (attempts : Z) (v : LoopVars) (env : Env),
    0 <= attempts ->
    (Z.to_nat (requestAttemptsForRateLimiting - attempts) <= n)%nat ->
    (Z.to_nat (requestAttemptsForRateLimiting - attempts) <= m)%nat ->
    attemptLoop c req reqBody input n attempts v env =
    attemptLoop c req reqBody input m attempts v env.
Proof.
  unfold requestAttemptsForRateLimiting.
  induction n as [| n IH]; intros m req attempts v env Ha Hn Hm.
  - rewrite !attemptLoop_exit
      by (unfold requestAttemptsForRateLimiting; lia).
    reflexivity.
  - destruct m as [| m].
    + rewrite !attemptLoop_exit
        by (unfold requestAttemptsForRateLimiting; lia).
      reflexivity.
    + cbn [attemptLoop].
      destruct (Z.ltb_spec attempts requestAttemptsForRateLimiting)
        as [Hlt | _]; [| reflexivity].
      unfold requestAttemptsForRateLimiting in Hlt.
      destruct (sleepAndBackoff attempts v env) as [v1 env1].
      destruct (Do (Request_setBody req (Some (NopCloser_NewBuffer reqBody)))
                  env1) as [[r | err] env2]; [| reflexivity].
      destruct (odata_FromResponse r) as [od [err |]]; [reflexivity |].
      destruct (evaluate c input attempts (setResponse v1 r od) r od);
        try reflexivity.
      rewrite add_one_small by lia. apply IH; lia.
Qed.

Lemma unexpectedStatus_err (r : Response) (od : option OData) (st : Z) :
  result_err (unexpectedStatus r od st) <> None.
Proof.
  unfold unexpectedStatus.
  destruct (match od with
            | Some d =>
                match Error d with
                | Some e => if String.eqb e "" then None else Some e
                | None => None
                end
            | None => None
            end); [discriminate |].
  destruct (io_ReadAll (Body r)) as [b [e |]]; discriminate.
Qed.

Lemma evaluate_keeps_response (attempts : Z) (v : LoopVars) (r : Response)
    (od : option OData) :
  match evaluate c input attempts v r od with
  | Continue v' | Break v' => resp v' = resp v
  | Return res => result_err res = None -> result_resp res = Some r
  end.
Proof.
  unfold evaluate, evaluateStatus.
  destruct (consistencyRetry c input attempts r od); [reflexivity |].
  destruct (containsStatusCode (GetValidStatusCodes input) (StatusCode r));
    [reflexivity |].
  destruct (match GetValidStatusFunc input with
            | Some f => f r od
            | None => false
            end); [reflexivity |].
  destruct (containsStatusCode rateLimitingStatuses (StatusCode r)).
  - destruct (retryAfterBackoff_keeps r (setStatus v (StatusCode r)))
      as [Hresp _].
    exact Hresp.
  - intros Herr. destruct (unexpectedStatus_err r od (StatusCode r) Herr).
Qed.

(** A call that returns no error returns a response. *)
Lemma attemptLoop_response (remaining : nat) :
  forall (req : Request) (attempts : Z) (v : LoopVars) (env : Env),
    resp v <> None
    \/ (attempts < requestAttemptsForRateLimiting /\ remaining <> 0%nat) ->
    let res := fst (attemptLoop c req reqBody input remaining attempts v env) in
    result_err res = None -> result_resp res <> None.
Proof.
  induction remaining as [| n IH]; intros req attempts v env Hpre;
    cbn [attemptLoop]; cbn zeta;
    destruct (Z.ltb_spec attempts requestAttemptsForRateLimiting)
      as [Hlt | Hge];
    try (intros _; cbn; destruct Hpre as [Hr | [Hlt' Hn]];
         [exact Hr | lia || congruence]).
  destruct (sleepAndBackoff attempts v env) as [v1 env1].
  destruct (Do (Request_setBody req (Some (NopCloser_NewBuffer reqBody)))
              env1) as [[r | err] env2]; [| discriminate].
  destruct (odata_FromResponse r) as [od [err |]]; [discriminate |].
  pose proof (evaluate_keeps_response attempts (setResponse v1 r od) r od)
    as Hkeep.
  destruct (evaluate c input attempts (setResponse v1 r od) r od)
    as [v' | v' | res].
  - apply IH. left. rewrite Hkeep. discriminate.
  - intros _. cbn. rewrite Hkeep. discriminate.
  - intros Herr. cbn in *. rewrite (Hkeep Herr). discriminate.
Qed.

(** *** What a run adds to the log *)

Lemma sleepAndBackoff_log (attempts : Z) (v : LoopVars) (env : Env) :
  log (snd (sleepAndBackoff attempts v env)) =
  log env ++ (if 0 <? attempts then [Slept (backoff v)] else []).
Proof.
  rewrite sleepAndBackoff_env. destruct (0 <? attempts); cbn.
  - reflexivity.
  - rewrite app_nil_r. reflexivity.
Qed.

(** Every request the loop sends is the request it was given with the
    buffered body put in. *)
Lemma attemptLoop_sends (remaining : nat) :
  forall (req : Request) (attempts : Z) (v : LoopVars) (env : Env),
  exists evs,
    log (snd (attemptLoop c req reqBody input remaining attempts v env))
    = log env ++ evs
    /\ Forall (fun rq => rq = requestSent req reqBody) (sentRequests evs).
Proof.
  induction remaining as [| n IH]; intros req attempts v env;
    cbn [attemptLoop];
    destruct (attempts <? requestAttemptsForRateLimiting);
    try (exists []; rewrite app_nil_r; split; [reflexivity | constructor]).
  destruct (sleepAndBackoff attempts v env) as [v1 env1] eqn:Hsb.
  fold (requestSent req reqBody). rewrite Do_eq.
  assert (Hlog : log env1 =
                 log env ++ (if 0 <? attempts then [Slept (backoff v)] else [])).
  { replace env1 with (snd (sleepAndBackoff attempts v env))
      by (rewrite Hsb; reflexivity).
    apply sleepAndBackoff_log. }
  set (slept := if 0 <? attempts then [Slept (backoff v)] else []) in Hlog.
  assert (Hslept : sentRequests slept = [])
    by (unfold slept; destruct (0 <? attempts); reflexivity).
  assert (Hone : Forall (fun rq => rq = requestSent req reqBody)
                   (sentRequests (slept ++ [Sent (requestSent req reqBody)]))).
  { clear - Hslept. induction slept as [| [d | rq] l IHl]; cbn in *.
    - repeat constructor.
    - apply IHl. assumption.
    - discriminate. }
  set (env2 := {| world := snd (HttpClient_Do (requestSent req reqBody)
                                  (world env1));
                  log := log env1 ++ [Sent (requestSent req reqBody)] |}).
  assert (Hlog2 : log env2 =
                  log env ++ (slept ++ [Sent (requestSent req reqBody)])).
  { unfold env2. cbn [log]. rewrite Hlog, <- app_assoc. reflexivity. }
  destruct (fst (HttpClient_Do (requestSent req reqBody) (world env1)))
    as [r | err].
  2: { exists (slept ++ [Sent (requestSent req reqBody)]). cbn [snd].
       split; assumption. }
  destruct (odata_FromResponse r) as [od [err |]].
  { exists (slept ++ [Sent (requestSent req reqBody)]). cbn [snd].
    split; assumption. }
  destruct (evaluate c input attempts (setResponse v1 r od) r od)
    as [v' | v' | res].
  - rewrite attemptLoop_usedUp.
    destruct (IH (requestSent req reqBody) (Int64.add attempts 1) v' env2)
      as (evs & Hevs & Hall).
    exists ((slept ++ [Sent (requestSent req reqBody)]) ++ evs).
    split.
    + rewrite Hevs, Hlog2, <- !app_assoc. reflexivity.
    + rewrite requestSent_idem in Hall.
      clear - Hone Hall.
      induction (slept ++ [Sent (requestSent req reqBody)])
        as [| [d | rq] l IHl]; cbn in *.
      * assumption.
      * apply IHl. assumption.
      * inversion Hone; subst. constructor; [reflexivity |].
        apply IHl. assumption.
  - exists (slept ++ [Sent (requestSent req reqBody)]). cbn [snd].
    split; assumption.
  - exists (slept ++ [Sent (requestSent req reqBody)]). cbn [snd].
    split; assumption.
Qed.

(** *** Passes that are retried *)

Lemma attemptLoop_requestSent (remaining : nat) (req : Request)
    (attempts : Z) (v : LoopVars) (env : Env) :
  attemptLoop c (requestSent req reqBody) reqBody input remaining attempts v env
  = attemptLoop c req reqBody input remaining attempts v env.
Proof. destruct remaining; reflexivity. Qed.

Lemma sentRequests_app (l1 l2 : list Event) :
  sentRequests (l1 ++ l2) = sentRequests l1 ++ sentRequests l2.
Proof.
  induction l1 as [| [d | rq] l1 IH]; cbn; [reflexivity | assumption |].
  rewrite IH. reflexivity.
Qed.

Lemma afterSend_log (req : Request) (attempts : Z) (v : LoopVars)
    (env : Env) :
  exists evs,
    log (afterSend req reqBody attempts v env) = log env ++ evs
    /\ List.length (sentRequests evs) = 1%nat.
Proof.
  unfold afterSend. cbn [log]. rewrite sleepAndBackoff_log.
  exists ((if 0 <? attempts then [Slept (backoff v)] else [])
          ++ [Sent (requestSent req reqBody)]).
  split; [rewrite <- app_assoc; reflexivity |].
  destruct (0 <? attempts); reflexivity.
Qed.

Lemma retried_continue (attempts : Z) (v : LoopVars) (r : Response)
    (od : option OData) :
  retried c input attempts r od = true ->
  exists v', evaluate c input attempts v r od = Continue v'.
Proof.
  unfold retried. intros Hret.
  destruct (consistencyRetry c input attempts r od) eqn:Hcons.
  - exists v. unfold evaluate. rewrite Hcons. reflexivity.
  - cbn [orb] in Hret. eexists. apply evaluate_rateLimiting. assumption.
Qed.

(** [k] passes that are all retried lead to the pass [attempts + k], with
    [k] requests sent. *)
Lemma attemptLoop_retried (k : nat) :
  forall (n : nat) (req : Request) (attempts : Z) (v : LoopVars) (env : Env),
    0 <= attempts ->
    attempts + Z.of_nat k <= requestAttemptsForRateLimiting ->
    (forall j, (j < k)%nat ->
       exists r od,
         answer (requestSent req reqBody) j (world env) = inl r
         /\ odata_FromResponse r = (od, None)
         /\ retried c input (attempts + Z.of_nat j) r od = true) ->
    exists v' evs,
      attemptLoop c req reqBody input (k + n) attempts v env
      = attemptLoop c (requestSent req reqBody) reqBody input n
          (attempts + Z.of_nat k) v'
          {| world := worldAfter (requestSent req reqBody) k (world env);
             log := log env ++ evs |}
      /\ List.length (sentRequests evs) = k.
Proof.
  unfold requestAttemptsForRateLimiting.
  induction k as [| k IH]; intros n req attempts v env Ha Hk Hall.
  - exists v, []. split; [| reflexivity].
    rewrite app_nil_r, Z.add_0_r, attemptLoop_requestSent.
    destruct env. reflexivity.
  - destruct (Hall 0%nat) as (r & od & Hr & Hod & Hret); [lia |].
    rewrite Z.add_0_r in Hret.
    cbn [Nat.add].
    rewrite (attemptLoop_pass req (k + n) attempts v env r od)
      by (unfold requestAttemptsForRateLimiting; assumption || lia).
    destruct (retried_continue attempts
                (setResponse (fst (sleepAndBackoff attempts v env)) r od)
                r od Hret) as (v1 & Hev).
    rewrite Hev, add_one_small by lia.
    destruct (IH n (requestSent req reqBody) (attempts + 1) v1
                (afterSend req reqBody attempts v env))
      as (v' & evs' & Heq & Hlen); try lia.
    { intros j Hj. rewrite requestSent_idem.
      destruct (Hall (S j)) as (rj & odj & Hrj & Hodj & Hretj); [lia |].
      exists rj, odj. repeat split; try assumption.
      replace (attempts + 1 + Z.of_nat j) with (attempts + Z.of_nat (S j))
        by lia.
      assumption. }
    destruct (afterSend_log req attempts v env) as (evs1 & Hlog1 & Hlen1).
    exists v', (evs1 ++ evs'). split.
    + rewrite Heq, requestSent_idem, Hlog1, <- app_assoc.
      replace (attempts + 1 + Z.of_nat k) with (attempts + Z.of_nat (S k))
        by lia.
      reflexivity.
    + rewrite sentRequests_app, length_app, Hlen1, Hlen. reflexivity.
Qed.

(** A pass that is entered sends its request. *)
Lemma attemptLoop_sends_once (remaining : nat) (req : Request)
    (attempts : Z) (v : LoopVars) (env : Env) :
  attempts < requestAttemptsForRateLimiting ->
  exists evs,
    log (snd (attemptLoop c req reqBody input (S remaining) attempts v env))
    = log env ++ evs
    /\ (1 <= List.length (sentRequests evs))%nat.
Proof.
  intros Ha. cbn [attemptLoop].
  destruct (Z.ltb_spec attempts requestAttemptsForRateLimiting); [| lia].
  pose proof (sleepAndBackoff_log attempts v env) as Hlog.
  destruct (sleepAndBackoff attempts v env) as [v1 env1]. cbn [snd] in Hlog.
  fold (requestSent req reqBody). rewrite Do_eq.
  set (env2 := {| world := snd (HttpClient_Do (requestSent req reqBody)
                                  (world env1));
                  log := log env1 ++ [Sent (requestSent req reqBody)] |}).
  set (slept := if 0 <? attempts then [Slept (backoff v)] else []) in Hlog.
  assert (Hlog2 : log env2 =
                  log env ++ (slept ++ [Sent (requestSent req reqBody)]))
    by (unfold env2; cbn [log]; rewrite Hlog, <- app_assoc; reflexivity).
  assert (Hone : (1 <= List.length
                         (sentRequests
                            (slept ++ [Sent (requestSent req reqBody)])))%nat)
    by (rewrite sentRequests_app, length_app; cbn; lia).
  destruct (fst (HttpClient_Do (requestSent req reqBody) (world env1)))
    as [r | err].
  2: { eexists. cbn [snd]. split; eassumption. }
  destruct (odata_FromResponse r) as [od [err |]].
  { eexists. cbn [snd]. split; eassumption. }
  destruct (evaluate c input attempts (setResponse v1 r od) r od)
    as [v' | v' | res].
  - rewrite attemptLoop_usedUp.
    destruct (attemptLoop_sends remaining (requestSent req reqBody)
                (Int64.add attempts 1) v' env2) as (evs & Hevs & _).
    exists ((slept ++ [Sent (requestSent req reqBody)]) ++ evs). split.
    + rewrite Hevs, Hlog2, <- !app_assoc. reflexivity.
    + rewrite sentRequests_app, length_app. lia.
  - eexists. cbn [snd]. split; eassumption.
  - eexists. cbn [snd]. split; eassumption.
Qed.

(** A pass after the first one sleeps the backoff it was handed and then
    sends the request. *)
Lemma attemptLoop_sleeps_then_sends (remaining : nat) (req : Request)
    (attempts : Z) (v : LoopVars) (env : Env) :
  0 < attempts < requestAttemptsForRateLimiting ->
  exists evs,
    log (snd (attemptLoop c req reqBody input (S remaining) attempts v env))
    = log env ++ Slept (backoff v) :: Sent (requestSent req reqBody) :: evs.
Proof.
  intros Ha. cbn [attemptLoop].
  destruct (Z.ltb_spec attempts requestAttemptsForRateLimiting); [| lia].
  pose proof (sleepAndBackoff_log attempts v env) as Hlog.
  destruct (sleepAndBackoff attempts v env) as [v1 env1]. cbn [snd] in Hlog.
  destruct (Z.ltb_spec 0 attempts); [| lia].
  fold (requestSent req reqBody). rewrite Do_eq.
  set (env2 := {| world := snd (HttpClient_Do (requestSent req reqBody)
                                  (world env1));
                  log := log env1 ++ [Sent (requestSent req reqBody)] |}).
  assert (Hlog2 : log env2 =
                  log env
                  ++ Slept (backoff v) :: Sent (requestSent req reqBody) :: [])
    by (unfold env2; cbn [log]; rewrite Hlog, <- app_assoc; reflexivity).
  destruct (fst (HttpClient_Do (requestSent req reqBody) (world env1)))
    as [r | err].
  2: { exists []. exact Hlog2. }
  destruct (odata_FromResponse r) as [od [err |]].
  { exists []. exact Hlog2. }
  destruct (evaluate c input attempts (setResponse v1 r od) r od)
    as [v' | v' | res].
  - rewrite attemptLoop_usedUp.
    destruct (attemptLoop_sends remaining (requestSent req reqBody)
                (Int64.add attempts 1) v' env2) as (evs & Hevs & _).
    exists evs. rewrite Hevs, Hlog2, <- app_assoc. reflexivity.
  - exists []. exact Hlog2.
  - exists []. exact Hlog2.
Qed.

(** *** The delays of a run in which no Retry-After is honoured *)

Lemma sleeps_app (l1 l2 : list Event) :
  sleeps (l1 ++ l2) = sleeps l1 ++ sleeps l2.
Proof.
  induction l1 as [| [d | rq] l1 IH]; cbn; [reflexivity | | assumption].
  rewrite IH. reflexivity.
Qed.

Lemma evaluate_continue_keeps_backoff (attempts : Z) (v v' : LoopVars)
    (r : Response) (od : option OData) :
  retryAfterDelay r = None ->
  evaluate c input attempts v r od = Continue v' ->
  backoff v' = backoff v /\ multiplier v' = multiplier v.
Proof.
  intros Hd. unfold evaluate, evaluateStatus, retryAfterBackoff. rewrite Hd.
  destruct (consistencyRetry c input attempts r od).
  - intros Heq. inversion Heq. split; reflexivity.
  - destruct (containsStatusCode (GetValidStatusCodes input) (StatusCode r));
      [discriminate |].
    destruct (match GetValidStatusFunc input with
              | Some f => f r od
              | None => false
              end); [discriminate |].
    destruct (containsStatusCode rateLimitingStatuses (StatusCode r));
      [| discriminate].
    intros Heq. inversion Heq. split; reflexivity.
Qed.

Lemma attemptLoop_sleeps (remaining : nat) :
  forall (req : Request) (attempts : Z) (v : LoopVars) (env : Env),
    noRetryAfter ->
    1 <= attempts ->
    multiplier v = attempts ->
    backoff v = defaultBackoff attempts ->
    exists evs k,
      log (snd (attemptLoop c req reqBody input remaining attempts v env))
      = log env ++ evs
      /\ (k <= remaining)%nat
      /\ sleeps evs = backoffSchedule attempts k.
Proof.
  induction remaining as [| n IH]; intros req attempts v env Hno Ha Hm Hb;
    cbn [attemptLoop];
    destruct (Z.ltb_spec attempts requestAttemptsForRateLimiting) as [Hlt | _];
    try (exists [], 0%nat; cbn [snd]; rewrite app_nil_r; repeat split; lia).
  unfold requestAttemptsForRateLimiting in Hlt.
  pose proof (sleepAndBackoff_vars attempts v env) as Hvars.
  pose proof (sleepAndBackoff_log attempts v env) as Hlog.
  destruct (sleepAndBackoff attempts v env) as [v1 env1]. cbn [fst snd] in *.
  rewrite Hm in Hvars. specialize (Hvars ltac:(lia)).
  destruct (Z.ltb_spec 0 attempts) as [_ | Hneg]; [| lia].
  fold (requestSent req reqBody). rewrite Do_eq.
  set (env2 := {| world := snd (HttpClient_Do (requestSent req reqBody)
                                  (world env1));
                  log := log env1 ++ [Sent (requestSent req reqBody)] |}).
  assert (Hlog2 : log env2 =
                  log env ++ [Slept (backoff v); Sent (requestSent req reqBody)]).
  { unfold env2. cbn [log]. rewrite Hlog, <- app_assoc. reflexivity. }
  assert (Hone : sleeps [Slept (backoff v); Sent (requestSent req reqBody)]
                 = backoffSchedule attempts 1)
    by (cbn; rewrite Hb; reflexivity).
  destruct (fst (HttpClient_Do (requestSent req reqBody) (world env1)))
    as [r | err] eqn:Hans.
  2: { eexists _, 1%nat. cbn [snd]. repeat split; [eassumption | lia | exact Hone]. }
  destruct (odata_FromResponse r) as [od [err |]].
  { eexists _, 1%nat. cbn [snd]. repeat split; [eassumption | lia | exact Hone]. }
  destruct (evaluate c input attempts (setResponse v1 r od) r od)
    as [v' | v' | res] eqn:Hev.
  - destruct (evaluate_continue_keeps_backoff _ _ _ _ _ (Hno _ _ _ Hans) Hev)
      as [Hb' Hm'].
    rewrite Hvars in Hb', Hm'. cbn in Hb', Hm'.
    rewrite (add_one_small attempts), attemptLoop_usedUp by lia.
    destruct (IH (requestSent req reqBody) (attempts + 1) v' env2)
      as (evs & k & Hevs & Hk & Hsl); try assumption; try lia.
    exists ([Slept (backoff v); Sent (requestSent req reqBody)] ++ evs), (S k).
    repeat split.
    + rewrite Hevs, Hlog2, <- app_assoc. reflexivity.
    + lia.
    + rewrite sleeps_app, Hsl. cbn. rewrite Hb. reflexivity.
  - eexists _, 1%nat. cbn [snd]. repeat split; [eassumption | lia | exact Hone].
  - eexists _, 1%nat. cbn [snd]. repeat split; [eassumption | lia | exact Hone].
Qed.

Lemma attemptLoop_sleeps_from_start (n : nat) (req : Request) (env : Env) :
  noRetryAfter ->
  exists evs k,
    log (snd (attemptLoop c req reqBody input (S n) 0 initialVars env))
    = log env ++ evs
    /\ (k <= n)%nat
    /\ sleeps evs = backoffSchedule 1 k.
Proof.
  intros Hno. cbn [attemptLoop].
  change (0 <? requestAttemptsForRateLimiting) with true. cbv iota.
  pose proof (sleepAndBackoff_vars 0 initialVars env) as Hvars.
  pose proof (sleepAndBackoff_log 0 initialVars env) as Hlog.
  destruct (sleepAndBackoff 0 initialVars env) as [v1 env1].
  cbn [fst snd] in *. specialize (Hvars ltac:(cbn; lia)).
  change (0 <? 0) with false in Hlog. rewrite app_nil_r in Hlog.
  fold (requestSent req reqBody). rewrite Do_eq.
  set (env2 := {| world := snd (HttpClient_Do (requestSent req reqBody)
                                  (world env1));
                  log := log env1 ++ [Sent (requestSent req reqBody)] |}).
  assert (Hlog2 : log env2 = log env ++ [Sent (requestSent req reqBody)])
    by (unfold env2; cbn [log]; rewrite Hlog; reflexivity).
  destruct (fst (HttpClient_Do (requestSent req reqBody) (world env1)))
    as [r | err] eqn:Hans.
  2: { eexists _, 0%nat. cbn [snd].
       split; [eassumption | split; [lia | reflexivity]]. }
  destruct (odata_FromResponse r) as [od [err |]].
  { eexists _, 0%nat. cbn [snd].
       split; [eassumption | split; [lia | reflexivity]]. }
  destruct (evaluate c input 0 (setResponse v1 r od) r od)
    as [v' | v' | res] eqn:Hev.
  - destruct (evaluate_continue_keeps_backoff _ _ _ _ _ (Hno _ _ _ Hans) Hev)
      as [Hb' Hm'].
    rewrite Hvars in Hb', Hm'. cbn in Hb', Hm'.
    change (Int64.add 0 1) with 1. rewrite attemptLoop_usedUp.
    destruct (attemptLoop_sleeps n (requestSent req reqBody) 1 v' env2)
      as (evs & k & Hevs & Hk & Hsl); try assumption; try reflexivity.
    exists ([Sent (requestSent req reqBody)] ++ evs), k.
    repeat split.
    + rewrite Hevs, Hlog2, <- app_assoc. reflexivity.
    + assumption.
    + rewrite sleeps_app, Hsl. reflexivity.
  - eexists _, 0%nat. cbn [snd].
       split; [eassumption | split; [lia | reflexivity]].
  - eexists _, 0%nat. cbn [snd].
       split; [eassumption | split; [lia | reflexivity]].
Qed.

End Loop.

(** *** The Retry-After header *)

Lemma retryAfterDelay_spec (r : Response) :
  let h := Header_Get (RespHeader r) "Retry-After" in
  (forall d, retryAfterDelay r = Some d ->
     exists f, h <> "" /\ strconv_ParseFloat h = Some f
               /\ Float64.gt_zero f = true
               /\ d = Float64.to_int64
                        (Float64.mul f (Float64.of_int time.Second)))
  /\ (h = "" \/ strconv_ParseFloat h = None
      \/ (exists f, strconv_ParseFloat h = Some f
                    /\ Float64.gt_zero f = false) ->
      retryAfterDelay r = None).
Proof.
  cbn zeta. unfold retryAfterDelay.
  destruct (String.eqb_spec (Header_Get (RespHeader r) "Retry-After") "")
    as [He | Hne].
  - split; [discriminate | reflexivity].
  - destruct (strconv_ParseFloat (Header_Get (RespHeader r) "Retry-After"))
      as [f |].
    + destruct (Float64.gt_zero f) eqn:Hgt.
      * split.
        -- intros d Hd. inversion Hd. exists f. repeat split; assumption.
        -- intros [He | [Hn | (f' & Hf' & Hgt')]];
             [contradiction | discriminate | congruence].
      * split; [discriminate | reflexivity].
    + split; [discriminate | reflexivity].
Qed.

(** Zero and the negative numbers are not greater than zero, whatever their
    sign bit and magnitude; neither is NaN. *)
Lemma gt_zero_zero (s : bool) : Float64.gt_zero (S754_zero s) = false.
Proof. reflexivity. Qed.

Lemma gt_zero_negative (m : positive) (e : Z) :
  Float64.gt_zero (S754_finite true m e) = false.
Proof. reflexivity. Qed.

Lemma gt_zero_negative_infinity : Float64.gt_zero (S754_infinity true) = false.
Proof. reflexivity. Qed.

Lemma gt_zero_nan : Float64.gt_zero S754_nan = false.
Proof. reflexivity. Qed.

(** C9.  Let an attempt that is not the last be answered by a response
    that ends in the rate-limiting branch.  The backoff and the multiplier
    that the pass computed are replaced only when Retry-After is present,
    parses as a float and is greater than zero.  When the header is missing,
    does not parse, or parses to a value that is not greater than zero (zero,
    a negative number), the loop goes on with both as they were: the delay
    slept before the next attempt is the exponential one computed on this
    pass, and the multiplier is not reset. *)
Theorem retry_after_honoured_only_when_positive {I} `{HttpRequestInput I}
    (c : Client) (input : I) (req : Request) (reqBody : bytes) (n : nat)
    (attempts : Z) (v : LoopVars) (env : Env)
    (r : Response) (od : option OData) :
  0 <= attempts < 9 ->
  answer (requestSent req reqBody) 0 (world env) = inl r ->
  odata_FromResponse r = (od, None) ->
  reachesRateLimiting c input attempts r od = true ->
  let h := Header_Get (RespHeader r) "Retry-After" in
  let computed := fst (sleepAndBackoff attempts v env) in
  exists v',
    evaluate c input attempts (setResponse computed r od) r od = Continue v'
    /\ attemptLoop c req reqBody input (S (S n)) attempts v env
       = attemptLoop c (requestSent req reqBody) reqBody input (S n)
           (attempts + 1) v' (afterSend req reqBody attempts v env)
    /\ (backoff v' <> backoff computed \/ multiplier v' <> multiplier computed
        -> exists f, h <> "" /\ strconv_ParseFloat h = Some f
                     /\ Float64.gt_zero f = true)
    /\ (h = "" \/ strconv_ParseFloat h = None
        \/ (exists f, strconv_ParseFloat h = Some f
                      /\ Float64.gt_zero f = false) ->
        backoff v' = backoff computed
        /\ multiplier v' = multiplier computed
        /\ exists evs,
             log (snd (attemptLoop c req reqBody input (S (S n)) attempts v
                         env))
             = log (afterSend req reqBody attempts v env)
               ++ Slept (backoff computed)
                  :: Sent (requestSent req reqBody) :: evs).
Proof.
  intros Ha Hr Hod Hrl h computed.
  exists (retryAfterBackoff r
            (setStatus (setResponse computed r od) (StatusCode r))).
  assert (Hev : evaluate c input attempts (setResponse computed r od) r od
                = Continue
                    (retryAfterBackoff r
                       (setStatus (setResponse computed r od) (StatusCode r))))
    by (apply evaluate_rateLimiting; assumption).
  assert (Hloop :
            attemptLoop c req reqBody input (S (S n)) attempts v env
            = attemptLoop c (requestSent req reqBody) reqBody input (S n)
                (attempts + 1)
                (retryAfterBackoff r
                   (setStatus (setResponse computed r od) (StatusCode r)))
                (afterSend req reqBody attempts v env)).
  { rewrite (attemptLoop_pass c reqBody input req (S n) attempts v env r od)
      by (unfold requestAttemptsForRateLimiting; assumption || lia).
    fold computed. rewrite Hev, add_one_small by lia. reflexivity. }
  split; [exact Hev |]. split; [exact Hloop |].
  destruct (retryAfterDelay_spec r) as [Hsome Hnone].
  unfold retryAfterBackoff in *.
  destruct (retryAfterDelay r) as [d |] eqn:Hd.
  - split.
    + intros _. destruct (Hsome d eq_refl) as (f & Hne & Hf & Hgt & _).
      exists f. repeat split; assumption.
    + intros Hno. specialize (Hnone Hno). discriminate.
  - split.
    + intros [Hb | Hm]; exfalso; [apply Hb | apply Hm]; reflexivity.
    + intros _. split; [reflexivity |]. split; [reflexivity |].
      rewrite Hloop.
      destruct (attemptLoop_sleeps_then_sends c reqBody input n
                  (requestSent req reqBody) (attempts + 1)
                  (setStatus (setResponse computed r od) (StatusCode r))
                  (afterSend req reqBody attempts v env)) as (evs & Hevs).
      { unfold requestAttemptsForRateLimiting. lia. }
      exists evs. exact Hevs.
Qed.

(** C4.  Let an attempt that is not the last be answered by a response that
    ends in the rate-limiting branch and carries [Retry-After: 2].  The
    backoff becomes exactly two seconds, whatever the exponential value was,
    and the multiplier zero; the loop goes on, and what it does next is to
    sleep these two seconds and to send the request again.  On that next
    pass the backoff and the multiplier are computed as on the first pass of
    a call: the progression starts again. *)
Theorem retry_after_two_seconds_overrides_backoff {I} `{HttpRequestInput I}
    (c : Client) (input : I) (req : Request) (reqBody : bytes) (n : nat)
    (attempts : Z) (v : LoopVars) (env : Env)
    (r : Response) (od : option OData) :
  0 <= attempts < 9 ->
  answer (requestSent req reqBody) 0 (world env) = inl r ->
  odata_FromResponse r = (od, None) ->
  reachesRateLimiting c input attempts r od = true ->
  Header_Get (RespHeader r) "Retry-After" = "2" ->
  strconv_ParseFloat "2" = Some (Float64.of_int 2) ->
  let computed := fst (sleepAndBackoff attempts v env) in
  let env' := afterSend req reqBody attempts v env in
  exists v' evs,
    evaluate c input attempts (setResponse computed r od) r od = Continue v'
    /\ backoff v' = 2 * time.Second
    /\ multiplier v' = 0
    /\ log (snd (attemptLoop c req reqBody input (S (S n)) attempts v env))
       = log env'
         ++ Slept (2 * time.Second) :: Sent (requestSent req reqBody) :: evs
    /\ backoff (fst (sleepAndBackoff (attempts + 1) v' env'))
       = backoff (fst (sleepAndBackoff 0 initialVars env))
    /\ multiplier (fst (sleepAndBackoff (attempts + 1) v' env'))
       = multiplier (fst (sleepAndBackoff 0 initialVars env)).
Proof.
  intros Ha Hr Hod Hrl Hh Hparse computed env'.
  assert (Hd : retryAfterDelay r = Some (2 * time.Second)).
  { unfold retryAfterDelay. rewrite Hh.
    change (String.eqb "2" "") with false. cbv iota.
    rewrite Hparse. vm_compute. reflexivity. }
  assert (Hev : evaluate c input attempts (setResponse computed r od) r od
                = Continue
                    (setBackoff
                       (setStatus (setResponse computed r od) (StatusCode r))
                       (2 * time.Second) 0)).
  { rewrite (evaluate_rateLimiting c input attempts _ r od Hrl).
    unfold retryAfterBackoff. rewrite Hd. reflexivity. }
  destruct (attemptLoop_sleeps_then_sends c reqBody input n
              (requestSent req reqBody) (attempts + 1)
              (setBackoff
                 (setStatus (setResponse computed r od) (StatusCode r))
                 (2 * time.Second) 0)
              env') as (evs & Hevs).
  { unfold requestAttemptsForRateLimiting. lia. }
  eexists _, evs. split; [exact Hev |].
  split; [reflexivity |]. split; [reflexivity |]. split.
  - rewrite (attemptLoop_pass c reqBody input req (S n) attempts v env r od)
      by (unfold requestAttemptsForRateLimiting; assumption || lia).
    fold computed. rewrite Hev, add_one_small by lia.
    exact Hevs.
  - split; reflexivity.
Qed.

(** *** Consistency retries *)

(** A response that the consistency-failure function flags is tried again
    exactly while the attempt counter is below six, the loop variables left
    as they are; from there on it is judged by its status. *)
Lemma evaluate_flagged_response {I} `{HttpRequestInput I}
    (c : Client) (input : I) (f : ConsistencyFailureFunc) (attempts : Z)
    (v : LoopVars) (r : Response) (od : option OData) :
  DisableRetries c = false ->
  GetConsistencyFailureFunc input = Some f ->
  f r od = true ->
  (attempts < requestAttemptsForConsistency ->
   evaluate c input attempts v r od = Continue v)
  /\ (requestAttemptsForConsistency <= attempts ->
      evaluate c input attempts v r od = evaluateStatus input v r od).
Proof.
  intros Hdis Hf Hfr. unfold evaluate, consistencyRetry.
  rewrite Hdis, Hf, Hfr. cbn [negb].
  destruct (Z.ltb_spec attempts requestAttemptsForConsistency);
    split; intros; try lia; reflexivity.
Qed.

Lemma evaluateStatus_judged {I} `{HttpRequestInput I}
    (input : I) (v : LoopVars) (r : Response) (od : option OData) :
  containsStatusCode rateLimitingStatuses (StatusCode r) = false ->
  match evaluateStatus input (setResponse v r od) r od with
  | Continue _ => False
  | Break v' => (resp v', status v', o v', None) = judgedByStatus input r od
  | Return res => res = judgedByStatus input r od
  end.
Proof.
  intros Hrate. unfold evaluateStatus, judgedByStatus. rewrite Hrate.
  destruct (containsStatusCode (GetValidStatusCodes input) (StatusCode r));
    [reflexivity |].
  destruct (match GetValidStatusFunc input with
            | Some f => f r od
            | None => false
            end); reflexivity.
Qed.

(** *** The steps before the loop *)

(** The loop sets the body of the request anew on every pass: that the
    stream read before the loop is used up makes no difference to it. *)
Lemma performRequest_eq {I} `{HttpRequestInput I}
    (c : Client) (req : Request) (input : I) (env : Env) :
  performRequest c req input env =
  match authorize c req env with
  | (inr err, env) => ((None, 0, None, Some err), env)
  | (inl req, env) =>
      match readRequestBody (addHeaders c req) with
      | (_, Some err) =>
          ((None, 0, None,
            Some ("reading request body: " ++ err)%string), env)
      | (reqBody, None) =>
          attemptLoop c (addHeaders c req) reqBody input
            (Z.to_nat requestAttemptsForRateLimiting) 0 initialVars env
      end
  end.
Proof.
  unfold performRequest.
  destruct (authorize c req env) as [[req1 | err] env1]; [| reflexivity].
  cbv zeta.
  destruct (readRequestBody (addHeaders c req1)) as [reqBody [err |]];
    [reflexivity |].
  change (Z.to_nat requestAttemptsForRateLimiting) with 10%nat.
  apply attemptLoop_usedUp.
Qed.

Lemma performRequest_loop {I} `{HttpRequestInput I}
    (c : Client) (req req1 : Request) (input : I) (env env1 : Env)
    (reqBody : bytes) :
  authorize c req env = (inl req1, env1) ->
  readRequestBody (addHeaders c req1) = (reqBody, None) ->
  performRequest c req input env =
  attemptLoop c (addHeaders c req1) reqBody input 10 0 initialVars env1.
Proof.
  intros Hauth Hbody. unfold performRequest. rewrite Hauth, Hbody.
  change (Z.to_nat requestAttemptsForRateLimiting) with 10%nat.
  apply attemptLoop_usedUp.
Qed.

(** C3. If all ten attempts of [performRequest] end in the rate-limiting
    branch, the call returns the response, the status and the envelope of
    the tenth attempt, and its error is nil: no error is made for the
    exhausted budget. *)
Theorem exhausted_attempts_return_last_response {I} `{HttpRequestInput I}
    (c : Client) (req req1 : Request) (input : I) (env env1 : Env)
    (reqBody : bytes) :
  authorize c req env = (inl req1, env1) ->
  readRequestBody (addHeaders c req1) = (reqBody, None) ->
  (forall i, (i < 10)%nat ->
     exists r od,
       answer (requestSent (addHeaders c req1) reqBody) i (world env1) = inl r
       /\ odata_FromResponse r = (od, None)
       /\ reachesRateLimiting c input (Z.of_nat i) r od = true) ->
  exists r od,
    answer (requestSent (addHeaders c req1) reqBody) 9 (world env1) = inl r
    /\ odata_FromResponse r = (od, None)
    /\ fst (performRequest c req input env) = (Some r, StatusCode r, od, None).
Proof.
  intros Hauth Hbody Hall.
  rewrite (performRequest_loop c req req1 input env env1 reqBody Hauth Hbody).
  apply attemptLoop_exhausted; try reflexivity; try lia.
  intros i Hi. destruct (Hall i) as (r & od & Hr & Hod & Hrl); [lia |].
  exists r, od. repeat split; assumption.
Qed.

Lemma authorize_keeps (c : Client) (req : Request) (env : Env) :
  log (snd (authorize c req env)) = log env
  /\ forall req1, fst (authorize c req env) = inl req1 ->
       ReqBody req1 = ReqBody req.
Proof.
  unfold authorize. destruct (Authorizer c) as [tokenOf |].
  - destruct (tokenOf (world env)) as [[token | err] w]; cbn; split;
      try reflexivity; intros req1 Heq; inversion Heq; reflexivity.
  - cbn. split; [reflexivity |]. intros req1 Heq. inversion Heq. reflexivity.
Qed.

Lemma readRequestBody_addHeaders (c : Client) (req : Request) :
  readRequestBody (addHeaders c req) = readRequestBody req.
Proof. reflexivity. Qed.

(** C2, amended.  Let the first [i] attempts of a call be retried, for
    whichever of the two reasons, and let the consistency-failure function
    flag the answer to the next attempt.  If fewer than six attempts came
    before ([i < 6]) the request is sent once more.  If six or more came
    before, the flagged answer gets no consistency retry, however the
    earlier attempts were used up: unless its status is of the rate-limiting
    class the call ends there, after [i + 1] requests, with what the status
    alone decides.  The counter tested against the cap of six is the counter
    of all attempts. *)
Theorem consistency_retry_counts_every_attempt {I} `{HttpRequestInput I}
    (c : Client) (req req1 : Request) (input : I) (env env1 : Env)
    (reqBody : bytes) (f : ConsistencyFailureFunc) (i : nat)
    (r : Response) (od : option OData) :
  authorize c req env = (inl req1, env1) ->
  readRequestBody (addHeaders c req1) = (reqBody, None) ->
  DisableRetries c = false ->
  GetConsistencyFailureFunc input = Some f ->
  (i < 10)%nat ->
  (forall j, (j < i)%nat ->
     exists rj odj,
       answer (requestSent (addHeaders c req1) reqBody) j (world env1) = inl rj
       /\ odata_FromResponse rj = (odj, None)
       /\ retried c input (Z.of_nat j) rj odj = true) ->
  answer (requestSent (addHeaders c req1) reqBody) i (world env1) = inl r ->
  odata_FromResponse r = (od, None) ->
  f r od = true ->
  exists evs,
    log (snd (performRequest c req input env)) = log env ++ evs
    /\ (Z.of_nat i < requestAttemptsForConsistency ->
        (i + 2 <= List.length (sentRequests evs))%nat)
    /\ (requestAttemptsForConsistency <= Z.of_nat i ->
        containsStatusCode rateLimitingStatuses (StatusCode r) = false ->
        List.length (sentRequests evs) = (i + 1)%nat
        /\ fst (performRequest c req input env) = judgedByStatus input r od).
Proof.
  intros Hauth Hbody Hdis Hf Hi Hall Hr Hod Hfr.
  rewrite (performRequest_loop c req req1 input env env1 reqBody Hauth Hbody).
  assert (Hlog0 : log env1 = log env).
  { destruct (authorize_keeps c req env) as [Hl _].
    rewrite Hauth in Hl. exact Hl. }
  set (sreq := requestSent (addHeaders c req1) reqBody) in *.
  replace 10%nat with (i + S (9 - i))%nat by lia.
  destruct (attemptLoop_retried c reqBody input i (S (9 - i))
              (addHeaders c req1) 0 initialVars env1)
    as (v' & evs & Heq & Hlen);
    [lia | unfold requestAttemptsForRateLimiting; lia | exact Hall |].
  fold sreq in Heq. rewrite Heq. clear Heq. cbn [Z.add].
  set (envi := {| world := worldAfter sreq i (world env1);
                  log := log env1 ++ evs |}).
  assert (Hans : answer (requestSent sreq reqBody) 0 (world envi) = inl r)
    by exact Hr.
  pose proof (attemptLoop_pass c reqBody input sreq (9 - i) (Z.of_nat i) v'
                envi r od) as Hpass.
  rewrite Hpass
    by (unfold requestAttemptsForRateLimiting; assumption || lia).
  clear Hpass.
  destruct (evaluate_flagged_response c input f (Z.of_nat i)
              (setResponse (fst (sleepAndBackoff (Z.of_nat i) v' envi)) r od)
              r od Hdis Hf Hfr) as [Hbelow Hfrom].
  destruct (afterSend_log reqBody sreq (Z.of_nat i) v' envi)
    as (evs1 & Hlog1 & Hlen1).
  cbn [log envi] in Hlog1.
  unfold requestAttemptsForConsistency in *.
  destruct (Z.lt_ge_cases (Z.of_nat i) 6) as [Hlt | Hge].
  - rewrite (Hbelow Hlt).
    replace (9 - i)%nat with (S (8 - i)) by lia.
    destruct (attemptLoop_sends_once c reqBody input (8 - i)
                (requestSent sreq reqBody) (Int64.add (Z.of_nat i) 1)
                (setResponse (fst (sleepAndBackoff (Z.of_nat i) v' envi)) r od)
                (afterSend sreq reqBody (Z.of_nat i) v' envi))
      as (evs2 & Hlog2 & Hlen2).
    { rewrite add_one_small by lia.
      unfold requestAttemptsForRateLimiting. lia. }
    exists (evs ++ evs1 ++ evs2). split; [| split].
    + rewrite Hlog2, Hlog1, Hlog0, <- !app_assoc. reflexivity.
    + intros _. rewrite !sentRequests_app, !length_app. lia.
    + intros Hsix. lia.
  - rewrite (Hfrom Hge).
    pose proof (evaluateStatus_judged input
                  (fst (sleepAndBackoff (Z.of_nat i) v' envi)) r od)
      as Hjudged.
    destruct (evaluateStatus input
                (setResponse (fst (sleepAndBackoff (Z.of_nat i) v' envi))
                   r od) r od) as [v2 | v2 | res]; cbn [fst snd].
    + (* a status of the rate-limiting class: the attempt is retried for
         that reason *)
      destruct (attemptLoop_sends c reqBody input (9 - i)
                  (requestSent sreq reqBody) (Int64.add (Z.of_nat i) 1) v2
                  (afterSend sreq reqBody (Z.of_nat i) v' envi))
        as (evs2 & Hlog2 & _).
      exists (evs ++ evs1 ++ evs2). split; [| split].
      * rewrite Hlog2, Hlog1, Hlog0, <- !app_assoc. reflexivity.
      * intros Hlt. lia.
      * intros _ Hrate. destruct (Hjudged Hrate).
    + exists (evs ++ evs1). split; [| split].
      * rewrite Hlog1, Hlog0, <- app_assoc. reflexivity.
      * intros Hlt. lia.
      * intros _ Hrate. split; [| exact (Hjudged Hrate)].
        rewrite sentRequests_app, length_app. lia.
    + exists (evs ++ evs1). split; [| split].
      * rewrite Hlog1, Hlog0, <- app_assoc. reflexivity.
      * intros Hlt. lia.
      * intros _ Hrate. split; [| exact (Hjudged Hrate)].
        rewrite sentRequests_app, length_app. lia.
Qed.

(** C6.  Let the caller hand [performRequest] a request whose body is a
    stream that holds the bytes [b], and let the token be had.  The stream
    is read once, before the loop, and is used up by that read; so is, by
    the transport, every stream that is sent.  Yet however many attempts are
    retried ([i] of them, for whichever of the two reasons), at least
    [i + 1] requests are sent, and every one of them, the first as the
    k-th, is the same request and carries a fresh stream over the very
    bytes [b]. *)
Theorem every_attempt_sends_the_buffered_body {I} `{HttpRequestInput I}
    (c : Client) (req req1 : Request) (input : I) (env env1 : Env)
    (body : ReadCloser) (b : bytes) (i : nat) :
  ReqBody req = Some body ->
  io_ReadAll body = (b, None) ->
  authorize c req env = (inl req1, env1) ->
  (i < 10)%nat ->
  retriedUpTo c input (requestSent (addHeaders c req1) b) (world env1) i ->
  exists evs,
    log (snd (performRequest c req input env)) = log env ++ evs
    /\ (i < List.length (sentRequests evs))%nat
    /\ forall k rk,
         nth_error (sentRequests evs) k = Some rk ->
         ReqBody rk = Some (NopCloser_NewBuffer b)
         /\ nth_error (sentRequests evs) 0 = Some rk.
Proof.
  intros Hsome Hread Hauth Hi Hall.
  assert (Hbody : readRequestBody (addHeaders c req1) = (b, None)).
  { rewrite readRequestBody_addHeaders. unfold readRequestBody.
    destruct (authorize_keeps c req env) as [_ Hkeep].
    rewrite (Hkeep req1) by (rewrite Hauth; reflexivity).
    rewrite Hsome. exact Hread. }
  assert (Hlog0 : log env1 = log env).
  { destruct (authorize_keeps c req env) as [Hl _].
    rewrite Hauth in Hl. exact Hl. }
  rewrite (performRequest_loop c req req1 input env env1 b Hauth Hbody).
  destruct (attemptLoop_sends c b input 10 (addHeaders c req1) 0 initialVars
              env1) as (evs & Hevs & Hsent).
  exists evs. split; [rewrite Hevs, Hlog0; reflexivity |].
  split.
  - revert Hevs. replace 10%nat with (i + S (9 - i))%nat by lia.
    destruct (attemptLoop_retried c b input i (S (9 - i))
                (addHeaders c req1) 0 initialVars env1)
      as (v' & evs1 & Heq & Hlen);
      [lia | unfold requestAttemptsForRateLimiting; lia | exact Hall |].
    rewrite Heq.
    destruct (attemptLoop_sends_once c b input (9 - i)
                (requestSent (addHeaders c req1) b) (0 + Z.of_nat i) v'
                {| world := worldAfter (requestSent (addHeaders c req1) b) i
                              (world env1);
                   log := log env1 ++ evs1 |})
      as (evs2 & Hevs2 & Hlen2);
      [unfold requestAttemptsForRateLimiting; lia |].
    rewrite Hevs2. cbn [log]. rewrite <- app_assoc. intros Happ.
    apply app_inv_head in Happ. rewrite <- Happ.
    rewrite sentRequests_app, length_app. lia.
  - intros k rk Hk.
    assert (Hrk : rk = requestSent (addHeaders c req1) b).
    { rewrite Forall_forall in Hsent. apply Hsent.
      apply nth_error_In with k. assumption. }
    split.
    + rewrite Hrk. reflexivity.
    + destruct (sentRequests evs) as [| r1 l].
      * destruct k; discriminate.
      * inversion Hsent; subst. reflexivity.
Qed.

Lemma backoffSchedule_nth (n : nat) :
  forall (from : Z) (k : nat) (d : Z),
    nth_error (backoffSchedule from n) k = Some d ->
    d = defaultBackoff (from + Z.of_nat k).
Proof.
  induction n as [| n IH]; intros from k d Hk.
  - destruct k; discriminate.
  - destruct k as [| k]; cbn in Hk.
    + inversion Hk. f_equal. lia.
    + apply IH in Hk. rewrite Hk. f_equal. lia.
Qed.

Lemma backoffSchedule_length (n : nat) :
  forall from : Z, List.length (backoffSchedule from n) = n.
Proof.
  induction n as [| n IH]; intros from; cbn; [reflexivity |].
  rewrite IH. reflexivity.
Qed.

(** The delays of any run in which no Retry-After is honoured: the delay
    slept before the k-th retry is the initial delay doubled k times (and
    not k - 1 times), capped at 64s; there are at most nine delays. *)
Lemma backoff_delays_without_retry_after {I} `{HttpRequestInput I}
    (c : Client) (req : Request) (input : I) (env : Env) :
  noRetryAfter ->
  exists evs,
    log (snd (performRequest c req input env)) = log env ++ evs
    /\ (List.length (sleeps evs) <= 9)%nat
    /\ forall k d,
         nth_error (sleeps evs) k = Some d ->
         d = Z.min (retryBackoffInitialDelay * 2 ^ Z.of_nat (S k))
                   retryBackoffDelayCap.
Proof.
  intros Hno. rewrite performRequest_eq.
  destruct (authorize_keeps c req env) as [Hlog _].
  destruct (authorize c req env) as [[req1 | err] env1]; cbn [fst snd] in *.
  2: { exists []. rewrite app_nil_r. repeat split; [congruence | cbn; lia |].
       intros [| k] d Hk; discriminate. }
  destruct (readRequestBody (addHeaders c req1)) as [reqBody [err |]].
  { exists []. cbn [snd]. rewrite app_nil_r.
    repeat split; [congruence | cbn; lia |].
    intros [| k] d Hk; discriminate. }
  destruct (attemptLoop_sleeps_from_start c reqBody input 9
              (addHeaders c req1) env1 Hno) as (evs & k & Hevs & Hk & Hsl).
  exists evs. repeat split.
  - change (Z.to_nat requestAttemptsForRateLimiting) with 10%nat.
    rewrite Hevs, Hlog. reflexivity.
  - rewrite Hsl, backoffSchedule_length. assumption.
  - intros j d Hj. rewrite Hsl in Hj.
    apply backoffSchedule_nth in Hj. rewrite Hj. unfold defaultBackoff.
    replace (1 + Z.of_nat j) with (Z.of_nat (S j)) by lia. reflexivity.
Qed.

Lemma performRequest_response {I} `{HttpRequestInput I}
    (c : Client) (req : Request) (input : I) (env : Env) :
  result_err (fst (performRequest c req input env)) = None ->
  result_resp (fst (performRequest c req input env)) <> None.
Proof.
  rewrite performRequest_eq.
  destruct (authorize c req env) as [[req1 | err] env1]; [| discriminate].
  destruct (readRequestBody (addHeaders c req1)) as [reqBody [err |]];
    [discriminate |].
  apply attemptLoop_response. right. split; [reflexivity | discriminate].
Qed.

(** [Get] never dereferences a nil response: it returns, or the pages
    outlast the depth allowed to the model. *)
Lemma Get_never_panics (fuel : nat) :
  forall (c : Client) (input : GetHttpRequestInput) (env : Env),
    Get fuel c input env <> Panics
    /\ forall res env',
         Get fuel c input env = Returns res env' ->
         result_err res = None -> result_resp res <> None.
Proof.
  induction fuel as [| fuel IH]; intros c input env.
  - split; [discriminate |]. intros res env' Heq. discriminate.
  - cbn [Get].
    destruct (requestUrl c input) as [url [err |]].
    { split; [discriminate |]. intros res env' Heq Herr.
      inversion Heq; subst. discriminate. }
    destruct (http_NewRequestWithContext "GET" url http_NoBody)
      as [req | err].
    2: { split; [discriminate |]. intros res env' Heq Herr.
         inversion Heq; subst. discriminate. }
    pose proof (performRequest_response c req input env) as Hresp.
    destruct (performRequest c req input env)
      as [[[[[r |] st] od] [err |]] env1]; cbn in Hresp.
    1, 3: split; [discriminate |]; intros res env' Heq Herr;
      inversion Heq; subst; discriminate.
    2: { destruct (Hresp eq_refl eq_refl). }
    destruct (isJson r).
    2: { split; [discriminate |]. intros res env' Heq Herr.
         inversion Heq; subst. discriminate. }
    destruct (io_ReadAll (Body r)) as [respBody [err |]].
    { split; [discriminate |]. intros res env' Heq Herr.
      inversion Heq; subst. discriminate. }
    destruct (json_Unmarshal respBody) as [firstOdata | err].
    2: { split; [discriminate |]. intros res env' Heq Herr.
         inversion Heq; subst. discriminate. }
    destruct (get_DisablePaging input), (NextLink firstOdata) as [link |],
      (Value firstOdata) as [firstValue |];
      try (split; [discriminate |]; intros res env' Heq Herr;
           inversion Heq; subst; discriminate).
    destruct (IH c (GetHttpRequestInput_setRawUri input link) env1)
      as [Hnp Hsome].
    destruct (Get fuel c (GetHttpRequestInput_setRawUri input link) env1)
      as [[[[[nextResp |] st'] od'] [err |]] env2 | |].
    + split; [discriminate |]. intros res env' Heq Herr.
      inversion Heq; subst. discriminate.
    + destruct (io_ReadAll (Body nextResp)) as [nextRespBody [err |]].
      { split; [discriminate |]. intros res env' Heq Herr.
        inversion Heq; subst. discriminate. }
      destruct (json_Unmarshal nextRespBody) as [nextOdata | err].
      2: { split; [discriminate |]. intros res env' Heq Herr.
           inversion Heq; subst. discriminate. }
      destruct (json_Marshal
                  match Value nextOdata with
                  | Some nextValue =>
                      OData_setValue nextOdata
                        (Some (firstValue ++ nextValue))
                  | None => nextOdata
                  end) as [newJson | err];
        split; try discriminate; intros res env' Heq Herr;
        inversion Heq; subst; discriminate.
    + split; [discriminate |]. intros res env' Heq Herr.
      inversion Heq; subst. discriminate.
    + exfalso. apply (Hsome _ _ eq_refl); reflexivity.
    + exfalso. apply Hnp. reflexivity.
    + split; [discriminate |]. intros res env' Heq. discriminate.
Qed.

(** *** [Get] and its pages *)

Section Pages.

Variables (c : Client) (input : GetHttpRequestInput).

Lemma requestUrl_rawUri (link : string) :
  link <> "" ->
  requestUrl c (GetHttpRequestInput_setRawUri input link) = (link, None).
Proof.
  intros Hne. unfold requestUrl. cbn [get_rawUri GetHttpRequestInput_setRawUri].
  destruct (String.eqb_spec link ""); [contradiction | reflexivity].
Qed.

(** Up to the content type test: the pass through [performRequest]. *)
Lemma Get_performed (fuel : nat) (env env1 : Env) (url : string)
    (req : Request) (r : Response) (st : Z) (od : option OData) :
  requestUrl c input = (url, None) ->
  http_NewRequestWithContext "GET" url http_NoBody = inl req ->
  performRequest c req input env = ((Some r, st, od, None), env1) ->
  isJson r = false ->
  Get (S fuel) c input env = Returns (Some r, st, od, None) env1.
Proof.
  intros Hurl Hreq Hperf Hjson. cbn [Get].
  rewrite Hurl, Hreq, Hperf, Hjson. reflexivity.
Qed.

(** The page is the last one that is fetched. *)
Lemma Get_last_page (fuel : nat) (env env1 : Env) (url : string)
    (req : Request) (r : Response) (st : Z) (od : option OData)
    (respBody : bytes) (firstOdata : OData) :
  requestUrl c input = (url, None) ->
  http_NewRequestWithContext "GET" url http_NoBody = inl req ->
  performRequest c req input env = ((Some r, st, od, None), env1) ->
  isJson r = true ->
  io_ReadAll (Body r) = (respBody, None) ->
  json_Unmarshal respBody = inl firstOdata ->
  get_DisablePaging input = true \/ NextLink firstOdata = None
  \/ Value firstOdata = None ->
  Get (S fuel) c input env =
  Returns (Some (Response_setBody r (NopCloser_NewBuffer respBody)),
           st, od, None) env1.
Proof.
  intros Hurl Hreq Hperf Hjson Hread Hdoc Hlast. cbn [Get].
  rewrite Hurl, Hreq, Hperf, Hjson, Hread, Hdoc.
  destruct Hlast as [Hd | [Hn | Hv]].
  - rewrite Hd. reflexivity.
  - rewrite Hn. destruct (get_DisablePaging input); reflexivity.
  - rewrite Hv.
    destruct (get_DisablePaging input), (NextLink firstOdata); reflexivity.
Qed.

(** The page has a successor, and the call for the successor returned. *)
Lemma Get_next_page (fuel : nat) (env env1 env2 : Env) (url : string)
    (req : Request) (r nextResp : Response) (st st' : Z)
    (od od' : option OData) (respBody nextRespBody newJson : bytes)
    (firstOdata nextOdata : OData) (link : string)
    (firstValue nextValue : list bytes) :
  requestUrl c input = (url, None) ->
  http_NewRequestWithContext "GET" url http_NoBody = inl req ->
  performRequest c req input env = ((Some r, st, od, None), env1) ->
  isJson r = true ->
  io_ReadAll (Body r) = (respBody, None) ->
  json_Unmarshal respBody = inl firstOdata ->
  get_DisablePaging input = false ->
  NextLink firstOdata = Some link ->
  Value firstOdata = Some firstValue ->
  Get fuel c (GetHttpRequestInput_setRawUri input link) env1 =
    Returns (Some nextResp, st', od', None) env2 ->
  io_ReadAll (Body nextResp) = (nextRespBody, None) ->
  json_Unmarshal nextRespBody = inl nextOdata ->
  Value nextOdata = Some nextValue ->
  json_Marshal (OData_setValue nextOdata (Some (firstValue ++ nextValue)))
    = inl newJson ->
  Get (S fuel) c input env =
  Returns (Some (Response_setBody r (NopCloser_NewBuffer newJson)),
           st, od, None) env2.
Proof.
  intros Hurl Hreq Hperf Hjson Hread Hdoc Hpaging Hlink Hvalue Hnext Hread'
    Hdoc' Hvalue' Hnew.
  cbn [Get].
  rewrite Hurl, Hreq, Hperf, Hjson, Hread, Hdoc, Hpaging, Hlink, Hvalue.
  rewrite Hnext, Hread', Hdoc', Hvalue', Hnew. reflexivity.
Qed.

End Pages.

(** C10.  When the response of a successful GET does not announce JSON (its
    Content-Type, in lower case, does not begin with application/json), [Get]
    returns what [performRequest] returned: the same response with the same
    body, the status and the envelope, and nothing further is requested,
    whatever the paging flag and the body are. *)
Theorem non_json_response_is_returned_unchanged
    (fuel : nat) (c : Client) (input : GetHttpRequestInput) (env env1 : Env)
    (url : string) (req : Request) (r : Response) (st : Z)
    (od : option OData) :
  requestUrl c input = (url, None) ->
  http_NewRequestWithContext "GET" url http_NoBody = inl req ->
  performRequest c req input env = ((Some r, st, od, None), env1) ->
  strings_HasPrefix
    (strings_ToLower (Header_Get (RespHeader r) "Content-Type"))
    "application/json" = false ->
  Get (S fuel) c input env = Returns (Some r, st, od, None) env1.
Proof.
  intros Hurl Hreq Hperf Hjson.
  apply Get_performed with url req; assumption.
Qed.

(** C7.  With [DisablePaging] set, a successful JSON response that carries
    a next link is answered with the bytes of that first page, as they were
    read, in a fresh buffer; the status and the envelope are those of
    [performRequest], and so is the environment: no further page is
    requested and nothing is merged. *)
Theorem disabled_paging_returns_first_page_only
    (fuel : nat) (c : Client) (input : GetHttpRequestInput) (env env1 : Env)
    (url : string) (req : Request) (r : Response) (st : Z)
    (od : option OData) (respBody : bytes) (firstOdata : OData)
    (link : string) :
  get_DisablePaging input = true ->
  requestUrl c input = (url, None) ->
  http_NewRequestWithContext "GET" url http_NoBody = inl req ->
  performRequest c req input env = ((Some r, st, od, None), env1) ->
  isJson r = true ->
  io_ReadAll (Body r) = (respBody, None) ->
  json_Unmarshal respBody = inl firstOdata ->
  NextLink firstOdata = Some link ->
  Get (S fuel) c input env =
  Returns (Some (Response_setBody r (NopCloser_NewBuffer respBody)),
           st, od, None) env1.
Proof.
  intros Hpaging Hurl Hreq Hperf Hjson Hread Hdoc _.
  apply Get_last_page with url req firstOdata; try assumption.
  left. assumption.
Qed.

(** C5.  Three JSON pages linked by next links, with the result arrays
    [v1], [v2] and [v3] (as [[a; b]], [[c]] and [[d; e]]): [Get] returns
    the first response with, as its body, the marshalled envelope of the last
    page in which the result array is [v1 ++ v2 ++ v3], the pages in the
    order they arrived.  That envelope has the annotations and the error of
    the last page and no next link.  The codec is asked for what the code
    needs of it: the merged envelopes marshal, and the one handed up from
    the second page unmarshals to itself. *)
Theorem three_pages_merge_in_arrival_order
    (fuel : nat) (c : Client) (input : GetHttpRequestInput)
    (env env1 env2 env3 : Env) (url1 link2 link3 : string)
    (req1 req2 req3 : Request) (r1 r2 r3 : Response) (st1 st2 st3 : Z)
    (od1 od2 od3 : option OData) (b1 b2 b3 m2 m1 : bytes)
    (p1 p2 p3 : OData) (v1 v2 v3 : list bytes) :
  get_DisablePaging input = false ->
  (* the first page *)
  requestUrl c input = (url1, None) ->
  http_NewRequestWithContext "GET" url1 http_NoBody = inl req1 ->
  performRequest c req1 input env = ((Some r1, st1, od1, None), env1) ->
  isJson r1 = true ->
  io_ReadAll (Body r1) = (b1, None) ->
  json_Unmarshal b1 = inl p1 ->
  NextLink p1 = Some link2 ->
  Value p1 = Some v1 ->
  (* the second page *)
  link2 <> "" ->
  http_NewRequestWithContext "GET" link2 http_NoBody = inl req2 ->
  performRequest c req2 (GetHttpRequestInput_setRawUri input link2) env1
    = ((Some r2, st2, od2, None), env2) ->
  isJson r2 = true ->
  io_ReadAll (Body r2) = (b2, None) ->
  json_Unmarshal b2 = inl p2 ->
  NextLink p2 = Some link3 ->
  Value p2 = Some v2 ->
  (* the third page *)
  link3 <> "" ->
  http_NewRequestWithContext "GET" link3 http_NoBody = inl req3 ->
  performRequest c req3 (GetHttpRequestInput_setRawUri input link3) env2
    = ((Some r3, st3, od3, None), env3) ->
  isJson r3 = true ->
  io_ReadAll (Body r3) = (b3, None) ->
  json_Unmarshal b3 = inl p3 ->
  NextLink p3 = None ->
  Value p3 = Some v3 ->
  (* the codec on the merged envelopes *)
  json_Marshal (OData_setValue p3 (Some (v2 ++ v3))) = inl m2 ->
  json_Unmarshal m2 = inl (OData_setValue p3 (Some (v2 ++ v3))) ->
  json_Marshal (OData_setValue p3 (Some (v1 ++ v2 ++ v3))) = inl m1 ->
  let merged := OData_setValue p3 (Some (v1 ++ v2 ++ v3)) in
  Get (S (S (S fuel))) c input env =
    Returns (Some (Response_setBody r1 (NopCloser_NewBuffer m1)),
             st1, od1, None) env3
  /\ json_Marshal merged = inl m1
  /\ Value merged = Some (v1 ++ v2 ++ v3)
  /\ NextLink merged = None
  /\ Annotations merged = Annotations p3
  /\ Error merged = Error p3.
Proof.
  intros Hpaging Hurl1 Hreq1 Hperf1 Hjson1 Hread1 Hdoc1 Hlink1 Hval1
    Hne2 Hreq2 Hperf2 Hjson2 Hread2 Hdoc2 Hlink2 Hval2
    Hne3 Hreq3 Hperf3 Hjson3 Hread3 Hdoc3 Hlink3 Hval3
    Hm2 Hu2 Hm1 merged.
  assert (Hthird :
            Get (S fuel) c (GetHttpRequestInput_setRawUri input link3) env2
            = Returns (Some (Response_setBody r3 (NopCloser_NewBuffer b3)),
                       st3, od3, None) env3).
  { apply Get_last_page with link3 req3 p3; try assumption.
    - apply requestUrl_rawUri. assumption.
    - right. left. assumption. }
  assert (Hsecond :
            Get (S (S fuel)) c (GetHttpRequestInput_setRawUri input link2) env1
            = Returns (Some (Response_setBody r2 (NopCloser_NewBuffer m2)),
                       st2, od2, None) env3).
  { apply Get_next_page
      with (env1 := env2) (url := link2) (req := req2)
           (nextResp := Response_setBody r3 (NopCloser_NewBuffer b3))
           (st' := st3) (od' := od3) (respBody := b2) (nextRespBody := b3)
           (firstOdata := p2) (nextOdata := p3) (link := link3)
           (firstValue := v2) (nextValue := v3);
      try assumption; try reflexivity.
    apply requestUrl_rawUri. assumption. }
  repeat split; try assumption.
  - apply Get_next_page
      with (env1 := env1) (url := url1) (req := req1)
           (nextResp := Response_setBody r2 (NopCloser_NewBuffer m2))
           (st' := st2) (od' := od2) (respBody := b1) (nextRespBody := m2)
           (firstOdata := p1) (nextOdata := OData_setValue p3 (Some (v2 ++ v3)))
           (link := link2) (firstValue := v1) (nextValue := v2 ++ v3);
      try assumption; try reflexivity.
Qed.

(** *** [buildUri] *)




End Properties.


(** ** The client on concrete servers *)

Section Runs.

Import Scenario.

(** C1.  The server throttles every attempt and never sends Retry-After.
    The nine delays slept between the ten attempts are 2s, 4s, 8s, 16s,
    32s, 64s, 64s, 64s, 64s: the first delay is two seconds, not the initial
    delay of one second, and every delay below the cap is twice what the
    sequence 1s, 2s, 4s, ... has at its place. *)
Theorem throttled_run_sleeps_two_seconds_first :
  let run := performRequest (graphClient alwaysThrottled) usersRequest
               getUsers (start alwaysThrottled) in
  sleeps (log (snd run)) = map seconds [2; 4; 8; 16; 32; 64; 64; 64; 64]
  /\ nth_error (sleeps (log (snd run))) 0 <> Some retryBackoffInitialDelay
  /\ nth_error (sleeps (log (snd run))) 0
     = Some (2 * retryBackoffInitialDelay).
Proof.
  vm_compute. repeat split. discriminate.
Qed.

(** C2, as stated, fails here.  The server throttles the first six attempts
    and answers the seventh with 404, which the consistency-failure function
    of the input flags.  None of the six retries taken was a consistency
    retry and three attempts of the ten are left, yet the 404 is not tried
    again: the call returns the error of an unexpected status after seven
    requests, although the eighth would have been answered with 200. *)
Lemma throttling_uses_up_consistency_retries :
  let c := graphClient throttledThenNotFound in
  let env := start throttledThenNotFound in
  let run := performRequest c usersRequest getUsers env in
  (forall i, (i < 6)%nat ->
     answer usersRequestSent i (world env) = inl throttled
     /\ reachesRateLimiting c getUsers (Z.of_nat i) throttled None = true
     /\ consistencyRetry c getUsers (Z.of_nat i) throttled None = false)
  /\ answer usersRequestSent 6 (world env) = inl notFound
  /\ RetryOn404ConsistencyFailureFunc notFound None = true
  /\ answer usersRequestSent 7 (world env) = inl okEmpty
  /\ fst run = (None, 404, None, Some "unexpected status 404 with response: ")
  /\ List.length (sentRequests (log (snd run))) = 7%nat.
Proof.
  cbn zeta. split.
  - intros i Hi.
    do 6 (destruct i as [| i]; [repeat split |]). lia.
  - repeat split.
Qed.

(** The amended C2 on the server that throttles six attempts and then does
    not find the entity: the 404 of the seventh attempt is flagged, and the
    call ends with it. *)
Lemma consistency_retry_counts_every_attempt_witness :
  fst (performRequest (graphClient throttledThenNotFound) usersRequest
         getUsers (start throttledThenNotFound))
  = (None, 404, None, Some "unexpected status 404 with response: ").
Proof.
  destruct (consistency_retry_counts_every_attempt
              (graphClient throttledThenNotFound) usersRequest usersRequest
              getUsers (start throttledThenNotFound)
              (start throttledThenNotFound) []
              RetryOn404ConsistencyFailureFunc 6 notFound None)
    as (evs & _ & _ & Hsix).
  - reflexivity.
  - reflexivity.
  - reflexivity.
  - reflexivity.
  - lia.
  - intros j Hj. exists throttled, None.
    do 6 (destruct j as [| j]; [repeat split |]). lia.
  - reflexivity.
  - reflexivity.
  - reflexivity.
  - destruct Hsix as [_ Hres].
    + discriminate.
    + reflexivity.
    + exact Hres.
Defined.

(** The step behind it, on the server that never finds the entity: the 404
    is retried on the first pass and no longer on the seventh. *)
Example not_found_on_first_and_seventh_pass :
  let c := graphClient alwaysNotFound in
  evaluate c getUsers 0 initialVars notFound None = Continue initialVars
  /\ evaluate c getUsers 6 initialVars notFound None
     = evaluateStatus (rt := Scripted.runtime alwaysNotFound)
         getUsers initialVars notFound None.
Proof. split; reflexivity. Qed.

(** Without throttling the six consistency retries are all there: a server
    that never finds the entity is asked seven times. *)
Example not_found_is_asked_seven_times :
  let run := performRequest (graphClient alwaysNotFound) usersRequest
               getUsers (start alwaysNotFound) in
  List.length (sentRequests (log (snd run))) = 7%nat
  /\ result_status (fst run) = 404.
Proof. vm_compute. split; reflexivity. Qed.

(** C3 on the server that throttles every attempt. *)
Lemma exhausted_attempts_return_last_response_witness :
  fst (performRequest (graphClient alwaysThrottled) usersRequest getUsers
         (start alwaysThrottled))
  = (Some throttled, 429, None, None).
Proof.
  destruct (exhausted_attempts_return_last_response
              (graphClient alwaysThrottled) usersRequest usersRequest getUsers
              (start alwaysThrottled) (start alwaysThrottled) [])
    as (r & od & Hr & Hod & Hres).
  - reflexivity.
  - reflexivity.
  - intros i Hi. exists throttled, None.
    do 10 (destruct i as [| i]; [repeat split |]). lia.
  - vm_compute in Hr. injection Hr as <-.
    vm_compute in Hod. injection Hod as <-.
    exact Hres.
Defined.

(** C4 on the third attempt of a call: the exponential backoff computed on
    that pass is eight seconds, and two seconds are slept. *)
Lemma retry_after_two_seconds_witness :
  let c := graphClient retryAfterOnThird in
  let env := afterTwoRequests retryAfterOnThird in
  exists v' evs,
    backoff (fst (sleepAndBackoff 2 beforeThirdAttempt env)) = seconds 8
    /\ backoff v' = seconds 2
    /\ multiplier v' = 0
    /\ log (snd (attemptLoop c usersRequestSent [] getUsers 2 2
                   beforeThirdAttempt env))
       = log (afterSend usersRequestSent [] 2 beforeThirdAttempt env)
         ++ Slept (seconds 2) :: Sent usersRequestSent :: evs.
Proof.
  cbn zeta.
  destruct (retry_after_two_seconds_overrides_backoff
              (graphClient retryAfterOnThird) getUsers usersRequestSent [] 0
              2 beforeThirdAttempt (afterTwoRequests retryAfterOnThird)
              retryAfterTwo None)
    as (v' & evs & _ & Hb & Hm & Hlog & _).
  - lia.
  - reflexivity.
  - reflexivity.
  - reflexivity.
  - reflexivity.
  - reflexivity.
  - exists v', evs. split; [reflexivity |]. repeat split; assumption.
Defined.

(** The whole call on that server: 2s and 4s of exponential backoff, the two
    seconds the server asked for, then the progression from its start. *)
Example retry_after_on_third_attempt :
  let run := performRequest (graphClient retryAfterOnThird) usersRequest
               getUsers (start retryAfterOnThird) in
  sleeps (log (snd run)) = map seconds [2; 4; 2; 2]
  /\ result_status (fst run) = 200.
Proof. vm_compute. split; reflexivity. Qed.

(** C9 on the third attempt of a call that is answered with
    [Retry-After: 0]: the eight seconds computed on that pass are slept. *)
Lemma retry_after_zero_witness :
  let c := graphClient alwaysRetryAfterZero in
  let env := afterTwoRequests alwaysRetryAfterZero in
  exists evs,
    log (snd (attemptLoop c usersRequestSent [] getUsers 2 2
                beforeThirdAttempt env))
    = log (afterSend usersRequestSent [] 2 beforeThirdAttempt env)
      ++ Slept (seconds 8) :: Sent usersRequestSent :: evs.
Proof.
  cbn zeta.
  destruct (retry_after_honoured_only_when_positive
              (graphClient alwaysRetryAfterZero) getUsers usersRequestSent []
              0 2 beforeThirdAttempt (afterTwoRequests alwaysRetryAfterZero)
              retryAfterZero None)
    as (v' & _ & _ & _ & Hkeep).
  - lia.
  - reflexivity.
  - reflexivity.
  - reflexivity.
  - destruct Hkeep as (_ & _ & evs & Hlog).
    + right. right. exists (S754_zero false). split; reflexivity.
    + exists evs. exact Hlog.
Defined.

(** A missing header, text that is no number and a negative number are
    treated alike. *)
Example retry_after_not_honoured :
  let delay h := retryAfterDelay (rt := Scripted.runtime alwaysThrottled)
                   (Scripted.respond 429 h []) in
  delay [] = None
  /\ delay [("Retry-After", "soon")] = None
  /\ delay [("Retry-After", "-1")] = None
  /\ delay [("Retry-After", "0.0")] = None
  /\ delay [("Retry-After", "1.5")] = Some 1500000000.
Proof. vm_compute. repeat split. Qed.

(** A POST that is throttled ten times carries its body ten times. *)
Example post_body_is_sent_on_every_attempt :
  let run := Post (graphClient alwaysThrottled) createUser
               (start alwaysThrottled) in
  map ReqBody (sentRequests (log (snd run)))
  = repeat (Some (NopCloser_NewBuffer (post_Body createUser))) 10.
Proof. vm_compute. reflexivity. Qed.

(** C6 on a POST that is throttled on all ten attempts: ten requests go
    out, each with the bytes of the body the caller gave. *)
Lemma every_attempt_sends_the_buffered_body_witness :
  exists evs,
    log (snd (performRequest (graphClient alwaysThrottled) createUserRequest
                createUser (start alwaysThrottled)))
    = evs
    /\ (9 < List.length (sentRequests evs))%nat
    /\ forall k rk,
         nth_error (sentRequests evs) k = Some rk ->
         ReqBody rk = Some (NopCloser_NewBuffer (post_Body createUser)).
Proof.
  destruct (every_attempt_sends_the_buffered_body
              (graphClient alwaysThrottled) createUserRequest
              createUserRequest createUser (start alwaysThrottled)
              (start alwaysThrottled)
              (NopCloser_NewBuffer (post_Body createUser))
              (post_Body createUser) 9)
    as (evs & Hlog & Hlen & Hall).
  - reflexivity.
  - reflexivity.
  - reflexivity.
  - lia.
  - intros j Hj.
    do 9 (destruct j as [| j];
          [eexists _, None; repeat split; reflexivity |]).
    lia.
  - exists evs. split; [exact Hlog |]. split; [exact Hlen |].
    intros k rk Hk. apply (Hall k rk Hk).
Defined.

(** C10 on a server that answers in plain text. *)
Lemma non_json_response_witness :
  let c := graphClient alwaysPlainText in
  let env := start alwaysPlainText in
  Get 1 c getUsers env =
  Returns (Some plainText, 200, None, None)
    (snd (performRequest c usersRequest getUsers env)).
Proof.
  cbn zeta.
  apply (non_json_response_is_returned_unchanged 0
           (graphClient alwaysPlainText) getUsers (start alwaysPlainText)
           (snd (performRequest (graphClient alwaysPlainText) usersRequest
                   getUsers (start alwaysPlainText)))
           "https://graph.microsoft.com/v1.0/contoso/users" usersRequest
           plainText 200 None).
  - reflexivity.
  - reflexivity.
  - reflexivity.
  - reflexivity.
Defined.

(** C7 on the server with three pages: only the first is fetched. *)
Lemma disabled_paging_witness :
  let c := graphClient threePages in
  let env := start threePages in
  Get 1 c getUsersFirstPage env =
  Returns (Some (Scripted.respond 200 Scripted.jsonHeader
                   (Scripted.Wire.marshal page1)),
           200, Some page1, None)
    (snd (performRequest c usersRequest getUsersFirstPage env)).
Proof.
  cbn zeta.
  apply (disabled_paging_returns_first_page_only 0
           (graphClient threePages) getUsersFirstPage (start threePages)
           (snd (performRequest (graphClient threePages) usersRequest
                   getUsersFirstPage (start threePages)))
           "https://graph.microsoft.com/v1.0/contoso/users" usersRequest
           (Scripted.respond 200 Scripted.jsonHeader
              (Scripted.Wire.marshal page1))
           200 (Some page1) (Scripted.Wire.marshal page1) page1 secondLink).
  - reflexivity.
  - reflexivity.
  - reflexivity.
  - reflexivity.
  - reflexivity.
  - reflexivity.
  - vm_compute. reflexivity.
  - reflexivity.
Defined.

Example disabled_paging_sends_one_request :
  match Get 1 (graphClient threePages) getUsersFirstPage (start threePages)
  with
  | Returns _ env => sentRequests (log env)
  | _ => []
  end
  = [requestSent (addHeaders (graphClient threePages) usersRequest) []].
Proof. vm_compute. reflexivity. Qed.

(** C5 on the server with the pages [a; b], [c] and [d; e]. *)
Lemma three_pages_witness :
  let c := graphClient threePages in
  let env := start threePages in
  let env1 := snd (performRequest c usersRequest getUsers env) in
  let env2 := snd (performRequest c (pageRequest "$skiptoken=2")
                     (GetHttpRequestInput_setRawUri getUsers secondLink)
                     env1) in
  let env3 := snd (performRequest c (pageRequest "$skiptoken=3")
                     (GetHttpRequestInput_setRawUri getUsers thirdLink)
                     env2) in
  Get 3 c getUsers env =
  Returns (Some (Scripted.respond 200 Scripted.jsonHeader
                   (Scripted.Wire.marshal
                      (page None ["a"; "b"; "c"; "d"; "e"]))),
           200, Some page1, None) env3.
Proof.
  cbn zeta.
  refine (proj1
    (three_pages_merge_in_arrival_order 0
       (graphClient threePages) getUsers (start threePages)
       _ _ _
       "https://graph.microsoft.com/v1.0/contoso/users" secondLink thirdLink
       usersRequest (pageRequest "$skiptoken=2") (pageRequest "$skiptoken=3")
       (Scripted.respond 200 Scripted.jsonHeader (Scripted.Wire.marshal page1))
       (Scripted.respond 200 Scripted.jsonHeader (Scripted.Wire.marshal page2))
       (Scripted.respond 200 Scripted.jsonHeader (Scripted.Wire.marshal page3))
       200 200 200 (Some page1) (Some page2) (Some page3)
       (Scripted.Wire.marshal page1) (Scripted.Wire.marshal page2)
       (Scripted.Wire.marshal page3)
       (Scripted.Wire.marshal (page None ["c"; "d"; "e"]))
       (Scripted.Wire.marshal (page None ["a"; "b"; "c"; "d"; "e"]))
       page1 page2 page3
       [item "a"; item "b"] [item "c"] [item "d"; item "e"]
       _ _ _ _ _ _ _ _ _ _ _ _ _ _ _ _ _ _ _ _ _ _ _ _ _ _ _ _));
    try discriminate; try reflexivity; vm_compute; reflexivity.
Defined.

Example three_pages_sends_three_requests :
  match Get 3 (graphClient threePages) getUsers (start threePages) with
  | Returns (Some r, _, _, _) env =>
      (Scripted.Wire.unmarshal (content (Body r)),
       map (fun rq => RawQuery (ReqURL rq)) (sentRequests (log env)))
  | _ => (inr "", [])
  end
  = (inl (page None ["a"; "b"; "c"; "d"; "e"]),
     [""; "$skiptoken=2"; "$skiptoken=3"]).
Proof. vm_compute. reflexivity. Qed.

(** Fuel for two calls does not reach the third page. *)
Example three_pages_need_three_calls :
  Get 2 (graphClient threePages) getUsers (start threePages) = OutOfFuel.
Proof. reflexivity. Qed.



Example buildUri_users :
  buildUri (graphClient alwaysThrottled) usersUri
  = ("https://graph.microsoft.com/v1.0/contoso/users", None).
Proof. vm_compute. reflexivity. Qed.

Example buildUri_groups_with_query :
  buildUri (graphClient alwaysThrottled) groupsUri
  = ("https://graph.microsoft.com/v1.0/groups?%24filter=displayName+eq+%27a+b%27&%24top=5",
     None).
Proof. vm_compute. reflexivity. Qed.

End Runs.

(** * Further properties of the code *)

(** ** [containsStatusCode] and [backoffPower] *)

(** [containsStatusCode] is membership in the slice: in particular nothing
    is contained in the empty slice. *)
Theorem containsStatusCode_In (expected : list Z) (actual : Z) :
  containsStatusCode expected actual = true <-> In actual expected.
Proof.
  induction expected as [| v expected IH]; cbn.
  - split; [discriminate | intros []].
  - destruct (Z.eqb_spec actual v) as [-> | Hne].
    + split; [intros _; left; reflexivity | reflexivity].
    + rewrite IH. split; [intros Hin; right; exact Hin |].
      intros [Heq | Hin]; [congruence | exact Hin].
Qed.

(** [backoffPower] is the power for the exponents from one up, as long as
    the result fits an [int64] (for the base two, up to the exponent 62);
    for every exponent below one it gives the base itself, not one. *)
Theorem backoffPower_power (base exp : Z) :
  (exp <= 1 -> backoffPower base exp = base)
  /\ (1 <= exp <= 62 -> backoffPower 2 exp = 2 ^ exp).
Proof.
  split.
  - intros Hle. rewrite backoffPower_step.
    destruct (Z.leb_spec exp 1); [reflexivity | lia].
  - intros Hexp.
    replace exp with (Z.of_nat (S (Z.to_nat (exp - 1)))) by lia.
    apply backoffPower_two. lia.
Qed.

Lemma backoffPower_power_witness :
  backoffPower 7 (-3) = 7 /\ backoffPower 2 62 = 2 ^ 62.
Proof.
  split.
  - apply (proj1 (backoffPower_power 7 (-3))). lia.
  - apply (proj2 (backoffPower_power 2 62)). lia.
Defined.

(** ** Where a call of [performRequest] ends *)

Section Endings.

Context {rt : Runtime} {I : Type} `{HttpRequestInput I}.
Variables (c : Client) (input : I).

Lemma attemptLoop_transport_error (reqBody : bytes) (req : Request)
    (remaining : nat) (attempts : Z) (v : LoopVars) (env : Env)
    (err : error) :
  attempts < requestAttemptsForRateLimiting ->
  answer (requestSent req reqBody) 0 (world env) = inr err ->
  attemptLoop c req reqBody input (S remaining) attempts v env
  = ((None, status v, None, Some err), afterSend req reqBody attempts v env).
Proof.
  intros Ha Hans. cbn [attemptLoop].
  destruct (Z.ltb_spec attempts requestAttemptsForRateLimiting); [| lia].
  pose proof (sleepAndBackoff_world attempts v env) as Hw.
  unfold afterSend.
  destruct (sleepAndBackoff attempts v env) as [v1 env1] eqn:Hsb.
  cbn [snd] in *. fold (requestSent req reqBody). rewrite Do_eq.
  unfold answer in Hans. cbn [worldAfter] in Hans.
  rewrite Hw, Hans.
  replace (status v1) with (status v); [reflexivity |].
  unfold sleepAndBackoff in Hsb. inversion Hsb. reflexivity.
Qed.

Lemma attemptLoop_decode_error (reqBody : bytes) (req : Request)
    (remaining : nat) (attempts : Z) (v : LoopVars) (env : Env)
    (r : Response) (od : option OData) (err : error) :
  attempts < requestAttemptsForRateLimiting ->
  answer (requestSent req reqBody) 0 (world env) = inl r ->
  odata_FromResponse r = (od, Some err) ->
  attemptLoop c req reqBody input (S remaining) attempts v env
  = ((None, status v, od, Some err), afterSend req reqBody attempts v env).
Proof.
  intros Ha Hans Hod. cbn [attemptLoop].
  destruct (Z.ltb_spec attempts requestAttemptsForRateLimiting); [| lia].
  pose proof (sleepAndBackoff_world attempts v env) as Hw.
  unfold afterSend.
  destruct (sleepAndBackoff attempts v env) as [v1 env1] eqn:Hsb.
  cbn [snd] in *. fold (requestSent req reqBody). rewrite Do_eq.
  unfold answer in Hans. cbn [worldAfter] in Hans.
  rewrite Hw, Hans, Hod.
  replace (status v1) with (status v); [reflexivity |].
  unfold sleepAndBackoff in Hsb. inversion Hsb. reflexivity.
Qed.

Lemma unretried_judged (attempts : Z) (v : LoopVars) (r : Response)
    (od : option OData) :
  retried c input attempts r od = false ->
  match evaluate c input attempts (setResponse v r od) r od with
  | Continue _ => False
  | Break v' => (resp v', status v', o v', None) = judgedByStatus input r od
  | Return res => res = judgedByStatus input r od
  end.
Proof.
  unfold retried, reachesRateLimiting, evaluate, evaluateStatus,
    judgedByStatus.
  destruct (consistencyRetry c input attempts r od); [discriminate |].
  cbn [orb negb andb].
  destruct (containsStatusCode (GetValidStatusCodes input) (StatusCode r));
    [reflexivity |].
  destruct (match GetValidStatusFunc input with
            | Some f => f r od
            | None => false
            end); [reflexivity |].
  cbn [orb negb andb].
  destruct (containsStatusCode rateLimitingStatuses (StatusCode r));
    [discriminate | reflexivity].
Qed.

(** The call after [i] attempts that were all retried: the loop stands at
    the pass [i], with [i] requests sent. *)
Lemma performRequest_after_retries (req req1 : Request) (env env1 : Env)
    (reqBody : bytes) (i : nat) :
  authorize c req env = (inl req1, env1) ->
  readRequestBody (addHeaders c req1) = (reqBody, None) ->
  (i < 10)%nat ->
  (forall j, (j < i)%nat ->
     exists rj odj,
       answer (requestSent (addHeaders c req1) reqBody) j (world env1) = inl rj
       /\ odata_FromResponse rj = (odj, None)
       /\ retried c input (Z.of_nat j) rj odj = true) ->
  exists v' evs,
    performRequest c req input env
    = attemptLoop c (requestSent (addHeaders c req1) reqBody) reqBody input
        (S (9 - i)) (Z.of_nat i) v'
        {| world := worldAfter (requestSent (addHeaders c req1) reqBody) i
                      (world env1);
           log := log env ++ evs |}
    /\ List.length (sentRequests evs) = i.
Proof.
  intros Hauth Hbody Hi Hall.
  rewrite (performRequest_loop c req req1 input env env1 reqBody Hauth Hbody).
  assert (Hlog0 : log env1 = log env).
  { destruct (authorize_keeps c req env) as [Hl _].
    rewrite Hauth in Hl. exact Hl. }
  replace 10%nat with (i + S (9 - i))%nat by lia.
  destruct (attemptLoop_retried c reqBody input i (S (9 - i))
              (addHeaders c req1) 0 initialVars env1)
    as (v' & evs & Heq & Hlen);
    [lia | unfold requestAttemptsForRateLimiting; lia | exact Hall |].
  exists v', evs. split; [| exact Hlen].
  rewrite Heq, Hlog0. reflexivity.
Qed.

Lemma afterSend_sent (reqBody : bytes) (req : Request) (attempts : Z)
    (v : LoopVars) (world0 : World) (log0 evs : list Event) :
  exists evs1,
    log (afterSend req reqBody attempts v
           {| world := world0; log := log0 ++ evs |})
    = log0 ++ evs ++ evs1
    /\ List.length (sentRequests (evs ++ evs1))
       = S (List.length (sentRequests evs)).
Proof.
  destruct (afterSend_log reqBody req attempts v
              {| world := world0; log := log0 ++ evs |})
    as (evs1 & Hlog & Hlen).
  exists evs1. cbn [log] in Hlog. split.
  - rewrite Hlog, <- app_assoc. reflexivity.
  - rewrite sentRequests_app, length_app, Hlen. lia.
Qed.

(** The call ends at the first attempt that is not retried, with what the
    status of its response decides. *)
Lemma performRequest_first_unretried (req req1 : Request) (env env1 : Env)
    (reqBody : bytes) (i : nat) (r : Response) (od : option OData) :
  authorize c req env = (inl req1, env1) ->
  readRequestBody (addHeaders c req1) = (reqBody, None) ->
  (i < 10)%nat ->
  (forall j, (j < i)%nat ->
     exists rj odj,
       answer (requestSent (addHeaders c req1) reqBody) j (world env1) = inl rj
       /\ odata_FromResponse rj = (odj, None)
       /\ retried c input (Z.of_nat j) rj odj = true) ->
  answer (requestSent (addHeaders c req1) reqBody) i (world env1) = inl r ->
  odata_FromResponse r = (od, None) ->
  retried c input (Z.of_nat i) r od = false ->
  exists evs,
    log (snd (performRequest c req input env)) = log env ++ evs
    /\ List.length (sentRequests evs) = S i
    /\ fst (performRequest c req input env) = judgedByStatus input r od.
Proof.
  intros Hauth Hbody Hi Hall Hr Hod Hret.
  destruct (performRequest_after_retries req req1 env env1 reqBody i
              Hauth Hbody Hi Hall) as (v' & evs & Heq & Hlen).
  rewrite Heq. clear Heq.
  set (sreq := requestSent (addHeaders c req1) reqBody) in *.
  set (envi := {| world := worldAfter sreq i (world env1);
                  log := log env ++ evs |}).
  rewrite (attemptLoop_pass c reqBody input sreq (9 - i) (Z.of_nat i) v' envi
             r od)
    by (unfold requestAttemptsForRateLimiting; assumption || lia).
  pose proof (unretried_judged (Z.of_nat i)
                (fst (sleepAndBackoff (Z.of_nat i) v' envi)) r od Hret)
    as Hjudged.
  destruct (afterSend_sent reqBody sreq (Z.of_nat i) v'
              (worldAfter sreq i (world env1)) (log env) evs)
    as (evs1 & Hlog1 & Hlen1).
  fold envi in Hlog1.
  destruct (evaluate c input (Z.of_nat i)
              (setResponse (fst (sleepAndBackoff (Z.of_nat i) v' envi)) r od)
              r od) as [v2 | v2 | res]; [destruct Hjudged | |];
    exists (evs ++ evs1); cbn [fst snd];
    (split; [exact Hlog1 | split; [rewrite Hlen1, Hlen; reflexivity |]]);
    exact Hjudged.
Qed.

End Endings.

(** What the error of an unexpected status is made of. *)
Lemma unexpectedStatus_fields (r : Response) (od : option OData) (st : Z) :
  result_resp (unexpectedStatus r od st) = None
  /\ result_status (unexpectedStatus r od st) = st
  /\ result_odata (unexpectedStatus r od st) = od
  /\ result_err (unexpectedStatus r od st) <> None
  /\ (forall d e, od = Some d -> Error d = Some e -> e <> "" ->
      result_err (unexpectedStatus r od st)
      = Some ("unexpected status " ++ fmt_d (StatusCode r)
              ++ " with OData error: " ++ e)%string)
  /\ (forall b,
        od = None \/ (exists d, od = Some d
                                /\ (Error d = None \/ Error d = Some "")) ->
        io_ReadAll (Body r) = (b, None) ->
        result_err (unexpectedStatus r od st)
        = Some ("unexpected status " ++ fmt_d (StatusCode r)
                ++ " with response: " ++ fmt_bytes b)%string).
Proof.
  assert (Hshape :
            (exists e, (exists d, od = Some d /\ Error d = Some e) /\ e <> ""
                       /\ unexpectedStatus r od st
                          = (None, st, od,
                             Some ("unexpected status " ++ fmt_d (StatusCode r)
                                   ++ " with " ++ "OData error: " ++ e)%string))
            \/ ((od = None
                 \/ exists d, od = Some d
                              /\ (Error d = None \/ Error d = Some ""))
                /\ unexpectedStatus r od st
                   = match io_ReadAll (Body r) with
                     | (_, Some _) =>
                         (None, st, od,
                          Some ("unexpected status " ++ fmt_d (StatusCode r)
                                ++ ", could not read response body")%string)
                     | (respBody, None) =>
                         (None, st, od,
                          Some ("unexpected status " ++ fmt_d (StatusCode r)
                                ++ " with " ++ "response: "
                                ++ fmt_bytes respBody)%string)
                     end)).
  { unfold unexpectedStatus. destruct od as [d |].
    - destruct (Error d) as [e |] eqn:He.
      + destruct (String.eqb_spec e "") as [-> | Hne].
        * right. split; [| reflexivity]. right. exists d. auto.
        * left. exists e. split; [exists d; auto |]. split; [exact Hne |].
          reflexivity.
      + right. split; [| reflexivity]. right. exists d. auto.
    - right. split; [| reflexivity]. left. reflexivity. }
  destruct Hshape as [(e & (d & Hd & He) & Hne & ->) | [Hno ->]].
  - split; [reflexivity |]. split; [reflexivity |]. split; [reflexivity |].
    split; [discriminate |]. split.
    + intros d' e' Hd' He' _. rewrite Hd in Hd'. inversion Hd'; subst d'.
      rewrite He in He'. inversion He'. reflexivity.
    + intros b [Hn | (d' & Hd' & [Hnone | Hempty])] _.
      * rewrite Hd in Hn. discriminate.
      * rewrite Hd in Hd'. inversion Hd'; subst d'.
        rewrite He in Hnone. discriminate.
      * rewrite Hd in Hd'. inversion Hd'; subst d'.
        rewrite He in Hempty. inversion Hempty. contradiction.
  - assert (Hnoerr : forall d e, od = Some d -> Error d = Some e -> e <> "" ->
                                 False).
    { intros d e Hd He Hne.
      destruct Hno as [Hn | (d' & Hd' & [Hnone | Hempty])].
      - rewrite Hd in Hn. discriminate.
      - rewrite Hd in Hd'. inversion Hd'; subst d'.
        rewrite He in Hnone. discriminate.
      - rewrite Hd in Hd'. inversion Hd'; subst d'.
        rewrite He in Hempty. inversion Hempty. contradiction. }
    destruct (io_ReadAll (Body r)) as [b [rerr |]].
    + split; [reflexivity |]. split; [reflexivity |]. split; [reflexivity |].
      split; [discriminate |]. split.
      * intros d e Hd He Hne. destruct (Hnoerr d e Hd He Hne).
      * intros b' _ Hb. discriminate.
    + split; [reflexivity |]. split; [reflexivity |]. split; [reflexivity |].
      split; [discriminate |]. split.
      * intros d e Hd He Hne. destruct (Hnoerr d e Hd He Hne).
      * intros b' _ Hb. inversion Hb. reflexivity.
Qed.

Section Outcomes.

Context {rt : Runtime} {I : Type} `{HttpRequestInput I}.
Variables (c : Client) (input : I).
Variables (req req1 : Request) (env env1 : Env) (reqBody : bytes).

Hypothesis Hauth : authorize c req env = (inl req1, env1).
Hypothesis Hbody : readRequestBody (addHeaders c req1) = (reqBody, None).


(** After any number of retried attempts, an answer that gets no consistency
    retry and whose status is among the valid status codes, or is accepted by
    the valid-status function, ends the call: the response, its status and
    its envelope are returned with a nil error, and no further request is
    sent. *)
Theorem valid_answer_ends_the_call (i : nat) (r : Response)
    (od : option OData) :
  (i < 10)%nat ->
  retriedUpTo c input (requestSent (addHeaders c req1) reqBody) (world env1)
    i ->
  answer (requestSent (addHeaders c req1) reqBody) i (world env1) = inl r ->
  odata_FromResponse r = (od, None) ->
  consistencyRetry c input (Z.of_nat i) r od = false ->
  containsStatusCode (GetValidStatusCodes input) (StatusCode r) = true
  \/ (exists f, GetValidStatusFunc input = Some f /\ f r od = true) ->
  exists evs,
    log (snd (performRequest c req input env)) = log env ++ evs
    /\ List.length (sentRequests evs) = S i
    /\ fst (performRequest c req input env) = (Some r, StatusCode r, od, None).
Proof.
  intros Hi Hall Hr Hod Hcons Hvalid.
  assert (Hval : containsStatusCode (GetValidStatusCodes input) (StatusCode r)
                 || match GetValidStatusFunc input with
                    | Some f => f r od
                    | None => false
                    end = true).
  { destruct Hvalid as [Hv | (f & Hf & Hfr)].
    - rewrite Hv. reflexivity.
    - rewrite Hf, Hfr. apply orb_true_r. }
  assert (Hret : retried c input (Z.of_nat i) r od = false).
  { unfold retried, reachesRateLimiting. rewrite Hcons. cbn [orb negb andb].
    apply orb_prop in Hval. destruct Hval as [Hv | Hv]; rewrite Hv.
    - reflexivity.
    - cbn. rewrite andb_false_r. reflexivity. }
  destruct (performRequest_first_unretried c input req req1 env env1 reqBody
              i r od Hauth Hbody Hi Hall Hr Hod Hret)
    as (evs & Hlog & Hlen & Hres).
  exists evs. repeat split; try assumption.
  rewrite Hres. unfold judgedByStatus. rewrite Hval. reflexivity.
Qed.

(** After any number of retried attempts, an answer that gets no consistency
    retry and whose status is neither valid, nor accepted, nor of the
    rate-limiting class ends the call with an error: the response is nil,
    the status and the envelope are those of the answer, and no further
    request is sent.  The error text carries the error of the envelope when
    the envelope has one that is not empty, and the body of the response
    otherwise. *)
Theorem unexpected_status_ends_the_call (i : nat) (r : Response)
    (od : option OData) :
  (i < 10)%nat ->
  retriedUpTo c input (requestSent (addHeaders c req1) reqBody) (world env1)
    i ->
  answer (requestSent (addHeaders c req1) reqBody) i (world env1) = inl r ->
  odata_FromResponse r = (od, None) ->
  consistencyRetry c input (Z.of_nat i) r od = false ->
  containsStatusCode (GetValidStatusCodes input) (StatusCode r) = false ->
  (forall f, GetValidStatusFunc input = Some f -> f r od = false) ->
  containsStatusCode rateLimitingStatuses (StatusCode r) = false ->
  let res := fst (performRequest c req input env) in
  exists evs,
    log (snd (performRequest c req input env)) = log env ++ evs
    /\ List.length (sentRequests evs) = S i
    /\ result_resp res = None
    /\ result_status res = StatusCode r
    /\ result_odata res = od
    /\ result_err res <> None
    /\ (forall d e, od = Some d -> Error d = Some e -> e <> "" ->
        result_err res
        = Some ("unexpected status " ++ fmt_d (StatusCode r)
                ++ " with OData error: " ++ e)%string)
    /\ (forall b,
          od = None \/ (exists d, od = Some d
                                  /\ (Error d = None \/ Error d = Some "")) ->
          io_ReadAll (Body r) = (b, None) ->
          result_err res
          = Some ("unexpected status " ++ fmt_d (StatusCode r)
                  ++ " with response: " ++ fmt_bytes b)%string).
Proof.
  intros Hi Hall Hr Hod Hcons Hvalid Hfun Hrate res.
  assert (Hf : match GetValidStatusFunc input with
               | Some f => f r od
               | None => false
               end = false).
  { destruct (GetValidStatusFunc input) as [f |]; [| reflexivity].
    apply Hfun. reflexivity. }
  assert (Hret : retried c input (Z.of_nat i) r od = false).
  { unfold retried, reachesRateLimiting.
    rewrite Hcons, Hvalid, Hf, Hrate. reflexivity. }
  destruct (performRequest_first_unretried c input req req1 env env1 reqBody
              i r od Hauth Hbody Hi Hall Hr Hod Hret)
    as (evs & Hlog & Hlen & Hres).
  exists evs. split; [exact Hlog |]. split; [exact Hlen |].
  unfold res. rewrite Hres. unfold judgedByStatus.
  rewrite Hvalid, Hf. cbn [orb].
  apply unexpectedStatus_fields.
Qed.

(** A failure of the transport is returned at once and never retried: after
    any number of retried attempts, the attempt on which [Do] fails ends the
    call with that error, a nil response and a nil envelope, and no further
    request is sent. *)
Theorem transport_error_ends_the_call (i : nat) (err : error) :
  (i < 10)%nat ->
  retriedUpTo c input (requestSent (addHeaders c req1) reqBody) (world env1)
    i ->
  answer (requestSent (addHeaders c req1) reqBody) i (world env1) = inr err ->
  let res := fst (performRequest c req input env) in
  exists evs,
    log (snd (performRequest c req input env)) = log env ++ evs
    /\ List.length (sentRequests evs) = S i
    /\ result_resp res = None
    /\ result_odata res = None
    /\ result_err res = Some err
    /\ (i = 0%nat -> result_status res = 0).
Proof.
  intros Hi Hall Hans res.
  destruct (performRequest_after_retries c input req req1 env env1 reqBody i
              Hauth Hbody Hi Hall) as (v' & evs & Heq & Hlen).
  set (sreq := requestSent (addHeaders c req1) reqBody) in *.
  destruct (afterSend_sent reqBody sreq (Z.of_nat i) v'
              (worldAfter sreq i (world env1)) (log env) evs)
    as (evs1 & Hlog1 & Hlen1).
  exists (evs ++ evs1). unfold res.
  split; [| split; [| split; [| split; [| split]]]].
  - rewrite Heq.
    rewrite (attemptLoop_transport_error c input reqBody sreq (9 - i)
               (Z.of_nat i) v' _ err)
      by (unfold requestAttemptsForRateLimiting; lia || exact Hans).
    exact Hlog1.
  - rewrite Hlen1, Hlen. reflexivity.
  - rewrite Heq.
    rewrite (attemptLoop_transport_error c input reqBody sreq (9 - i)
               (Z.of_nat i) v' _ err)
      by (unfold requestAttemptsForRateLimiting; lia || exact Hans).
    reflexivity.
  - rewrite Heq.
    rewrite (attemptLoop_transport_error c input reqBody sreq (9 - i)
               (Z.of_nat i) v' _ err)
      by (unfold requestAttemptsForRateLimiting; lia || exact Hans).
    reflexivity.
  - rewrite Heq.
    rewrite (attemptLoop_transport_error c input reqBody sreq (9 - i)
               (Z.of_nat i) v' _ err)
      by (unfold requestAttemptsForRateLimiting; lia || exact Hans).
    reflexivity.
  - intros Hzero. rewrite Hzero in Hans.
    rewrite (performRequest_loop c req req1 input env env1 reqBody Hauth Hbody).
    rewrite (attemptLoop_transport_error c input reqBody (addHeaders c req1)
               9 0 initialVars env1 err)
      by (reflexivity || exact Hans).
    reflexivity.
Qed.

(** A response whose envelope does not decode ends the call at once and is
    never retried: after any number of retried attempts the call returns the
    decoder's error with a nil response and whatever envelope the decoder
    handed back, and no further request is sent. *)
Theorem decode_error_ends_the_call (i : nat) (r : Response)
    (od : option OData) (err : error) :
  (i < 10)%nat ->
  retriedUpTo c input (requestSent (addHeaders c req1) reqBody) (world env1)
    i ->
  answer (requestSent (addHeaders c req1) reqBody) i (world env1) = inl r ->
  odata_FromResponse r = (od, Some err) ->
  let res := fst (performRequest c req input env) in
  exists evs,
    log (snd (performRequest c req input env)) = log env ++ evs
    /\ List.length (sentRequests evs) = S i
    /\ result_resp res = None
    /\ result_odata res = od
    /\ result_err res = Some err.
Proof.
  intros Hi Hall Hans Hod res.
  destruct (performRequest_after_retries c input req req1 env env1 reqBody i
              Hauth Hbody Hi Hall) as (v' & evs & Heq & Hlen).
  set (sreq := requestSent (addHeaders c req1) reqBody) in *.
  destruct (afterSend_sent reqBody sreq (Z.of_nat i) v'
              (worldAfter sreq i (world env1)) (log env) evs)
    as (evs1 & Hlog1 & Hlen1).
  exists (evs ++ evs1). unfold res. rewrite Heq.
  rewrite (attemptLoop_decode_error c input reqBody sreq (9 - i)
             (Z.of_nat i) v' _ r od err)
    by (unfold requestAttemptsForRateLimiting; lia || assumption).
  cbn [fst snd]. split; [exact Hlog1 |].
  split; [rewrite Hlen1, Hlen; reflexivity |]. repeat split.
Qed.

(** Consistency failures that go away within six retries are not seen by the
    caller: when the consistency-failure function flags the first [k]
    answers ([k] at most six) and not the next one, whose status is valid,
    the call returns that answer with a nil error after exactly [k + 1]
    requests. *)
Theorem consistency_failures_are_retried (f : ConsistencyFailureFunc)
    (k : nat) (r : Response) (od : option OData) :
  DisableRetries c = false ->
  GetConsistencyFailureFunc input = Some f ->
  (k <= 6)%nat ->
  (forall j, (j < k)%nat ->
     exists rj odj,
       answer (requestSent (addHeaders c req1) reqBody) j (world env1) = inl rj
       /\ odata_FromResponse rj = (odj, None)
       /\ f rj odj = true) ->
  answer (requestSent (addHeaders c req1) reqBody) k (world env1) = inl r ->
  odata_FromResponse r = (od, None) ->
  f r od = false ->
  containsStatusCode (GetValidStatusCodes input) (StatusCode r) = true ->
  exists evs,
    log (snd (performRequest c req input env)) = log env ++ evs
    /\ List.length (sentRequests evs) = S k
    /\ fst (performRequest c req input env) = (Some r, StatusCode r, od, None).
Proof.
  intros Hdis Hf Hk Hall Hr Hod Hfr Hvalid.
  assert (Hprefix : retriedUpTo c input
                      (requestSent (addHeaders c req1) reqBody) (world env1) k).
  { intros j Hj. destruct (Hall j Hj) as (rj & odj & Hrj & Hodj & Hfj).
    exists rj, odj. repeat split; try assumption.
    unfold retried, consistencyRetry. rewrite Hdis, Hf, Hfj. cbn [negb].
    destruct (Z.ltb_spec (Z.of_nat j) requestAttemptsForConsistency)
      as [_ | Hge]; [reflexivity |].
    unfold requestAttemptsForConsistency in Hge. lia. }
  assert (Hret : retried c input (Z.of_nat k) r od = false).
  { unfold retried, reachesRateLimiting, consistencyRetry.
    rewrite Hdis, Hf, Hfr, Hvalid. reflexivity. }
  destruct (performRequest_first_unretried c input req req1 env env1 reqBody
              k r od Hauth Hbody ltac:(lia) Hprefix Hr Hod Hret)
    as (evs & Hlog & Hlen & Hres).
  exists evs. repeat split; try assumption.
  rewrite Hres. unfold judgedByStatus. rewrite Hvalid. reflexivity.
Qed.

End Outcomes.

(** ** What every call of [performRequest] keeps *)

Section Invariants.

Context {rt : Runtime}.

Lemma attemptLoop_error_no_response {I} `{HttpRequestInput I}
    (c : Client) (reqBody : bytes) (input : I) (remaining : nat) :
  forall (req : Request) (attempts : Z) (v : LoopVars) (env : Env),
    let res := fst (attemptLoop c req reqBody input remaining attempts v env) in
    result_err res <> None -> result_resp res = None.
Proof.
  induction remaining as [| n IH]; intros req attempts v env;
    cbn [attemptLoop]; cbn zeta;
    destruct (attempts <? requestAttemptsForRateLimiting);
    try (intros Herr; exfalso; apply Herr; reflexivity).
  destruct (sleepAndBackoff attempts v env) as [v1 env1].
  destruct (Do (Request_setBody req (Some (NopCloser_NewBuffer reqBody)))
              env1) as [[r | err] env2]; [| reflexivity].
  destruct (odata_FromResponse r) as [od [err |]]; [reflexivity |].
  unfold evaluate, evaluateStatus.
  destruct (consistencyRetry c input attempts r od).
  - apply IH.
  - destruct (containsStatusCode (GetValidStatusCodes input) (StatusCode r)).
    + intros Herr. exfalso. apply Herr. reflexivity.
    + destruct (match GetValidStatusFunc input with
                | Some f => f r od
                | None => false
                end).
      * intros Herr. exfalso. apply Herr. reflexivity.
      * destruct (containsStatusCode rateLimitingStatuses (StatusCode r)).
        -- apply IH.
        -- intros _. apply unexpectedStatus_fields.
Qed.


(** ** Requests and delays alternate *)

(** One delay and one request for each of the [ds]. *)
Lemma attemptLoop_alternates {I} `{HttpRequestInput I}
    (c : Client) (reqBody : bytes) (input : I) (remaining : nat) :
  forall (req : Request) (attempts : Z) (v : LoopVars) (env : Env),
    0 < attempts ->
    exists ds,
      log (snd (attemptLoop c req reqBody input remaining attempts v env))
      = log env
        ++ flat_map (fun d => [Slept d; Sent (requestSent req reqBody)]) ds
      /\ (Z.of_nat (List.length ds)
          <= Z.max 0 (requestAttemptsForRateLimiting - attempts)).
Proof.
  induction remaining as [| n IH]; intros req attempts v env Ha;
    cbn [attemptLoop];
    destruct (Z.ltb_spec attempts requestAttemptsForRateLimiting) as [Hlt | _];
    try (exists []; cbn [snd flat_map]; rewrite app_nil_r;
         split; [reflexivity | cbn [List.length]; lia]).
  unfold requestAttemptsForRateLimiting in *.
  pose proof (sleepAndBackoff_log attempts v env) as Hlog.
  destruct (sleepAndBackoff attempts v env) as [v1 env1]. cbn [snd] in Hlog.
  destruct (Z.ltb_spec 0 attempts); [| lia].
  fold (requestSent req reqBody). rewrite Do_eq.
  set (env2 := {| world := snd (HttpClient_Do (requestSent req reqBody)
                                  (world env1));
                  log := log env1 ++ [Sent (requestSent req reqBody)] |}).
  assert (Hlog2 : log env2 =
                  log env
                  ++ flat_map
                       (fun d => [Slept d; Sent (requestSent req reqBody)])
                       [backoff v])
    by (unfold env2; cbn [log flat_map]; rewrite Hlog, <- app_assoc;
        reflexivity).
  assert (Hone : Z.of_nat (List.length [backoff v]) <= Z.max 0 (10 - attempts))
    by (cbn [List.length]; lia).
  destruct (fst (HttpClient_Do (requestSent req reqBody) (world env1)))
    as [r | err].
  2: { exists [backoff v]. cbn [snd]. split; assumption. }
  destruct (odata_FromResponse r) as [od [err |]].
  { exists [backoff v]. cbn [snd]. split; assumption. }
  destruct (evaluate c input attempts (setResponse v1 r od) r od)
    as [v' | v' | res].
  - rewrite attemptLoop_usedUp.
    destruct (IH (requestSent req reqBody) (Int64.add attempts 1) v' env2)
      as (ds & Hds & Hlen).
    { rewrite add_one_small by lia. lia. }
    rewrite add_one_small in Hlen by lia.
    exists (backoff v :: ds). split.
    + rewrite Hds, Hlog2, <- app_assoc. reflexivity.
    + cbn [List.length]. lia.
  - exists [backoff v]. cbn [snd]. split; assumption.
  - exists [backoff v]. cbn [snd]. split; assumption.
Qed.

Lemma attemptLoop_from_start_alternates {I} `{HttpRequestInput I}
    (c : Client) (reqBody : bytes) (input : I) (n : nat) (rq0 : Request)
    (env1 : Env) :
  exists ds,
    log (snd (attemptLoop c rq0 reqBody input (S n) 0 initialVars env1))
    = log env1
      ++ Sent (requestSent rq0 reqBody)
         :: flat_map (fun d => [Slept d; Sent (requestSent rq0 reqBody)]) ds
    /\ (List.length ds <= 9)%nat.
Proof.
  cbn [attemptLoop].
  change (0 <? requestAttemptsForRateLimiting) with true. cbv iota.
  pose proof (sleepAndBackoff_log 0 initialVars env1) as Hlog.
  destruct (sleepAndBackoff 0 initialVars env1) as [v1 env2].
  cbn [snd] in Hlog. change (0 <? 0) with false in Hlog.
  rewrite app_nil_r in Hlog.
  fold (requestSent rq0 reqBody). rewrite Do_eq.
  set (env3 := {| world := snd (HttpClient_Do (requestSent rq0 reqBody)
                                  (world env2));
                  log := log env2 ++ [Sent (requestSent rq0 reqBody)] |}).
  assert (Hlog3 : log env3 = log env1 ++ [Sent (requestSent rq0 reqBody)])
    by (unfold env3; cbn [log]; rewrite Hlog; reflexivity).
  assert (Hfirst :
            exists ds,
              log env3
              = log env1
                ++ Sent (requestSent rq0 reqBody)
                   :: flat_map
                        (fun d => [Slept d; Sent (requestSent rq0 reqBody)]) ds
              /\ (List.length ds <= 9)%nat).
  { exists []. split; [exact Hlog3 | cbn; lia]. }
  destruct (fst (HttpClient_Do (requestSent rq0 reqBody) (world env2)))
    as [r | err]; [| exact Hfirst].
  destruct (odata_FromResponse r) as [od [err |]]; [exact Hfirst |].
  destruct (evaluate c input 0 (setResponse v1 r od) r od)
    as [v' | v' | res]; [| exact Hfirst | exact Hfirst].
  change (Int64.add 0 1) with 1. rewrite attemptLoop_usedUp.
  destruct (attemptLoop_alternates c reqBody input n (requestSent rq0 reqBody)
              1 v' env3) as (ds & Hds & Hlen); [lia |].
  exists ds. split.
  - rewrite Hds, Hlog3, <- app_assoc. reflexivity.
  - unfold requestAttemptsForRateLimiting in Hlen. lia.
Qed.

(** A call of [performRequest] sends nothing at all (when the token or the
    request body cannot be had), or it sends its request at once and then,
    at most nine times, sleeps and sends the same request again: at most ten
    requests, one delay before each request but the first, and none after
    the last. *)
Theorem performRequest_requests_and_delays_alternate {I} `{HttpRequestInput I}
    (c : Client) (req : Request) (input : I) (env : Env) :
  exists evs,
    log (snd (performRequest c req input env)) = log env ++ evs
    /\ (evs = []
        \/ exists rq ds,
             evs = Sent rq :: flat_map (fun d => [Slept d; Sent rq]) ds
             /\ (List.length ds <= 9)%nat).
Proof.
  rewrite performRequest_eq.
  destruct (authorize_keeps c req env) as [Hlog0 _].
  destruct (authorize c req env) as [[req1 | err] env1]; cbn [fst snd] in *.
  2: { exists []. rewrite app_nil_r. split; [congruence | left; reflexivity]. }
  destruct (readRequestBody (addHeaders c req1)) as [reqBody [err |]].
  { exists []. cbn [snd]. rewrite app_nil_r.
    split; [congruence | left; reflexivity]. }
  change (Z.to_nat requestAttemptsForRateLimiting) with 10%nat.
  destruct (attemptLoop_from_start_alternates c reqBody input 9
              (addHeaders c req1) env1) as (ds & Hds & Hlen).
  eexists. split.
  - rewrite Hds, Hlog0. reflexivity.
  - right. exists (requestSent (addHeaders c req1) reqBody), ds.
    split; [reflexivity | exact Hlen].
Qed.

(** With [DisableRetries] set the consistency-failure function of the input
    plays no part: two inputs with the same valid status codes and the same
    valid-status function give the same call, whatever their
    consistency-failure functions are.  Retries for rate limiting are not
    touched by the flag. *)
Theorem disabled_retries_ignore_consistency_function
    {I1} `{HttpRequestInput I1} {I2} `{HttpRequestInput I2}
    (c : Client) (req : Request) (input1 : I1) (input2 : I2) (env : Env) :
  DisableRetries c = true ->
  GetValidStatusCodes input1 = GetValidStatusCodes input2 ->
  GetValidStatusFunc input1 = GetValidStatusFunc input2 ->
  performRequest c req input1 env = performRequest c req input2 env.
Proof.
  intros Hdis Hcodes Hfun.
  assert (Hev : forall attempts v r od,
            evaluate c input1 attempts v r od
            = evaluate c input2 attempts v r od).
  { intros attempts v r od.
    unfold evaluate, consistencyRetry, evaluateStatus.
    rewrite Hdis, Hcodes, Hfun. reflexivity. }
  assert (Hloop : forall reqBody remaining rq attempts v env',
            attemptLoop c rq reqBody input1 remaining attempts v env'
            = attemptLoop c rq reqBody input2 remaining attempts v env').
  { intros reqBody remaining.
    induction remaining as [| n IH]; intros rq attempts v env';
      cbn [attemptLoop]; [reflexivity |].
    destruct (attempts <? requestAttemptsForRateLimiting); [| reflexivity].
    destruct (sleepAndBackoff attempts v env') as [v1 env1].
    destruct (Do (Request_setBody rq (Some (NopCloser_NewBuffer reqBody)))
                env1) as [[r | err] env2]; [| reflexivity].
    destruct (odata_FromResponse r) as [od [err |]]; [reflexivity |].
    rewrite Hev.
    destruct (evaluate c input2 attempts (setResponse v1 r od) r od);
      try reflexivity.
    apply IH. }
  rewrite (performRequest_eq c req input1), (performRequest_eq c req input2).
  destruct (authorize c req env) as [[req1 | err] env1]; [| reflexivity].
  destruct (readRequestBody (addHeaders c req1)) as [reqBody [err |]];
    [reflexivity |].
  apply Hloop.
Qed.

(** A Retry-After that is honoured is slept as it is: on an attempt that is
    not the last, a response that ends in the rate-limiting branch and whose
    Retry-After parses to a float [f] greater than zero makes the loop sleep
    [int64(f * 1e9)] nanoseconds before it sends the request again, and sets
    the multiplier back to zero. *)
Theorem honoured_retry_after_is_the_next_delay {I} `{HttpRequestInput I}
    (c : Client) (input : I) (req : Request) (reqBody : bytes) (n : nat)
    (attempts : Z) (v : LoopVars) (env : Env)
    (r : Response) (od : option OData) (f : Float64.float64) :
  0 <= attempts < 9 ->
  answer (requestSent req reqBody) 0 (world env) = inl r ->
  odata_FromResponse r = (od, None) ->
  reachesRateLimiting c input attempts r od = true ->
  Header_Get (RespHeader r) "Retry-After" <> "" ->
  strconv_ParseFloat (Header_Get (RespHeader r) "Retry-After") = Some f ->
  Float64.gt_zero f = true ->
  let d := Float64.to_int64 (Float64.mul f (Float64.of_int time.Second)) in
  exists v' evs,
    evaluate c input attempts
      (setResponse (fst (sleepAndBackoff attempts v env)) r od) r od
    = Continue v'
    /\ backoff v' = d
    /\ multiplier v' = 0
    /\ log (snd (attemptLoop c req reqBody input (S (S n)) attempts v env))
       = log (afterSend req reqBody attempts v env)
         ++ Slept d :: Sent (requestSent req reqBody) :: evs.
Proof.
  intros Ha Hr Hod Hrl Hne Hparse Hgt d.
  set (computed := fst (sleepAndBackoff attempts v env)).
  assert (Hd : retryAfterDelay r = Some d).
  { unfold retryAfterDelay.
    destruct (String.eqb_spec (Header_Get (RespHeader r) "Retry-After") "");
      [contradiction |].
    rewrite Hparse, Hgt. reflexivity. }
  assert (Hev : evaluate c input attempts (setResponse computed r od) r od
                = Continue
                    (setBackoff
                       (setStatus (setResponse computed r od) (StatusCode r))
                       d 0)).
  { rewrite (evaluate_rateLimiting c input attempts _ r od Hrl).
    unfold retryAfterBackoff. rewrite Hd. reflexivity. }
  destruct (attemptLoop_sleeps_then_sends c reqBody input n
              (requestSent req reqBody) (attempts + 1)
              (setBackoff
                 (setStatus (setResponse computed r od) (StatusCode r)) d 0)
              (afterSend req reqBody attempts v env)) as (evs & Hevs).
  { unfold requestAttemptsForRateLimiting. lia. }
  eexists _, evs. split; [exact Hev |].
  split; [reflexivity |]. split; [reflexivity |].
  rewrite (attemptLoop_pass c reqBody input req (S n) attempts v env r od)
    by (unfold requestAttemptsForRateLimiting; assumption || lia).
  fold computed. rewrite Hev, add_one_small by lia.
  exact Hevs.
Qed.

End Invariants.

(** ** The pages of [Get] *)

Section MorePages.

Context {rt : Runtime}.

(** A collection served in any number of linked pages is merged in the
    order of the pages.  Provided that, at every page but the last, the
    bytes handed up for the rest of the pages decode to a document with the
    result array that was handed up, and the merged envelope is rendered,
    [Get] returns the first response, its status and its envelope, with a
    nil error, at a depth of calls that is the number of pages; and for two
    pages or more the body it returns is the rendering by [json.Marshal] of
    an envelope whose result array is the concatenation of the result
    arrays of all pages, first page first.  For a single page the body is
    the bytes that were read. *)
Theorem paged_collection_is_merged (c : Client) (input : GetHttpRequestInput)
    (env env' : Env) (pages : list (list bytes)) (r : Response) (st : Z)
    (od : option OData) (body : bytes) :
  Paged c input env pages r st od body env' ->
  (forall fuel,
     Get (List.length pages + fuel) c input env
     = Returns (Some (Response_setBody r (NopCloser_NewBuffer body)),
                st, od, None) env')
  /\ (forall v rest, pages = v :: rest -> rest <> [] ->
        exists merged,
          json_Marshal merged = inl body
          /\ Value merged = Some (List.concat pages))
  /\ (forall v, pages = [v] -> io_ReadAll (Body r) = (body, None)).
Proof.
  intros Hpaged.
  induction Hpaged
    as [input env env1 r st od p v b Hfetch Hread Hlink Hvalue
       | input env env1 env2 r r' st st' od od' p d link v rest handed merged
           Hpaging Hfetch Hlink Hvalue Hrest IH Hdoc' Hvalue' Hmarshal].
  - split; [| split].
    + destruct Hfetch as (url & req & b' & Hurl & Hreq & Hperf & Hjson
                          & Hread' & Hdoc).
      assert (b' = b) by congruence. subst b'.
      intros fuel. cbn [List.length Nat.add].
      apply Get_last_page with url req p; try assumption.
      right. left. assumption.
    + intros v0 rest Heq Hne. inversion Heq; subst. contradiction.
    + intros v0 _. exact Hread.
  - destruct Hfetch as (url & req & b & Hurl & Hreq & Hperf & Hjson & Hread
                        & Hdoc).
    destruct IH as (HGet & _ & _).
    split; [| split].
    + intros fuel. cbn [List.length Nat.add].
      apply Get_next_page
        with (url := url) (req := req) (respBody := b) (firstOdata := p)
             (env1 := env1) (st' := st') (od' := od') (link := link)
             (nextResp := Response_setBody r' (NopCloser_NewBuffer handed))
             (nextRespBody := handed) (nextOdata := d)
             (firstValue := v) (nextValue := List.concat rest);
        try assumption; try reflexivity.
      apply HGet.
    + intros v0 rest0 Heq _. inversion Heq; subst.
      exists (OData_setValue d (Some (v0 ++ List.concat rest0))).
      split; [exact Hmarshal | reflexivity].
    + intros v0 Heq. inversion Heq; subst. inversion Hrest.
Qed.

(** A JSON response without a next link, or without a result array, is the
    whole answer also when paging is enabled: [Get] hands back the bytes it
    read in a fresh buffer and requests nothing further. *)
Theorem page_without_next_link_is_the_whole_answer
    (fuel : nat) (c : Client) (input : GetHttpRequestInput) (env env1 : Env)
    (r : Response) (st : Z) (od : option OData) (p : OData) :
  fetchesPage c input env r st od p env1 ->
  NextLink p = None \/ Value p = None ->
  exists b,
    io_ReadAll (Body r) = (b, None)
    /\ Get (S fuel) c input env
       = Returns (Some (Response_setBody r (NopCloser_NewBuffer b)),
                  st, od, None) env1.
Proof.
  intros (url & req & b & Hurl & Hreq & Hperf & Hjson & Hread & Hdoc) Hlast.
  exists b. split; [exact Hread |].
  apply Get_last_page with url req p; try assumption.
  right. exact Hlast.
Qed.

(** When the document handed up from the next page has no result array, the
    result array of the current page is not merged into anything: the body
    returned is that document, marshalled again, and the items of the
    current page are not in it. *)
Theorem next_page_without_results_drops_the_current_page
    (fuel : nat) (c : Client) (input : GetHttpRequestInput)
    (env env1 env2 : Env) (r nextResp : Response) (st st' : Z)
    (od od' : option OData) (p nextOdata : OData) (link : string)
    (v : list bytes) (nextBody newJson : bytes) :
  get_DisablePaging input = false ->
  fetchesPage c input env r st od p env1 ->
  NextLink p = Some link ->
  Value p = Some v ->
  Get fuel c (GetHttpRequestInput_setRawUri input link) env1
    = Returns (Some nextResp, st', od', None) env2 ->
  io_ReadAll (Body nextResp) = (nextBody, None) ->
  json_Unmarshal nextBody = inl nextOdata ->
  Value nextOdata = None ->
  json_Marshal nextOdata = inl newJson ->
  Get (S fuel) c input env
  = Returns (Some (Response_setBody r (NopCloser_NewBuffer newJson)),
             st, od, None) env2.
Proof.
  intros Hpaging (url & req & b & Hurl & Hreq & Hperf & Hjson & Hread & Hdoc)
    Hlink Hvalue Hnext Hread' Hdoc' Hvalue' Hnew.
  cbn [Get].
  rewrite Hurl, Hreq, Hperf, Hjson, Hread, Hdoc, Hpaging, Hlink, Hvalue.
  rewrite Hnext, Hread', Hdoc', Hvalue', Hnew. reflexivity.
Qed.

(** When the call for the next page returns an error, [Get] returns that
    error together with a response that is not nil: the response of the
    current page, with the status and the envelope that the failed call
    returned.  The body of that response is the stream [Get] has read to
    its end: nothing of the page is left in it. *)
Theorem error_on_next_page_returns_the_current_response
    (fuel : nat) (c : Client) (input : GetHttpRequestInput)
    (env env1 env2 : Env) (r : Response) (st st' : Z)
    (od od' : option OData) (p : OData) (link : string) (v : list bytes)
    (failed : option Response) (err : error) :
  get_DisablePaging input = false ->
  fetchesPage c input env r st od p env1 ->
  NextLink p = Some link ->
  Value p = Some v ->
  Get fuel c (GetHttpRequestInput_setRawUri input link) env1
    = Returns (failed, st', od', Some err) env2 ->
  Get (S fuel) c input env
  = Returns (Some (Response_setBody r (NopCloser_NewBuffer [])),
             st', od', Some err) env2.
Proof.
  intros Hpaging (url & req & b & Hurl & Hreq & Hperf & Hjson & Hread & Hdoc)
    Hlink Hvalue Hnext.
  cbn [Get].
  rewrite Hurl, Hreq, Hperf, Hjson, Hread, Hdoc, Hpaging, Hlink, Hvalue.
  rewrite Hnext. destruct failed; reflexivity.
Qed.

End MorePages.

(** ** Delete, Patch, Post and Put *)

Section Verbs.

Context {rt : Runtime}.

Lemma performRequest_error_no_response {I} `{HttpRequestInput I}
    (c : Client) (req : Request) (input : I) (env : Env) :
  result_err (fst (performRequest c req input env)) <> None ->
  result_resp (fst (performRequest c req input env)) = None.
Proof.
  rewrite performRequest_eq.
  destruct (authorize c req env) as [[req1 | err] env1]; [| reflexivity].
  destruct (readRequestBody (addHeaders c req1)) as [reqBody [err |]];
    [reflexivity |].
  apply attemptLoop_error_no_response.
Qed.

Lemma simpleVerb_performRequest {I} `{HttpRequestInput I}
    (method : string) (c : Client) (uri : Uri) (body : ReadCloser)
    (input : I) (env : Env) (url : string) (req : Request) :
  buildUri c uri = (url, None) ->
  http_NewRequestWithContext method url body = inl req ->
  simpleVerb method c uri body input env = performRequest c req input env.
Proof.
  intros Hurl Hreq. unfold simpleVerb. rewrite Hurl, Hreq.
  pose proof (performRequest_error_no_response c req input env) as Hnone.
  destruct (performRequest c req input env)
    as [[[[r st] od] [err |]] env1]; [| reflexivity].
  cbn in Hnone. rewrite Hnone by discriminate. reflexivity.
Qed.

Lemma simpleVerb_endpoint_error {I} `{HttpRequestInput I}
    (method : string) (c : Client) (uri : Uri) (body : ReadCloser)
    (input : I) (env : Env) (err : error) :
  url_Parse (Endpoint c) = inr err ->
  simpleVerb method c uri body input env
  = ((None, 0, None, Some ("unable to make request: " ++ err)%string), env).
Proof.
  intros Hparse. unfold simpleVerb, buildUri. rewrite Hparse. reflexivity.
Qed.

(** An endpoint that does not parse is fatal to every verb: Delete, Patch,
    Post and Put, and Get when it is not handed a raw URL, return the error
    of the URL parser marked as a failure to make the request, with a nil
    response and the status zero, and nothing is sent or slept. *)
Theorem endpoint_error_is_fatal_to_every_verb (c : Client) (env : Env)
    (err : error) :
  url_Parse (Endpoint c) = inr err ->
  let failure : Result :=
    (None, 0, None, Some ("unable to make request: " ++ err)%string) in
  (forall input, Delete c input env = (failure, env))
  /\ (forall input, Patch c input env = (failure, env))
  /\ (forall input, Post c input env = (failure, env))
  /\ (forall input, Put c input env = (failure, env))
  /\ (forall input fuel,
        get_rawUri input = "" ->
        Get (S fuel) c input env = Returns failure env).
Proof.
  intros Hparse failure.
  repeat split; intros input;
    try (apply simpleVerb_endpoint_error; exact Hparse).
  intros fuel Hraw. cbn [Get]. unfold requestUrl, buildUri.
  rewrite Hraw, Hparse. reflexivity.
Qed.

(** Delete, Patch, Post and Put add nothing to [performRequest]: once the
    URL is built and the request made, each returns what [performRequest]
    returns for that request, and leaves the environment [performRequest]
    leaves. *)
Theorem verbs_return_what_performRequest_returns (c : Client) (env : Env)
    (url : string) (req : Request) :
  (forall input,
     buildUri c (delete_Uri input) = (url, None) ->
     http_NewRequestWithContext "DELETE" url http_NoBody = inl req ->
     Delete c input env = performRequest c req input env)
  /\ (forall input,
        buildUri c (patch_Uri input) = (url, None) ->
        http_NewRequestWithContext "PATCH" url
          (NopCloser_NewBuffer (patch_Body input)) = inl req ->
        Patch c input env = performRequest c req input env)
  /\ (forall input,
        buildUri c (post_Uri input) = (url, None) ->
        http_NewRequestWithContext "POST" url
          (NopCloser_NewBuffer (post_Body input)) = inl req ->
        Post c input env = performRequest c req input env)
  /\ (forall input,
        buildUri c (put_Uri input) = (url, None) ->
        http_NewRequestWithContext "PUT" url
          (NopCloser_NewBuffer (put_Body input)) = inl req ->
        Put c input env = performRequest c req input env).
Proof.
  repeat split; intros input Hurl Hreq;
    apply simpleVerb_performRequest with url; assumption.
Qed.

Lemma addHeaders_carries (c : Client) (method : string) (u : URL)
    (body : bytes) (h : Header) :
  h = [] \/ (exists token, h = Header_Set [] "Authorization" token) ->
  carries c method body
    (requestSent
       (addHeaders c {| Method := method; ReqURL := u; ReqHeader := h;
                        ReqBody := Some (NopCloser_NewBuffer body) |})
       body).
Proof.
  intros Hh. unfold carries, requestSent, addHeaders.
  cbn [Method ReqBody ReqHeader Request_setBody Request_setHeader].
  split; [reflexivity |]. split; [reflexivity |].
  destruct (String.eqb_spec (UserAgent c) "") as [Hua | Hua];
    destruct Hh as [-> | (token & ->)]; cbn;
    repeat split; try (symmetry; exact Hua);
    rewrite String.eqb_refl; reflexivity.
Qed.

Lemma simpleVerb_carries {I} `{HttpRequestInput I}
    (method : string) (c : Client) (uri : Uri) (body : bytes)
    (input : I) (env : Env) :
  exists evs,
    log (snd (simpleVerb method c uri (NopCloser_NewBuffer body) input env))
    = log env ++ evs
    /\ Forall (carries c method body) (sentRequests evs).
Proof.
  unfold simpleVerb.
  destruct (buildUri c uri) as [url [err |]].
  { exists []. cbn [snd]. rewrite app_nil_r. split; [reflexivity | constructor]. }
  unfold http_NewRequestWithContext.
  destruct (url_Parse url) as [u | err].
  2: { exists []. cbn [snd]. rewrite app_nil_r.
       split; [reflexivity | constructor]. }
  set (req := {| Method := method; ReqURL := u; ReqHeader := [];
                 ReqBody := Some (NopCloser_NewBuffer body) |}).
  assert (Hsnd : snd (let '(r0, st, od, e, env0) :=
                        performRequest c req input env in
                      match e with
                      | Some err => ((None, st, od, Some err), env0)
                      | None => ((r0, st, od, None), env0)
                      end)
                 = snd (performRequest c req input env)).
  { destruct (performRequest c req input env)
      as [[[[r0 st] od] [err |]] env0]; reflexivity. }
  assert (Hgoal : exists evs,
            log (snd (performRequest c req input env)) = log env ++ evs
            /\ Forall (carries c method body) (sentRequests evs)).
  { rewrite performRequest_eq. unfold authorize.
    destruct (Authorizer c) as [tokenOf |].
    - destruct (tokenOf (world env)) as [[token | err] w].
      + change (readRequestBody
                  (addHeaders c
                     (Request_setHeader req
                        (Header_Set (ReqHeader req) "Authorization" token))))
          with (body, @None error). cbv iota.
        destruct (attemptLoop_sends c body input
                    (Z.to_nat requestAttemptsForRateLimiting)
                    (addHeaders c
                       (Request_setHeader req
                          (Header_Set (ReqHeader req) "Authorization" token)))
                    0 initialVars {| world := w; log := log env |})
          as (evs & Hevs & Hall).
        exists evs. split; [exact Hevs |].
        rewrite Forall_forall in *. intros rq Hin.
        rewrite (Hall rq Hin).
        apply (addHeaders_carries c method u body
                 (Header_Set [] "Authorization" token)).
        right. exists token. reflexivity.
      + exists []. cbn [snd log]. rewrite app_nil_r.
        split; [reflexivity | constructor].
    - change (readRequestBody (addHeaders c req)) with (body, @None error).
      cbv iota.
      destruct (attemptLoop_sends c body input
                  (Z.to_nat requestAttemptsForRateLimiting)
                  (addHeaders c req) 0 initialVars env)
        as (evs & Hevs & Hall).
      exists evs. split; [exact Hevs |].
      rewrite Forall_forall in *. intros rq Hin.
      rewrite (Hall rq Hin).
      apply (addHeaders_carries c method u body []).
      left. reflexivity. }
  destruct Hgoal as (evs & Hevs & Hall).
  exists evs. split; [| exact Hall].
  rewrite <- Hevs. f_equal.
  destruct (performRequest c req input env)
    as [[[[r0 st] od] [err |]] env0]; reflexivity.
Qed.

(** Every request that Delete, Patch, Post or Put sends, on the first
    attempt as on every retry, has the method of the verb, the body of the
    input (none for Delete) in a fresh buffer, the JSON Accept and
    Content-Type headers and the user agent of the client. *)
Theorem verbs_send_their_method_body_and_headers (c : Client) (env : Env) :
  (forall input,
     exists evs,
       log (snd (Delete c input env)) = log env ++ evs
       /\ Forall (carries c "DELETE" []) (sentRequests evs))
  /\ (forall input,
        exists evs,
          log (snd (Patch c input env)) = log env ++ evs
          /\ Forall (carries c "PATCH" (patch_Body input)) (sentRequests evs))
  /\ (forall input,
        exists evs,
          log (snd (Post c input env)) = log env ++ evs
          /\ Forall (carries c "POST" (post_Body input)) (sentRequests evs))
  /\ (forall input,
        exists evs,
          log (snd (Put c input env)) = log env ++ evs
          /\ Forall (carries c "PUT" (put_Body input)) (sentRequests evs)).
Proof.
  split; [| split; [| split]]; intros input.
  - unfold Delete, http_NoBody.
    exact (simpleVerb_carries "DELETE" c (delete_Uri input) [] input env).
  - unfold Patch.
    exact (simpleVerb_carries "PATCH" c (patch_Uri input) (patch_Body input)
             input env).
  - unfold Post.
    exact (simpleVerb_carries "POST" c (post_Uri input) (post_Body input)
             input env).
  - unfold Put.
    exact (simpleVerb_carries "PUT" c (put_Uri input) (put_Body input)
             input env).
Qed.

End Verbs.

(** ** [buildUri] and the slashes of the entity *)

(** Slashes at the head of the entity path make no difference to the URL
    that [buildUri] builds, however many there are. *)
Theorem buildUri_ignores_leading_slashes {rt : Runtime} (c : Client)
    (n : nat) (entity : string) (params : option Values) (tenant : bool) :
  buildUri c {| Entity := withSlashes n entity; Params := params;
                HasTenantId := tenant |}
  = buildUri c {| Entity := entity; Params := params; HasTenantId := tenant |}.
Proof.
  assert (Htrim : strings_TrimLeft (withSlashes n entity) "/"
                  = strings_TrimLeft entity "/")
    by (induction n as [| n IH]; [reflexivity | exact IH]).
  unfold buildUri. cbn [Entity Params HasTenantId]. rewrite Htrim.
  reflexivity.
Qed.

(** ** The further properties on concrete servers *)

Section MoreRuns.

Import Scenario.

Lemma valid_answer_witness :
  fst (performRequest (graphClient retryAfterOnThird) usersRequest getUsers
         (start retryAfterOnThird))
  = (Some okEmpty, 200, None, None).
Proof.
  destruct (valid_answer_ends_the_call (graphClient retryAfterOnThird) getUsers
              usersRequest usersRequest (start retryAfterOnThird)
              (start retryAfterOnThird) [] eq_refl eq_refl 4 okEmpty None)
    as (evs & _ & _ & Hres).
  - lia.
  - intros j Hj.
    do 4 (destruct j as [| j];
          [eexists _, None; repeat split; reflexivity |]).
    lia.
  - reflexivity.
  - reflexivity.
  - reflexivity.
  - left. reflexivity.
  - exact Hres.
Defined.

Lemma unexpected_status_witness :
  result_err
    (fst (performRequest (graphClient alwaysForbidden) usersRequest getUsers
            (start alwaysForbidden)))
  = Some "unexpected status 403 with OData error: Authorization_RequestDenied: Insufficient privileges".
Proof.
  destruct (unexpected_status_ends_the_call (graphClient alwaysForbidden)
              getUsers usersRequest usersRequest (start alwaysForbidden)
              (start alwaysForbidden) [] eq_refl eq_refl 0 forbidden
              (Some denied))
    as (evs & _ & _ & _ & _ & _ & _ & Htext & _).
  - lia.
  - intros j Hj. lia.
  - reflexivity.
  - vm_compute. reflexivity.
  - reflexivity.
  - reflexivity.
  - intros f Hf. discriminate.
  - reflexivity.
  - apply (Htext denied
             "Authorization_RequestDenied: Insufficient privileges");
      [reflexivity | reflexivity | discriminate].
Defined.

Lemma transport_error_witness :
  fst (performRequest (graphClient unreachable) usersRequest getUsers
         (start unreachable))
  = (None, 0, None, Some "dial tcp: connection refused").
Proof.
  destruct (transport_error_ends_the_call (graphClient unreachable) getUsers
              usersRequest usersRequest (start unreachable)
              (start unreachable) [] eq_refl eq_refl 0
              "dial tcp: connection refused")
    as (evs & _ & _ & _ & _ & _ & _).
  - lia.
  - intros j Hj. lia.
  - reflexivity.
  - reflexivity.
Defined.

Lemma decode_error_witness :
  result_err
    (fst (performRequest (graphClient alwaysGarbled) usersRequest getUsers
            (start alwaysGarbled)))
  = Some "invalid document".
Proof.
  destruct (decode_error_ends_the_call (graphClient alwaysGarbled) getUsers
              usersRequest usersRequest (start alwaysGarbled)
              (start alwaysGarbled) [] eq_refl eq_refl 0 garbled None
              "invalid document")
    as (evs & _ & _ & _ & _ & Herr).
  - lia.
  - intros j Hj. lia.
  - reflexivity.
  - vm_compute. reflexivity.
  - exact Herr.
Defined.

Lemma consistency_failures_witness :
  exists evs,
    log (snd (performRequest (graphClient notFoundThreeTimes) usersRequest
                getUsers (start notFoundThreeTimes)))
    = log (start notFoundThreeTimes) ++ evs
    /\ List.length (sentRequests evs) = 4%nat.
Proof.
  destruct (consistency_failures_are_retried (graphClient notFoundThreeTimes)
              getUsers usersRequest usersRequest (start notFoundThreeTimes)
              (start notFoundThreeTimes) [] eq_refl eq_refl
              RetryOn404ConsistencyFailureFunc 3 okEmpty None)
    as (evs & Hlog & Hlen & _).
  - reflexivity.
  - reflexivity.
  - lia.
  - intros j Hj.
    do 3 (destruct j as [| j];
          [exists notFound, None; repeat split; reflexivity |]).
    lia.
  - reflexivity.
  - reflexivity.
  - reflexivity.
  - reflexivity.
  - exists evs. split; assumption.
Defined.

Lemma disabled_retries_witness :
  performRequest (clientWithoutRetries alwaysNotFound) usersRequest getUsers
    (start alwaysNotFound)
  = performRequest (clientWithoutRetries alwaysNotFound) usersRequest
      getUsersNoRetryFunction (start alwaysNotFound).
Proof.
  apply disabled_retries_ignore_consistency_function; reflexivity.
Defined.

Lemma honoured_retry_after_witness :
  let c := graphClient alwaysRetryAfterOneAndAHalf in
  let env := afterTwoRequests alwaysRetryAfterOneAndAHalf in
  exists evs,
    log (snd (attemptLoop c usersRequestSent [] getUsers 2 2
                beforeThirdAttempt env))
    = log (afterSend usersRequestSent [] 2 beforeThirdAttempt env)
      ++ Slept 1500000000 :: Sent usersRequestSent :: evs.
Proof.
  cbn zeta.
  destruct (honoured_retry_after_is_the_next_delay
              (graphClient alwaysRetryAfterOneAndAHalf) getUsers
              usersRequestSent [] 0 2 beforeThirdAttempt
              (afterTwoRequests alwaysRetryAfterOneAndAHalf)
              retryAfterOneAndAHalf None
              (S754_finite false 6755399441055744 (-52)))
    as (v' & evs & _ & _ & _ & Hlog).
  - lia.
  - reflexivity.
  - reflexivity.
  - reflexivity.
  - discriminate.
  - vm_compute. reflexivity.
  - reflexivity.
  - exists evs. exact Hlog.
Defined.

Lemma backoff_delays_witness :
  exists evs,
    log (snd (performRequest (graphClient alwaysThrottled) usersRequest
                getUsers (start alwaysThrottled)))
    = log (start alwaysThrottled) ++ evs
    /\ (List.length (sleeps evs) <= 9)%nat.
Proof.
  destruct (backoff_delays_without_retry_after (graphClient alwaysThrottled)
              usersRequest getUsers (start alwaysThrottled))
    as (evs & Hlog & Hlen & _).
  - intros rq w r Hr. cbn in Hr. inversion Hr. reflexivity.
  - exists evs. split; assumption.
Defined.

Lemma fetchesPage_users (serve : Scripted.Server)
    (input : GetHttpRequestInput) (env : @Env (Scripted.runtime serve))
    (q : string) (url : string) (p : OData) :
  requestUrl (graphClient serve) input = (url, None) ->
  http_NewRequestWithContext (rt := Scripted.runtime serve) "GET" url
    http_NoBody = inl (pageRequest q) ->
  fst (performRequest (graphClient serve) (pageRequest q) input env)
  = (Some (Scripted.respond 200 Scripted.jsonHeader (Scripted.Wire.marshal p)),
     200, Some p, None) ->
  Scripted.Wire.unmarshal (Scripted.Wire.marshal p) = inl p ->
  fetchesPage (graphClient serve) input env
    (Scripted.respond 200 Scripted.jsonHeader (Scripted.Wire.marshal p))
    200 (Some p) p
    (snd (performRequest (graphClient serve) (pageRequest q) input env)).
Proof.
  intros Hurl Hreq Hperf Hdoc.
  exists url, (pageRequest q), (Scripted.Wire.marshal p).
  split; [exact Hurl |]. split; [exact Hreq |]. split.
  - rewrite <- Hperf. apply surjective_pairing.
  - split; [reflexivity |]. split; [reflexivity | exact Hdoc].
Qed.

Lemma paged_collection_witness :
  (forall fuel,
     Get (3 + fuel) (graphClient threePages) getUsers (start threePages)
     = Returns
         (Some (Response_setBody
                  (Scripted.respond 200 Scripted.jsonHeader
                     (Scripted.Wire.marshal page1))
                  (NopCloser_NewBuffer
                     (Scripted.Wire.marshal
                        (page None ["a"; "b"; "c"; "d"; "e"])))),
          200, Some page1, None)
         (snd (performRequest (graphClient threePages)
                 (pageRequest "$skiptoken=3")
                 (GetHttpRequestInput_setRawUri getUsers thirdLink)
                 (snd (performRequest (graphClient threePages)
                         (pageRequest "$skiptoken=2")
                         (GetHttpRequestInput_setRawUri getUsers secondLink)
                         (snd (performRequest (graphClient threePages)
                                 usersRequest getUsers
                                 (start threePages))))))))
  /\ exists merged,
       @json_Marshal (Scripted.runtime threePages) merged
       = inl (Scripted.Wire.marshal (page None ["a"; "b"; "c"; "d"; "e"]))
       /\ Value merged
          = Some [item "a"; item "b"; item "c"; item "d"; item "e"].
Proof.
  destruct (paged_collection_is_merged (graphClient threePages) getUsers
              (start threePages)
              (snd (performRequest (graphClient threePages)
                      (pageRequest "$skiptoken=3")
                      (GetHttpRequestInput_setRawUri getUsers thirdLink)
                      (snd (performRequest (graphClient threePages)
                              (pageRequest "$skiptoken=2")
                              (GetHttpRequestInput_setRawUri getUsers
                                 secondLink)
                              (snd (performRequest (graphClient threePages)
                                      usersRequest getUsers
                                      (start threePages)))))))
              [[item "a"; item "b"]; [item "c"]; [item "d"; item "e"]]
              (Scripted.respond 200 Scripted.jsonHeader
                 (Scripted.Wire.marshal page1))
              200 (Some page1)
              (Scripted.Wire.marshal (page None ["a"; "b"; "c"; "d"; "e"])))
    as (HGet & Hmerged & _).
  - apply Paged_next
      with (env1 := snd (performRequest (graphClient threePages) usersRequest
                           getUsers (start threePages)))
           (r' := Scripted.respond 200 Scripted.jsonHeader
                    (Scripted.Wire.marshal page2))
           (st' := 200) (od' := Some page2) (p := page1) (link := secondLink)
           (d := page None ["c"; "d"; "e"])
           (handed := Scripted.Wire.marshal (page None ["c"; "d"; "e"])).
    + reflexivity.
    + apply (fetchesPage_users threePages getUsers (start threePages)
               EmptyString "https://graph.microsoft.com/v1.0/contoso/users"
               page1);
        try reflexivity; vm_compute; reflexivity.
    + reflexivity.
    + reflexivity.
    + apply Paged_next
        with (env1 := snd (performRequest (graphClient threePages)
                             (pageRequest "$skiptoken=2")
                             (GetHttpRequestInput_setRawUri getUsers
                                secondLink)
                             (snd (performRequest (graphClient threePages)
                                     usersRequest getUsers
                                     (start threePages)))))
             (r' := Scripted.respond 200 Scripted.jsonHeader
                      (Scripted.Wire.marshal page3))
             (st' := 200) (od' := Some page3) (p := page2) (link := thirdLink)
             (d := page3) (handed := Scripted.Wire.marshal page3).
      * reflexivity.
      * apply (fetchesPage_users threePages
                 (GetHttpRequestInput_setRawUri getUsers secondLink) _
                 "$skiptoken=2" secondLink page2);
          try reflexivity; vm_compute; reflexivity.
      * reflexivity.
      * reflexivity.
      * apply Paged_last with (p := page3).
        -- apply (fetchesPage_users threePages
                    (GetHttpRequestInput_setRawUri getUsers thirdLink) _
                    "$skiptoken=3" thirdLink page3);
             try reflexivity; vm_compute; reflexivity.
        -- reflexivity.
        -- reflexivity.
        -- reflexivity.
      * vm_compute. reflexivity.
      * reflexivity.
      * reflexivity.
    + vm_compute. reflexivity.
    + reflexivity.
    + reflexivity.
  - split; [exact HGet |].
    apply (Hmerged [item "a"; item "b"] [[item "c"]; [item "d"; item "e"]]);
      [reflexivity | discriminate].
Defined.

Lemma page_without_next_link_witness :
  exists b,
    Get 1 (graphClient singlePage) getUsers (start singlePage)
    = Returns
        (Some (Response_setBody
                 (Scripted.respond 200 Scripted.jsonHeader
                    (Scripted.Wire.marshal page3))
                 (NopCloser_NewBuffer b)),
         200, Some page3, None)
        (snd (performRequest (graphClient singlePage) usersRequest getUsers
                (start singlePage))).
Proof.
  destruct (page_without_next_link_is_the_whole_answer 0
              (graphClient singlePage) getUsers (start singlePage)
              (snd (performRequest (graphClient singlePage) usersRequest
                      getUsers (start singlePage)))
              (Scripted.respond 200 Scripted.jsonHeader
                 (Scripted.Wire.marshal page3))
              200 (Some page3) page3) as (b & _ & HGet).
  - apply (fetchesPage_users singlePage getUsers (start singlePage)
             EmptyString "https://graph.microsoft.com/v1.0/contoso/users"
             page3);
      try reflexivity; vm_compute; reflexivity.
  - left. reflexivity.
  - exists b. exact HGet.
Defined.

Lemma next_page_without_results_witness :
  match Get 2 (graphClient pageThenSummary) getUsers (start pageThenSummary)
  with
  | Returns (Some r, _, _, _) _ => content (Body r)
  | _ => []
  end
  = Scripted.Wire.marshal summary.
Proof.
  rewrite (next_page_without_results_drops_the_current_page 1
             (graphClient pageThenSummary) getUsers (start pageThenSummary)
             (snd (performRequest (graphClient pageThenSummary) usersRequest
                     getUsers (start pageThenSummary)))
             (snd (performRequest (graphClient pageThenSummary)
                     (pageRequest "$skiptoken=2")
                     (GetHttpRequestInput_setRawUri getUsers secondLink)
                     (snd (performRequest (graphClient pageThenSummary)
                             usersRequest getUsers (start pageThenSummary)))))
             (Scripted.respond 200 Scripted.jsonHeader
                (Scripted.Wire.marshal page1))
             (Scripted.respond 200 Scripted.jsonHeader
                (Scripted.Wire.marshal summary))
             200 200 (Some page1) (Some summary) page1 summary secondLink
             [item "a"; item "b"] (Scripted.Wire.marshal summary)
             (Scripted.Wire.marshal summary)).
  - reflexivity.
  - reflexivity.
  - apply (fetchesPage_users pageThenSummary getUsers (start pageThenSummary)
             EmptyString "https://graph.microsoft.com/v1.0/contoso/users"
             page1);
      try reflexivity; vm_compute; reflexivity.
  - reflexivity.
  - reflexivity.
  - reflexivity.
  - reflexivity.
  - vm_compute. reflexivity.
  - reflexivity.
  - reflexivity.
Defined.

Lemma error_on_next_page_witness :
  match Get 2 (graphClient pageThenForbidden) getUsers
          (start pageThenForbidden)
  with
  | Returns (Some r, st, _, Some err) _ =>
      (StatusCode r, io_ReadAll (Body r), st, err)
  | _ => (0, ([], None), 0, EmptyString)
  end
  = (200, ([], None), 403,
     "unexpected status 403 with OData error: Authorization_RequestDenied: Insufficient privileges").
Proof.
  rewrite (error_on_next_page_returns_the_current_response 1
             (graphClient pageThenForbidden) getUsers
             (start pageThenForbidden)
             (snd (performRequest (graphClient pageThenForbidden)
                     usersRequest getUsers (start pageThenForbidden)))
             (snd (performRequest (graphClient pageThenForbidden)
                     (pageRequest "$skiptoken=2")
                     (GetHttpRequestInput_setRawUri getUsers secondLink)
                     (snd (performRequest (graphClient pageThenForbidden)
                             usersRequest getUsers
                             (start pageThenForbidden)))))
             (Scripted.respond 200 Scripted.jsonHeader
                (Scripted.Wire.marshal page1))
             200 403 (Some page1) (Some denied) page1 secondLink
             [item "a"; item "b"] None
             "unexpected status 403 with OData error: Authorization_RequestDenied: Insufficient privileges").
  - reflexivity.
  - reflexivity.
  - apply (fetchesPage_users pageThenForbidden getUsers
             (start pageThenForbidden) EmptyString
             "https://graph.microsoft.com/v1.0/contoso/users" page1);
      try reflexivity; vm_compute; reflexivity.
  - reflexivity.
  - reflexivity.
  - reflexivity.
Defined.

Lemma endpoint_error_witness :
  Post (clientWithBadEndpoint alwaysThrottled) createUser
    (start alwaysThrottled)
  = ((None, 0, None,
      Some ("unable to make request: parse "
            ++ Scripted.strconv_Quote ":"
            ++ ": missing protocol scheme")%string),
     start alwaysThrottled).
Proof.
  destruct (endpoint_error_is_fatal_to_every_verb
              (clientWithBadEndpoint alwaysThrottled) (start alwaysThrottled)
              ("parse " ++ Scripted.strconv_Quote ":"
               ++ ": missing protocol scheme")%string eq_refl)
    as (_ & _ & Hpost & _).
  apply Hpost.
Defined.

Lemma verbs_return_witness :
  Post (graphClient alwaysThrottled) createUser (start alwaysThrottled)
  = performRequest (graphClient alwaysThrottled)
      {| Method := "POST"; ReqURL := usersUrl; ReqHeader := [];
         ReqBody := Some (NopCloser_NewBuffer (post_Body createUser)) |}
      createUser (start alwaysThrottled).
Proof.
  destruct (verbs_return_what_performRequest_returns
              (graphClient alwaysThrottled) (start alwaysThrottled)
              "https://graph.microsoft.com/v1.0/contoso/users"
              {| Method := "POST"; ReqURL := usersUrl; ReqHeader := [];
                 ReqBody := Some (NopCloser_NewBuffer (post_Body createUser)) |})
    as (_ & _ & Hpost & _).
  apply Hpost; reflexivity.
Defined.

End MoreRuns.
